(** * Digital-Mental-Health: the screening engine, the login and session state
    machine and the page router of [mental_health_app.py], embedded in Rocq.

    The Streamlit script is re-run from the top on every user interaction.
    One run of [main] is modelled as a function of the interaction that
    triggered it, of [st.session_state] (a finite map from attribute names
    to Python values) and of the two SQLite tables the modelled code reads
    and writes ([users] and [screening_results]).  A Python exception is the
    result [None]. *)

From Stdlib Require Import ZArith List Lia.
From stdpp Require Import base option list list_monad strings gmap fin_maps pretty sorting.

Local Open Scope string_scope.
Local Open Scope Z_scope.

(** ** Python values held in [st.session_state] *)

Inductive value :=
| VBool (b : bool)
| VStr (s : string)
| VInt (z : Z).

#[global] Instance value_eq_dec : EqDecision value.
Proof. solve_decision. Defined.

(** Truth value of an object in an [if]. *)
Definition truthy (v : value) : bool :=
  match v with
  | VBool b => b
  | VStr s => match s with EmptyString => false | String _ _ => true end
  | VInt z => negb (z =? 0)
  end.

(** [v == s] for a string literal [s]. *)
Definition eq_str (v : value) (s : string) : bool :=
  match v with
  | VStr t => String.eqb t s
  | _ => false
  end.

(** [str(v)], as an f-string formats it. *)
Definition py_str (v : value) : string :=
  match v with
  | VBool true => "True"
  | VBool false => "False"
  | VStr s => s
  | VInt z => pretty z
  end.

(** ** What a run shows: the Streamlit display calls the model keeps *)

Inductive output :=
| st_title (s : string)
| st_subheader (s : string)
| st_write (s : string)
| st_success (s : string)
| st_error (s : string)
| st_warning (s : string)
| st_info (s : string).

#[global] Instance output_eq_dec : EqDecision output.
Proof. solve_decision. Defined.

(** ** Configuration *)

(** The helpline text (its emoji and layout blanks left out). *)
Definition EMERGENCY_HELPLINE : string :=
  "Please reach out for immediate help. You are not alone. National Suicide Prevention Lifeline (India): 9152987821 KIRAN Mental Health Helpline: 1800-599-0019 If you are in immediate danger, please call your local emergency services.".

(** Python's [range(start, stop)] with step 1. *)
Record range := mk_range { start : Z; stop : Z }.

#[global] Instance range_inhabited : Inhabited range := populate (mk_range 0 0).

(** [x in r] for an integer [x]. *)
Definition in_range (x : Z) (r : range) : bool :=
  (start r <=? x) && (x <? stop r).

Definition PHQ9_THRESHOLDS : gmap string range :=
  <["none_mild" := mk_range 0 10]>
  (<["moderate" := mk_range 10 15]>
  (<["moderately_severe" := mk_range 15 20]>
  (<["severe" := mk_range 20 100]> ∅))).

Definition GAD7_THRESHOLDS : gmap string range :=
  <["none_mild" := mk_range 0 10]>
  (<["moderate" := mk_range 10 15]>
  (<["severe" := mk_range 15 22]> ∅)).

(** ** The screening instruments *)

(** The two entries of the [selectbox].  In the question texts the source's
    long dash is written as a hyphen. *)
Inductive test := PHQ9 | GAD7.

Definition questions (t : test) : list string :=
  match t with
  | PHQ9 =>
      [ "Little interest or pleasure in doing things";
        "Feeling down, depressed, or hopeless";
        "Trouble falling or staying asleep, or sleeping too much";
        "Feeling tired or having little energy";
        "Poor appetite or overeating";
        "Feeling bad about yourself - or that you are a failure or have let yourself or your family down";
        "Trouble concentrating on things, such as reading the newspaper or watching television";
        "Moving or speaking so slowly that other people could have noticed? Or the opposite - being so fidgety or restless that you have been moving around a lot more than usual";
        "Thoughts that you would be better off dead or of hurting yourself in some way" ]
  | GAD7 =>
      [ "Feeling nervous, anxious, or on edge";
        "Not being able to stop or control worrying";
        "Worrying too much about different things";
        "Trouble relaxing";
        "Being so restless that it is hard to sit still";
        "Becoming easily annoyed or irritable";
        "Feeling afraid as if something awful might happen" ]
  end.

Definition options : list string :=
  [ "Not at all"; "Several days"; "More than half the days"; "Nearly every day" ].

(** [{option: i for i, option in enumerate(options)}] *)
Definition scores : gmap string Z :=
  list_to_map (imap (fun i option => (option, Z.of_nat i)) options).

(** The loop that fills [results]: one [st.radio] per question, in order,
    each answer looked up in [scores].  [radio i] is what the [i]-th radio
    returns; a label that is no key of [scores] raises [KeyError]. *)
Definition collect_results (t : test) (radio : nat -> string) : option (list Z) :=
  mapM (fun i => scores !! radio i) (seq 0 (length (questions t))).

(** Python's [sum(results)]: a left fold from 0. *)
Definition py_sum (results : list Z) : Z :=
  fold_left Z.add results 0.

(** The [if]/[elif] chain that picks the label, the default being
    ["Unknown"]. *)
Definition categorize (t : test) (total_score : Z) : string :=
  match t with
  | PHQ9 =>
      if in_range total_score (PHQ9_THRESHOLDS !!! "none_mild")
      then "None to Mild Depression"
      else if in_range total_score (PHQ9_THRESHOLDS !!! "moderate")
      then "Moderate Depression"
      else if in_range total_score (PHQ9_THRESHOLDS !!! "moderately_severe")
      then "Moderately Severe Depression"
      else if in_range total_score (PHQ9_THRESHOLDS !!! "severe")
      then "Severe Depression"
      else "Unknown"
  | GAD7 =>
      if in_range total_score (GAD7_THRESHOLDS !!! "none_mild")
      then "None to Mild Anxiety"
      else if in_range total_score (GAD7_THRESHOLDS !!! "moderate")
      then "Moderate Anxiety"
      else if in_range total_score (GAD7_THRESHOLDS !!! "severe")
      then "Severe Anxiety"
      else "Unknown"
  end.

(** What the button computes from [results]: the total and its label. *)
Definition assess (t : test) (results : list Z) : Z * string :=
  let total_score := py_sum results in
  (total_score, categorize t total_score).

(** The closing [if total_score >= 10]: the warning and the helpline. *)
Definition crisis_prompt (total_score : Z) : list output :=
  if 10 <=? total_score
  then [ st_warning "Your score indicates you may benefit from talking to a mental health professional.";
         st_info EMERGENCY_HELPLINE ]
  else [].

Definition test_type (t : test) : string :=
  match t with PHQ9 => "PHQ-9" | GAD7 => "GAD-7" end.

(** ** The database: the [users] and [screening_results] tables

    Both tables declare [id INTEGER PRIMARY KEY AUTOINCREMENT]: SQLite keeps
    the largest id it ever gave out per table (its [sqlite_sequence] row) and
    gives the next row that number plus one.  No statement of the program
    names an id or deletes a row.  The [timestamp] column, filled by its
    default, is left out. *)

Record user_row := mk_user {
  u_id : Z;
  u_username : string;
  u_password : string
}.

Record screening_row := mk_screening {
  s_id : Z;
  s_user_id : value;
  s_test_type : string;
  s_score : Z;
  s_category : string
}.

Record db := mk_db {
  users : list user_row;
  users_seq : Z;
  screening_results : list screening_row;
  screening_results_seq : Z
}.

(** [init_db] on a fresh file: the tables are created empty. *)
Definition init_db : db := mk_db [] 0 [] 0.

(** [INSERT INTO screening_results (user_id, test_type, score, category)]
    followed by [commit]. *)
Definition insert_screening_result
    (user_id : value) (tt : string) (score : Z) (category : string) (d : db) : db :=
  let new_id := screening_results_seq d + 1 in
  mk_db (users d) (users_seq d)
        (screening_results d ++ [mk_screening new_id user_id tt score category])%list
        new_id.

(** ** Session state *)

(** [if key not in st.session_state: st.session_state.key = v] *)
Definition set_if_absent (key : string) (v : value) (ss : gmap string value)
  : gmap string value :=
  match ss !! key with
  | Some _ => ss
  | None => <[key := v]> ss
  end.

(** [del st.session_state.key]: raises when the key is absent. *)
Definition del (key : string) (ss : gmap string value) : option (gmap string value) :=
  match ss !! key with
  | Some _ => Some (delete key ss)
  | None => None
  end.

(** The first lines of [main]. *)
Definition init_session (ss : gmap string value) : gmap string value :=
  set_if_absent "current_page" (VStr "Home")
    (set_if_absent "is_moderator" (VBool false)
      (set_if_absent "logged_in" (VBool false) ss)).

Record world := mk_world {
  session_state : gmap string value;
  database : db
}.

(** ** Page routing *)

(** The page functions the [pages] dictionary names. *)
Inductive handler :=
| h_journal_page
| h_mood_tracker_page
| h_screening_page
| h_connect_page
| h_chatbot_page
| h_resources_page.

(** The [pages] dictionary, in insertion order. *)
Definition pages : list (string * option handler) :=
  [ ("Home", None);
    ("My Journal", Some h_journal_page);
    ("Mood Tracker", Some h_mood_tracker_page);
    ("Self-Screening", Some h_screening_page);
    ("Connect", Some h_connect_page);
    ("AI Companion", Some h_chatbot_page);
    ("Resources", Some h_resources_page) ].

Fixpoint assoc {A} (key : string) (l : list (string * A)) : option A :=
  match l with
  | [] => None
  | (k, v) :: l => if String.eqb k key then Some v else assoc key l
  end.

(** [pages.get(key)]: [None] for a missing key, and for ["Home"], whose
    entry is [None]. *)
Definition pages_get (key : value) : option handler :=
  match key with
  | VStr s => match assoc s pages with Some f => f | None => None end
  | _ => None
  end.

(** [list(pages.keys())[1:]] *)
Definition features : list string := tail (map fst pages).

(** What the routing part of [main] shows for a logged-in session: the home
    cards when [current_page == "Home"]; otherwise the back button and, when
    [pages.get] returned a function, that page. *)
Inductive view :=
| HomeView
| PageView (page_function : option handler).

Definition dispatch (current_page : value) : view :=
  if eq_str current_page "Home" then HomeView
  else PageView (pages_get current_page).

(** ** One run of the script *)

(** The interaction that triggered the run: the button or form that fired,
    with the values of the widgets it reads.  These are the widgets of the
    sidebar, of the home view and of the screening page; to them a widget of
    another feature page is a run without interaction ([app_event], in the
    part on the whole script, adds those). *)
Inductive event :=
| Rerun
| ClickLogout
| SubmitLogin (username password : string)
| SubmitSignup (new_username new_password : string)
| ClickGoTo (feature : string)
| ClickBack
| ClickCalculate (t : test) (radio : nat -> string).

(** [screening_page] when its button fired: score, label, insert, prompt. *)
Definition screening_page (ev : event) (w : world) : option (world * list output) :=
  match ev with
  | ClickCalculate t radio =>
      results ← collect_results t radio;
      let '(total_score, category) := assess t results in
      user_id ← session_state w !! "user_id";
      let d := insert_screening_result user_id (test_type t) total_score category
                 (database w) in
      Some (mk_world (session_state w) d,
            ([ st_subheader ("Your score is: " +:+ pretty total_score);
               st_write ("This suggests: **" +:+ category +:+ "**") ]
             ++ crisis_prompt total_score)%list)
  | _ => Some (w, [])
  end.

(** The part of a page that acts on the session keys above and on the tables
    [users] and [screening_results]: the other pages write none of them.
    Their reads of [user_id] and [username], their own tables and the chat
    history are modelled with [app_run_page], in the part on the whole
    script, whose runs restrict to the runs here (lemma [app_main_world]). *)
Definition run_page (f : handler) (ev : event) (w : world)
  : option (world * list output) :=
  match f with
  | h_screening_page => screening_page ev w
  | _ => Some (w, [])
  end.

(** The routing part of [main], reached when the sidebar did not rerun. *)
Definition routing (ev : event) (w : world) : option (world * list output) :=
  let ss := session_state w in
  logged_in ← ss !! "logged_in";
  if negb (truthy logged_in) then
    Some (w, [ st_title "Welcome to the Mental Well-being Platform";
               st_write "Please log in or sign up using the sidebar to access the platform's features." ])
  else
    current_page ← ss !! "current_page";
    match dispatch current_page with
    | HomeView =>
        username ← ss !! "username";
        let out := [ st_title ("Welcome back, " +:+ py_str username +:+ "!");
                     st_write "How can we support you today? Choose a feature to get started." ] in
        match ev with
        | ClickGoTo feature =>
            if bool_decide (feature ∈ features)
            then Some (mk_world (<["current_page" := VStr feature]> ss) (database w), out)
            else Some (w, out)
        | _ => Some (w, out)
        end
    | PageView page_function =>
        match ev with
        | ClickBack =>
            Some (mk_world (<["current_page" := VStr "Home"]> ss) (database w), [])
        | _ =>
            match page_function with
            | Some f => run_page f ev w
            | None => Some (w, [])
            end
        end
    end.

(** ** Deployment configuration

    [hash_password] is [hashlib.sha256(password.encode()).hexdigest()];
    [MOD_PASSWORD] is [os.getenv("MOD_PASSWORD", "modpass123")]. *)
Class Deployment := {
  hash_password : string -> string;
  MOD_PASSWORD : string
}.

(** ** Authentication and the run of [main] *)

Section App.

Context {deployment : Deployment}.

(** [signup]: the insert raises [sqlite3.IntegrityError] when the username
    is taken (the column is [UNIQUE]); nothing is committed then. *)
Definition signup (username password : string) (d : db) : bool * db :=
  if existsb (fun r => String.eqb (u_username r) username) (users d)
  then (false, d)
  else
    let new_id := users_seq d + 1 in
    (true,
     mk_db (users d ++ [mk_user new_id username (hash_password password)])%list new_id
           (screening_results d) (screening_results_seq d)).

(** [login]: [fetchone] of the rows matching username and password hash. *)
Definition login (username password : string) (d : db) : option user_row :=
  find (fun r => String.eqb (u_username r) username
                 && String.eqb (u_password r) (hash_password password))
       (users d).

(** The sidebar of [main].  The boolean tells whether [st.rerun()] ended the
    run. *)
Definition sidebar (ev : event) (w : world) : option (world * list output * bool) :=
  let ss := session_state w in
  logged_in ← ss !! "logged_in";
  if truthy logged_in then
    username ← ss !! "username";
    let out := [ st_success ("Logged in as **" +:+ py_str username +:+ "**") ] in
    match ev with
    | ClickLogout =>
        let ss := <["logged_in" := VBool false]> ss in
        let ss := <["is_moderator" := VBool false]> ss in
        let ss := <["current_page" := VStr "Home"]> ss in
        ss ← del "username" ss;
        ss ← del "user_id" ss;
        Some (mk_world ss (database w), out, true)
    | _ => Some (w, out, false)
    end
  else
    match ev with
    | SubmitLogin username password =>
        if String.eqb username "moderator" && String.eqb password MOD_PASSWORD then
          let ss := <["logged_in" := VBool true]> ss in
          let ss := <["is_moderator" := VBool true]> ss in
          let ss := <["username" := VStr "moderator"]> ss in
          let ss := <["user_id" := VInt 0]> ss in
          Some (mk_world ss (database w), [], true)
        else
          match login username password (database w) with
          | Some user =>
              let ss := <["logged_in" := VBool true]> ss in
              let ss := <["username" := VStr (u_username user)]> ss in
              let ss := <["user_id" := VInt (u_id user)]> ss in
              Some (mk_world ss (database w), [], true)
          | None =>
              Some (w, [ st_error "Invalid username or password" ], false)
          end
    | SubmitSignup new_username new_password =>
        let '(created, d) := signup new_username new_password (database w) in
        if created
        then Some (mk_world ss d, [ st_success "Account created! Please log in." ], false)
        else Some (mk_world ss d, [ st_error "Username already exists." ], false)
    | _ => Some (w, [], false)
    end.

(** One run of [main]: the new state and what the run displayed. *)
Definition main (ev : event) (w : world) : option (world * list output) :=
  let w := mk_world (init_session (session_state w)) (database w) in
  '(w, out, rerun) ← sidebar ev w;
  if (rerun : bool) then Some (w, out)
  else
    '(w, out') ← routing ev w;
    Some (w, (out ++ out')%list).

(** A write to the database by any browser session. *)
Inductive db_step (d : db) : db -> Prop :=
| db_signup username password :
    db_step d (signup username password d).2
| db_screening user_id tt score category :
    db_step d (insert_screening_result user_id tt score category d).

(** The states of one browser session over the shared database: the script
    starts with an empty session on a fresh database; each interaction runs
    [main]; other sessions write to the database in between. *)
Inductive reachable : world -> Prop :=
| reachable_initial : reachable (mk_world ∅ init_db)
| reachable_main w ev w' out :
    reachable w -> main ev w = Some (w', out) -> reachable w'
| reachable_other w d' :
    reachable w -> db_step (database w) d' ->
    reachable (mk_world (session_state w) d').

End App.

(** * Properties *)

(** ** The assessment engine *)

(** A response as the spec defines it: one answer in 0..3 per question. *)
Definition valid_response (t : test) (results : list Z) : Prop :=
  length results = length (questions t) /\ Forall (fun a => 0 <= a <= 3) results.

(** The spec's [score]: the sum of all elements. *)
Definition spec_score (responses : list Z) : Z := foldr Z.add 0 responses.

(** The largest total of an instrument, as the spec gives it. *)
Definition max_total (t : test) : Z :=
  match t with PHQ9 => 27 | GAD7 => 21 end.

Lemma question_count t :
  length (questions t) = match t with PHQ9 => 9%nat | GAD7 => 7%nat end.
Proof. destruct t; reflexivity. Qed.

Lemma PHQ9_THRESHOLDS_lookup :
  PHQ9_THRESHOLDS !!! "none_mild" = mk_range 0 10 /\
  PHQ9_THRESHOLDS !!! "moderate" = mk_range 10 15 /\
  PHQ9_THRESHOLDS !!! "moderately_severe" = mk_range 15 20 /\
  PHQ9_THRESHOLDS !!! "severe" = mk_range 20 100.
Proof. repeat split; vm_compute; reflexivity. Qed.

Lemma GAD7_THRESHOLDS_lookup :
  GAD7_THRESHOLDS !!! "none_mild" = mk_range 0 10 /\
  GAD7_THRESHOLDS !!! "moderate" = mk_range 10 15 /\
  GAD7_THRESHOLDS !!! "severe" = mk_range 15 22.
Proof. repeat split; vm_compute; reflexivity. Qed.

Lemma in_range_spec x lo hi :
  in_range x (mk_range lo hi) = true <-> lo <= x < hi.
Proof. unfold in_range; simpl. rewrite andb_true_iff, Z.leb_le, Z.ltb_lt. tauto. Qed.

(** The chain with the dictionary lookups evaluated. *)
Lemma categorize_PHQ9 total :
  categorize PHQ9 total =
    if in_range total (mk_range 0 10) then "None to Mild Depression"
    else if in_range total (mk_range 10 15) then "Moderate Depression"
    else if in_range total (mk_range 15 20) then "Moderately Severe Depression"
    else if in_range total (mk_range 20 100) then "Severe Depression"
    else "Unknown".
Proof.
  destruct PHQ9_THRESHOLDS_lookup as (E1 & E2 & E3 & E4).
  unfold categorize. rewrite E1, E2, E3, E4. reflexivity.
Qed.

Lemma categorize_GAD7 total :
  categorize GAD7 total =
    if in_range total (mk_range 0 10) then "None to Mild Anxiety"
    else if in_range total (mk_range 10 15) then "Moderate Anxiety"
    else if in_range total (mk_range 15 22) then "Severe Anxiety"
    else "Unknown".
Proof.
  destruct GAD7_THRESHOLDS_lookup as (E1 & E2 & E3).
  unfold categorize. rewrite E1, E2, E3. reflexivity.
Qed.

(** Decides every [in_range] test of the goal, leaving linear arithmetic. *)
Ltac split_ranges :=
  repeat match goal with
  | |- context [in_range ?x (mk_range ?lo ?hi)] =>
      let E := fresh "E" in
      destruct (in_range x (mk_range lo hi)) eqn:E;
      [ apply in_range_spec in E
      | apply not_true_iff_false in E; rewrite in_range_spec in E ]
  end.

Lemma py_sum_acc results acc :
  fold_left Z.add results acc = acc + spec_score results.
Proof.
  revert acc. induction results as [|a results IH]; intros acc; simpl.
  - lia.
  - rewrite IH. unfold spec_score. simpl. lia.
Qed.

Lemma py_sum_spec results : py_sum results = spec_score results.
Proof. unfold py_sum. rewrite py_sum_acc. lia. Qed.

Lemma spec_score_bounds results :
  Forall (fun a => 0 <= a <= 3) results ->
  0 <= spec_score results <= 3 * Z.of_nat (length results).
Proof.
  induction 1 as [|a results Ha _ IH]; simpl.
  - unfold spec_score; simpl; lia.
  - change (spec_score (a :: results)) with (a + spec_score results). lia.
Qed.

Lemma valid_response_total t results :
  valid_response t results -> 0 <= py_sum results <= max_total t.
Proof.
  intros [Hlen Hall]. rewrite py_sum_spec.
  pose proof (spec_score_bounds _ Hall) as Hb.
  rewrite Hlen, question_count in Hb. destruct t; simpl in *; lia.
Qed.

(** [scores] maps the four labels to 0, 1, 2, 3 and nothing else. *)
Lemma scores_lookup_Some label z :
  scores !! label = Some z <->
  (label = "Not at all" /\ z = 0) \/ (label = "Several days" /\ z = 1) \/
  (label = "More than half the days" /\ z = 2) \/
  (label = "Nearly every day" /\ z = 3).
Proof.
  unfold scores, options. cbn [imap list_to_map foldr fmap curry].
  rewrite !lookup_insert_Some, lookup_empty. simpl.
  split.
  - intros [[<- <-]|[? [[<- <-]|[? [[<- <-]|[? [[<- <-]|[? ?]]]]]]]];
      auto 6; discriminate.
  - intros [[-> ->]|[[-> ->]|[[-> ->]|[-> ->]]]].
    + left; done.
    + right; split; [done|]. left; done.
    + right; split; [done|]. right; split; [done|]. left; done.
    + right; split; [done|]. right; split; [done|].
      right; split; [done|]. left; done.
Qed.

Lemma scores_lookup_None label : scores !! label = None <-> label ∉ options.
Proof.
  unfold options. rewrite !not_elem_of_cons.
  split.
  - intros HN. repeat split; try apply not_elem_of_nil;
      intros ->; vm_compute in HN; discriminate.
  - intros (H0 & H1 & H2 & H3 & _).
    destruct (scores !! label) as [z|] eqn:E; [|done].
    apply scores_lookup_Some in E.
    destruct E as [[-> _]|[[-> _]|[[-> _]|[-> _]]]]; congruence.
Qed.

Lemma scores_range label z : scores !! label = Some z -> 0 <= z <= 3.
Proof. rewrite scores_lookup_Some. lia. Qed.

Lemma collect_results_valid t radio results :
  collect_results t radio = Some results -> valid_response t results.
Proof.
  unfold collect_results. intros H. split.
  - apply length_mapM in H. rewrite length_seq in H. congruence.
  - apply mapM_Some_1 in H.
    induction H as [|i z idxs zs Hi _ IH]; constructor; [|exact IH].
    eapply scores_range, Hi.
Qed.

Lemma collect_results_None t radio :
  collect_results t radio = None <->
  exists i, (i < length (questions t))%nat /\ radio i ∉ options.
Proof.
  unfold collect_results. rewrite mapM_None, Exists_exists. split.
  - intros (i & Hi & HN). exists i. split.
    + apply elem_of_seq in Hi. lia.
    + apply scores_lookup_None, HN.
  - intros (i & Hi & HN). exists i. split.
    + apply elem_of_seq. lia.
    + apply scores_lookup_None, HN.
Qed.

Lemma collect_results_Some t radio :
  (forall i, radio i ∈ options) ->
  exists results, collect_results t radio = Some results /\ valid_response t results.
Proof.
  intros Hradio.
  destruct (collect_results t radio) as [results|] eqn:E.
  - exists results. split; [reflexivity|]. eapply collect_results_valid, E.
  - apply collect_results_None in E as (i & _ & Hi). destruct (Hi (Hradio i)).
Qed.

(** C1, as the code has it: each label is given on exactly its band, the
    bands being those of the spec except that the last one stops at 100
    (PHQ-9) and at 22 (GAD-7); ["Unknown"] is the label of exactly the totals
    below 0 or past that stop, and of no total of a valid response. *)
Theorem categorize_bands (total : Z) :
  (0 <= total < 10 -> categorize PHQ9 total = "None to Mild Depression") /\
  (10 <= total < 15 -> categorize PHQ9 total = "Moderate Depression") /\
  (15 <= total < 20 -> categorize PHQ9 total = "Moderately Severe Depression") /\
  (20 <= total < 100 -> categorize PHQ9 total = "Severe Depression") /\
  (categorize PHQ9 total = "Unknown" <-> total < 0 \/ 100 <= total) /\
  (0 <= total < 10 -> categorize GAD7 total = "None to Mild Anxiety") /\
  (10 <= total < 15 -> categorize GAD7 total = "Moderate Anxiety") /\
  (15 <= total < 22 -> categorize GAD7 total = "Severe Anxiety") /\
  (categorize GAD7 total = "Unknown" <-> total < 0 \/ 22 <= total) /\
  (forall t results,
      valid_response t results -> py_sum results = total ->
      categorize t total <> "Unknown").
Proof.
  rewrite categorize_PHQ9, categorize_GAD7.
  repeat match goal with |- _ /\ _ => split | |- _ <-> _ => split end;
    try (split_ranges; intros H; first [reflexivity | discriminate | lia]).
  intros t results Hv <-. pose proof (valid_response_total _ _ Hv) as Hb.
    destruct t; [rewrite categorize_PHQ9 | rewrite categorize_GAD7];
      simpl in Hb; split_ranges; first [discriminate | lia].
Qed.

(** C1 at work: the boundary totals of the spec's tables. *)
Lemma categorize_boundaries :
  (categorize PHQ9 9 = "None to Mild Depression" /\
   categorize PHQ9 10 = "Moderate Depression" /\
   categorize PHQ9 14 = "Moderate Depression" /\
   categorize PHQ9 15 = "Moderately Severe Depression" /\
   categorize PHQ9 19 = "Moderately Severe Depression" /\
   categorize PHQ9 20 = "Severe Depression") /\
  (categorize GAD7 9 = "None to Mild Anxiety" /\
   categorize GAD7 10 = "Moderate Anxiety" /\
   categorize GAD7 14 = "Moderate Anxiety" /\
   categorize GAD7 15 = "Severe Anxiety").
Proof.
  repeat apply conj.
  - apply (categorize_bands 9); lia.
  - apply (categorize_bands 10); lia.
  - apply (categorize_bands 14); lia.
  - apply (categorize_bands 15); lia.
  - apply (categorize_bands 19); lia.
  - apply (categorize_bands 20); lia.
  - apply (categorize_bands 9); lia.
  - apply (categorize_bands 10); lia.
  - apply (categorize_bands 14); lia.
  - apply (categorize_bands 15); lia.
Defined.

(** C1 as stated fails: a PHQ-9 total of 100 and a GAD-7 total of 22 are
    non-negative and labelled ["Unknown"]. *)
Lemma categorize_unknown_past_last_band :
  categorize PHQ9 100 = "Unknown" /\ categorize GAD7 22 = "Unknown".
Proof. split; vm_compute; reflexivity. Qed.

(** C3: for a valid response the computed total is the sum of its elements
    and lies between 0 and 27 (PHQ-9) or 21 (GAD-7). *)
Theorem total_score_valid_response (t : test) (results : list Z) :
  valid_response t results ->
  (assess t results).1 = spec_score results /\
  0 <= (assess t results).1 <= max_total t.
Proof.
  intros Hv. unfold assess. cbn [fst]. split.
  - apply py_sum_spec.
  - apply valid_response_total, Hv.
Qed.

(** C3 at work: the largest PHQ-9 response totals 27. *)
Lemma total_score_valid_response_witness :
  valid_response PHQ9 [3; 3; 3; 3; 3; 3; 3; 3; 3] /\
  (assess PHQ9 [3; 3; 3; 3; 3; 3; 3; 3; 3]).1 = 27 /\
  0 <= (assess PHQ9 [3; 3; 3; 3; 3; 3; 3; 3; 3]).1 <= 27.
Proof.
  assert (Hv : valid_response PHQ9 [3; 3; 3; 3; 3; 3; 3; 3; 3]).
  { split; [reflexivity|]. repeat constructor; lia. }
  split; [exact Hv|].
  exact (total_score_valid_response PHQ9 [3; 3; 3; 3; 3; 3; 3; 3; 3] Hv).
Defined.

(** ** The screening page *)

(** What the button does once the answers are collected and the session
    holds a [user_id]. *)
Lemma screening_page_calculate t radio w results user_id :
  collect_results t radio = Some results ->
  session_state w !! "user_id" = Some user_id ->
  screening_page (ClickCalculate t radio) w =
    Some (mk_world (session_state w)
            (insert_screening_result user_id (test_type t) (py_sum results)
               (categorize t (py_sum results)) (database w)),
          ([ st_subheader ("Your score is: " +:+ pretty (py_sum results));
             st_write ("This suggests: **" +:+ categorize t (py_sum results) +:+ "**") ]
           ++ crisis_prompt (py_sum results))%list).
Proof.
  intros Hres Huid. unfold screening_page, assess.
  rewrite Hres. simpl. rewrite Huid. reflexivity.
Qed.

Lemma screening_page_inv t radio w w' out :
  screening_page (ClickCalculate t radio) w = Some (w', out) ->
  exists results user_id,
    collect_results t radio = Some results /\
    session_state w !! "user_id" = Some user_id.
Proof.
  unfold screening_page. intros H.
  destruct (collect_results t radio) as [results|]; [|discriminate].
  simpl in H.
  destruct (session_state w !! "user_id") as [user_id|]; [|discriminate].
  eauto.
Qed.

Lemma crisis_prompt_shown total :
  st_info EMERGENCY_HELPLINE ∈ crisis_prompt total <-> 10 <= total.
Proof.
  unfold crisis_prompt. destruct (Z.leb_spec 10 total) as [Hle|Hlt].
  - split; [intros _; exact Hle|]. intros _. set_solver.
  - split; [|lia]. intros Hin. apply elem_of_nil in Hin. destruct Hin.
Qed.

(** C2: for both instruments the helpline prompt is among what a scored
    submission displays if and only if the total is at least 10; and what is
    shown is no function of the label, for either instrument. *)
Theorem crisis_prompt_iff_total (t : test) (radio : nat -> string) (w w' : world)
    (out : list output) :
  screening_page (ClickCalculate t radio) w = Some (w', out) ->
  (exists results,
      collect_results t radio = Some results /\
      (st_info EMERGENCY_HELPLINE ∈ out <-> 10 <= py_sum results)) /\
  ~ (exists f : string -> list output,
        forall total, crisis_prompt total = f (categorize t total)).
Proof.
  intros H. split.
  - destruct (screening_page_inv _ _ _ _ _ H) as (results & user_id & Hres & Huid).
    exists results. split; [exact Hres|].
    rewrite (screening_page_calculate _ _ _ _ _ Hres Huid) in H.
    injection H as _ <-.
    rewrite !elem_of_cons, crisis_prompt_shown.
    split; [|tauto]. intros [Hin|[Hin|Hle]]; [discriminate..|exact Hle].
  - intros [f Hf].
    pose proof (Hf (-1)) as Hlow. pose proof (Hf 100) as Hhigh.
    assert (Hcat : categorize t (-1) = categorize t 100)
      by (destruct t; vm_compute; reflexivity).
    rewrite Hcat, <- Hhigh in Hlow. vm_compute in Hlow. discriminate.
Qed.

(** C4 as stated fails: the scoring step checks neither length nor range; a
    two-element list with answers 5 and 7 is scored 12. *)
Lemma assess_scores_malformed :
  assess PHQ9 [5; 7] = (12, "Moderate Depression").
Proof. vm_compute. reflexivity. Qed.

(** The entry for question [i] is the position, among the options, of the
    label the [i]-th radio returned. *)
Lemma collect_results_lookup t radio results i :
  collect_results t radio = Some results ->
  (i < length (questions t))%nat ->
  exists pos : nat,
    options !! pos = Some (radio i) /\ results !! i = Some (Z.of_nat pos).
Proof.
  unfold collect_results. intros Hres Hi.
  apply mapM_Some_1 in Hres.
  assert (Hseq : seq 0 (length (questions t)) !! i = Some i)
    by (apply lookup_seq; lia).
  destruct (Forall2_lookup_l _ _ _ _ _ Hres Hseq) as (z & Hz & Hscore).
  apply scores_lookup_Some in Hscore.
  destruct Hscore as [[Hl ->]|[[Hl ->]|[[Hl ->]|[Hl ->]]]]; rewrite Hl.
  - exists 0%nat. split; [reflexivity|exact Hz].
  - exists 1%nat. split; [reflexivity|exact Hz].
  - exists 2%nat. split; [reflexivity|exact Hz].
  - exists 3%nat. split; [reflexivity|exact Hz].
Qed.

(** C4, as the code has it: the page builds the response itself, one entry
    per question, each the position 0..3 of the radio's label; a label
    outside the four options raises before any score is computed or stored;
    the scoring step sums whatever list it is given. *)
Theorem collect_results_well_formed (t : test) (radio : nat -> string) (w : world) :
  (collect_results t radio = None <->
     exists i, (i < length (questions t))%nat /\ radio i ∉ options) /\
  (collect_results t radio = None ->
     screening_page (ClickCalculate t radio) w = None) /\
  (forall results,
     collect_results t radio = Some results ->
     valid_response t results /\
     forall i, (i < length (questions t))%nat ->
       exists pos : nat,
         options !! pos = Some (radio i) /\ results !! i = Some (Z.of_nat pos)) /\
  (forall results : list Z, (assess t results).1 = spec_score results).
Proof.
  split; [apply collect_results_None|].
  split; [|split].
  - intros HN. unfold screening_page. rewrite HN. reflexivity.
  - intros results Hres. split; [exact (collect_results_valid _ _ _ Hres)|].
    intros i Hi. exact (collect_results_lookup _ _ _ _ Hres Hi).
  - intros results. apply py_sum_spec.
Qed.

(** ** The page router *)

Lemma assoc_None {A} key (l : list (string * A)) :
  key ∉ map fst l -> assoc key l = None.
Proof.
  induction l as [|[k v] l IH]; [reflexivity|].
  simpl. rewrite not_elem_of_cons. intros [Hne Hout].
  destruct (String.eqb k key) eqn:E.
  - apply String.eqb_eq in E. congruence.
  - apply IH, Hout.
Qed.

(** C8, as the code has it: ["Home"] gives the home view, the name of a
    registered page gives that page's function, and any other value gives
    the page view with no function to call (a back button over an empty
    page), not the home view. *)
Theorem dispatch_spec (current_page : value) :
  (current_page = VStr "Home" -> dispatch current_page = HomeView) /\
  (forall name f,
      current_page = VStr name -> (name, Some f) ∈ pages ->
      dispatch current_page = PageView (Some f)) /\
  ((forall name, current_page = VStr name -> name ∉ map fst pages) ->
   dispatch current_page = PageView None).
Proof.
  split; [intros ->; reflexivity|]. split.
  - intros name f -> Hin. unfold pages in Hin.
    apply elem_of_cons in Hin as [[= ]|Hin].
    repeat (apply elem_of_cons in Hin as [[= -> ->]|Hin]; [vm_compute; reflexivity|]).
    apply elem_of_nil in Hin. destruct Hin.
  - intros Hunknown. destruct current_page as [b|name|z]; try reflexivity.
    specialize (Hunknown name eq_refl).
    unfold dispatch, pages_get. rewrite (assoc_None _ _ Hunknown).
    simpl. destruct (String.eqb name "Home") eqn:E; [|reflexivity].
    apply String.eqb_eq in E. subst name. exfalso. apply Hunknown.
    vm_compute. left.
Qed.

(** C8 as stated fails: a page name that is not registered does not get the
    home view. *)
Lemma dispatch_unrecognized_not_home :
  dispatch (VStr "Settings") = PageView None.
Proof. vm_compute. reflexivity. Qed.

(** ** Session state across runs *)

(** [st.session_state.logged_in] and [.is_moderator] read as conditions; a
    session that has not run [main] yet holds neither. *)
Definition authenticated (ss : gmap string value) : bool :=
  match ss !! "logged_in" with Some v => truthy v | None => false end.

Definition privileged (ss : gmap string value) : bool :=
  match ss !! "is_moderator" with Some v => truthy v | None => false end.

Lemma set_if_absent_lookup key v ss key' :
  set_if_absent key v ss !! key' =
    match ss !! key' with
    | Some v' => Some v'
    | None => if decide (key = key') then Some v else None
    end.
Proof.
  unfold set_if_absent. destruct (ss !! key) as [v0|] eqn:E.
  - destruct (ss !! key') eqn:E'; [reflexivity|].
    case_decide; [congruence|reflexivity].
  - rewrite lookup_insert. case_decide.
    + subst key'. rewrite E. reflexivity.
    + destruct (ss !! key'); reflexivity.
Qed.

(** [init_session] keeps every key that is set and adds the three defaults. *)
Lemma init_session_lookup ss key :
  init_session ss !! key =
    match ss !! key with
    | Some v => Some v
    | None =>
        if decide (key = "logged_in") then Some (VBool false)
        else if decide (key = "is_moderator") then Some (VBool false)
        else if decide (key = "current_page") then Some (VStr "Home")
        else None
    end.
Proof.
  unfold init_session. rewrite !set_if_absent_lookup.
  destruct (ss !! key); [reflexivity|].
  repeat case_decide; congruence.
Qed.

Lemma init_session_authenticated ss :
  exists v, init_session ss !! "logged_in" = Some v /\ truthy v = authenticated ss.
Proof.
  rewrite init_session_lookup. unfold authenticated.
  destruct (ss !! "logged_in") as [v|]; eauto.
Qed.

Lemma init_session_idem ss : init_session (init_session ss) = init_session ss.
Proof.
  apply map_eq. intros key. rewrite init_session_lookup.
  destruct (init_session ss !! key) eqn:E; [reflexivity|].
  rewrite init_session_lookup in E.
  destruct (ss !! key); [discriminate|].
  repeat case_decide; congruence.
Qed.

Lemma init_session_keep ss key v :
  ss !! key = Some v -> init_session ss !! key = Some v.
Proof. intros H. rewrite init_session_lookup, H. reflexivity. Qed.

(** ** Invariants of the tables and of the session *)

(** The rows of [users] as the program leaves them: ids handed out from 1
    up to the sequence value, usernames unique. *)
Definition db_inv (d : db) : Prop :=
  0 <= users_seq d /\
  Forall (fun r => 1 <= u_id r <= users_seq d) (users d) /\
  NoDup (map u_username (users d)).

Lemma username_taken username (rows : list user_row) :
  existsb (fun r => String.eqb (u_username r) username) rows = true <->
  username ∈ map u_username rows.
Proof.
  rewrite existsb_exists, list_elem_of_fmap. split.
  - intros (r & Hin & Heq). apply String.eqb_eq in Heq.
    exists r. split; [congruence|]. apply list_elem_of_In, Hin.
  - intros (r & -> & Hin). exists r. split.
    + apply list_elem_of_In, Hin.
    + apply String.eqb_refl.
Qed.

Lemma init_db_inv : db_inv init_db.
Proof. repeat split; simpl; [lia | constructor | constructor]. Qed.

Lemma insert_screening_result_inv user_id tt score category d :
  db_inv d -> db_inv (insert_screening_result user_id tt score category d).
Proof. intros H. exact H. Qed.

(** What holds of the session in every reachable state: a logged-in session
    holds a username and a user id; a privileged one is logged in as
    "moderator" with id 0; a logged-in session that is not privileged holds
    the id and username of a stored row. *)
Record session_inv (ss : gmap string value) (d : db) : Prop := {
  inv_identity :
    authenticated ss = true ->
    is_Some (ss !! "username") /\ is_Some (ss !! "user_id");
  inv_privileged :
    privileged ss = true ->
    authenticated ss = true /\ ss !! "user_id" = Some (VInt 0) /\
    ss !! "username" = Some (VStr "moderator");
  inv_regular :
    authenticated ss = true -> privileged ss = false ->
    exists row, row ∈ users d /\ ss !! "user_id" = Some (VInt (u_id row)) /\
                ss !! "username" = Some (VStr (u_username row))
}.

Definition world_inv (w : world) : Prop :=
  db_inv (database w) /\ session_inv (session_state w) (database w).

(** The invariant reads four keys of the session and the rows of [users]. *)
Lemma session_inv_ext ss d ss' d' :
  ss' !! "logged_in" = ss !! "logged_in" ->
  ss' !! "is_moderator" = ss !! "is_moderator" ->
  ss' !! "username" = ss !! "username" ->
  ss' !! "user_id" = ss !! "user_id" ->
  (forall row, row ∈ users d -> row ∈ users d') ->
  session_inv ss d -> session_inv ss' d'.
Proof.
  intros H1 H2 H3 H4 Hsub [Hid Hpriv Hreg].
  split; unfold authenticated, privileged in *; rewrite ?H1, ?H2, ?H3, ?H4.
  - exact Hid.
  - exact Hpriv.
  - intros Ha Hp. destruct (Hreg Ha Hp) as (row & Hin & Hrow).
    exists row. split; [apply Hsub, Hin|exact Hrow].
Qed.

Lemma session_inv_anonymous ss d :
  authenticated ss = false -> privileged ss = false -> session_inv ss d.
Proof. intros Ha Hp. split; rewrite ?Ha, ?Hp; discriminate. Qed.

Lemma init_session_inv ss d : session_inv ss d -> session_inv (init_session ss) d.
Proof.
  intros Hinv. split; unfold authenticated, privileged;
    rewrite !init_session_lookup; intros Ha.
  - destruct (ss !! "logged_in") as [v|] eqn:E; [|discriminate].
    destruct (inv_identity _ _ Hinv) as [[u Hu] [i Hi]].
    { unfold authenticated. rewrite E. exact Ha. }
    rewrite Hu, Hi. eauto.
  - destruct (ss !! "is_moderator") as [v|] eqn:E; [|discriminate].
    destruct (inv_privileged _ _ Hinv) as (Hauth & Hi & Hu).
    { unfold privileged. rewrite E. exact Ha. }
    unfold authenticated in Hauth.
    destruct (ss !! "logged_in") as [v'|]; [|discriminate].
    rewrite Hi, Hu. auto.
  - intros Hp. destruct (ss !! "logged_in") as [v|] eqn:E; [|discriminate].
    destruct (inv_regular _ _ Hinv) as (row & Hin & Hi & Hu).
    { unfold authenticated. rewrite E. exact Ha. }
    { unfold privileged. destruct (ss !! "is_moderator"); [exact Hp|reflexivity]. }
    exists row. rewrite Hi, Hu. auto.
Qed.

(** Runs the script up to the next lookup or test that is not decided. *)
Ltac run_script :=
  cbn [mbind option_bind session_state database fst snd negb].

Tactic Notation "run_script" "in" hyp(H) :=
  cbn [mbind option_bind session_state database fst snd negb] in H.

(** * Properties of the application, for every deployment *)

Section AppProperties.

Context {deployment : Deployment}.

(** ** The credential store *)

Lemma signup_fresh username password d :
  username ∉ map u_username (users d) ->
  signup username password d =
    (true,
     mk_db (users d ++ [mk_user (users_seq d + 1) username (hash_password password)])%list
           (users_seq d + 1) (screening_results d) (screening_results_seq d)).
Proof.
  intros Hfresh. unfold signup.
  destruct (existsb _ (users d)) eqn:E; [|reflexivity].
  apply username_taken in E. contradiction.
Qed.

Lemma signup_rejected username password d :
  username ∈ map u_username (users d) ->
  signup username password d = (false, d).
Proof.
  intros Htaken. apply username_taken in Htaken.
  unfold signup. rewrite Htaken. reflexivity.
Qed.

Lemma signup_inv username password d :
  db_inv d -> db_inv (signup username password d).2.
Proof.
  intros (Hseq & Hids & Hnames).
  destruct (decide (username ∈ map u_username (users d))) as [Hin|Hout].
  - rewrite signup_rejected by exact Hin. repeat split; assumption.
  - rewrite signup_fresh by exact Hout. cbn [snd]. repeat split; simpl.
    + lia.
    + apply Forall_app. split.
      * eapply Forall_impl; [exact Hids|]. simpl. intros r Hr. lia.
      * constructor; [simpl; lia | constructor].
    + rewrite map_app. simpl. apply NoDup_app. split; [exact Hnames|]. split.
      * intros x Hx Hx'. apply list_elem_of_singleton in Hx'. subst x.
        exact (Hout Hx).
      * apply NoDup_singleton.
Qed.

Lemma db_step_inv d d' : db_inv d -> db_step d d' -> db_inv d'.
Proof.
  intros Hd [username password|user_id tt score category].
  - apply signup_inv, Hd.
  - apply insert_screening_result_inv, Hd.
Qed.

Lemma signup_keeps_rows username password d row :
  row ∈ users d -> row ∈ users (signup username password d).2.
Proof.
  intros Hin. unfold signup. destruct (existsb _ (users d)); cbn [snd users].
  - exact Hin.
  - apply elem_of_app. left. exact Hin.
Qed.

Lemma db_step_keeps_rows d d' row :
  db_step d d' -> row ∈ users d -> row ∈ users d'.
Proof.
  intros [username password|user_id tt score category] Hin.
  - apply signup_keeps_rows, Hin.
  - exact Hin.
Qed.

(** With unique usernames, [login] returns the row of the username exactly
    when the password hashes to what the row stores. *)
Lemma login_Some username password d row :
  NoDup (map u_username (users d)) ->
  row ∈ users d -> u_username row = username ->
  u_password row = hash_password password ->
  login username password d = Some row.
Proof.
  unfold login. generalize (users d) as rows.
  induction rows as [|r rows IH]; intros Hnd Hin Hname Hpw.
  - apply elem_of_nil in Hin. destruct Hin.
  - simpl in Hnd. apply NoDup_cons in Hnd as [Hr Hnd].
    apply elem_of_cons in Hin as [->|Hin].
    + simpl. rewrite Hname, Hpw, !String.eqb_refl. reflexivity.
    + simpl. destruct (String.eqb (u_username r) username) eqn:E.
      * apply String.eqb_eq in E. exfalso. apply Hr.
        apply list_elem_of_fmap. exists row. split; [congruence|exact Hin].
      * simpl. apply IH; assumption.
Qed.

Lemma login_row username password d row :
  login username password d = Some row ->
  row ∈ users d /\ u_username row = username /\
  u_password row = hash_password password.
Proof.
  unfold login. intros H. apply find_some in H as [Hin Heq].
  apply andb_true_iff in Heq as [Hn Hp].
  apply String.eqb_eq in Hn, Hp. split; [|split; assumption].
  apply list_elem_of_In, Hin.
Qed.

Lemma login_None username password d :
  login username password d = None <->
  ~ exists row, row ∈ users d /\ u_username row = username /\
                u_password row = hash_password password.
Proof.
  split.
  - intros HN (row & Hin & Hname & Hpw). unfold login in HN.
    apply list_elem_of_In in Hin.
    pose proof (find_none _ _ HN row Hin) as Hf. simpl in Hf.
    rewrite Hname, Hpw, !String.eqb_refl in Hf. discriminate.
  - intros Hno. destruct (login username password d) as [row|] eqn:E; [|reflexivity].
    exfalso. apply Hno. exists row. apply login_row, E.
Qed.

(** ** One run of [main] in a session that is not logged in *)

Lemma main_signup w new_username new_password :
  authenticated (session_state w) = false ->
  exists out,
    main (SubmitSignup new_username new_password) w =
      Some (mk_world (init_session (session_state w))
                     (signup new_username new_password (database w)).2,
            (if (signup new_username new_password (database w)).1
             then st_success "Account created! Please log in."
             else st_error "Username already exists.") :: out).
Proof.
  intros Hanon.
  destruct (init_session_authenticated (session_state w)) as (v & Hv & Htr).
  rewrite Hanon in Htr.
  unfold main, sidebar, routing. cbn [session_state database].
  rewrite Hv. cbn [mbind option_bind]. rewrite Htr.
  destruct (signup new_username new_password (database w)) as [[|] d'];
    run_script; rewrite Hv; run_script; rewrite Htr; run_script;
    eexists; reflexivity.
Qed.

Lemma main_login_moderator w :
  authenticated (session_state w) = false ->
  main (SubmitLogin "moderator" MOD_PASSWORD) w =
    Some (mk_world
            (<["user_id" := VInt 0]>
               (<["username" := VStr "moderator"]>
                  (<["is_moderator" := VBool true]>
                     (<["logged_in" := VBool true]>
                        (init_session (session_state w))))))
            (database w), []).
Proof.
  intros Hanon.
  destruct (init_session_authenticated (session_state w)) as (v & Hv & Htr).
  rewrite Hanon in Htr.
  unfold main, sidebar. cbn [session_state database].
  rewrite Hv. cbn [mbind option_bind]. rewrite Htr.
  rewrite !String.eqb_refl. reflexivity.
Qed.

Lemma main_login_user w username password :
  authenticated (session_state w) = false ->
  ~ (username = "moderator" /\ password = MOD_PASSWORD) ->
  exists out,
    main (SubmitLogin username password) w =
      match login username password (database w) with
      | Some user =>
          Some (mk_world
                  (<["user_id" := VInt (u_id user)]>
                     (<["username" := VStr (u_username user)]>
                        (<["logged_in" := VBool true]>
                           (init_session (session_state w)))))
                  (database w), [])
      | None =>
          Some (mk_world (init_session (session_state w)) (database w),
                st_error "Invalid username or password" :: out)
      end.
Proof.
  intros Hanon Hnot.
  destruct (init_session_authenticated (session_state w)) as (v & Hv & Htr).
  rewrite Hanon in Htr.
  unfold main, sidebar, routing. cbn [session_state database].
  rewrite Hv. cbn [mbind option_bind]. rewrite Htr.
  destruct (String.eqb username "moderator" && String.eqb password MOD_PASSWORD) eqn:E.
  { apply andb_true_iff in E as [E1 E2]. apply String.eqb_eq in E1, E2. tauto. }
  destruct (login username password (database w)) as [user|].
  - run_script. exists []. reflexivity.
  - run_script. rewrite Hv. run_script. rewrite Htr. run_script.
    eexists. reflexivity.
Qed.

(** ** Invariants of the reachable states *)

Lemma sidebar_inv ev w w' out rerun :
  sidebar ev w = Some (w', out, rerun) -> world_inv w -> world_inv w'.
Proof.
  unfold sidebar, world_inv. destruct w as [ss d]. cbn [session_state database].
  intros Hrun [Hdb Hinv].
  destruct (ss !! "logged_in") as [logged_in|] eqn:Hli; [|discriminate].
  run_script in Hrun.
  destruct (truthy logged_in) eqn:Htr.
  - destruct (ss !! "username") as [username|] eqn:Hu; [|discriminate].
    run_script in Hrun.
    destruct ev; try (injection Hrun as <- _ _; split; assumption).
    unfold del in Hrun. rewrite !lookup_insert_ne in Hrun by done.
    rewrite Hu in Hrun. run_script in Hrun.
    rewrite lookup_delete_ne in Hrun by done.
    rewrite !lookup_insert_ne in Hrun by done.
    destruct (ss !! "user_id") as [user_id|]; [|discriminate].
    injection Hrun as <- _ _. split; [exact Hdb|].
    apply session_inv_anonymous; unfold authenticated, privileged;
      cbn [session_state]; by simplify_map_eq.
  - assert (Hanon : authenticated ss = false)
      by (unfold authenticated; rewrite Hli; exact Htr).
    assert (Hnp : privileged ss = false).
    { destruct (privileged ss) eqn:Hp; [|reflexivity].
      destruct (inv_privileged _ _ Hinv Hp) as [Ha _]. congruence. }
    destruct ev; try (injection Hrun as <- _ _; split; assumption).
    + destruct (String.eqb username "moderator" && String.eqb password MOD_PASSWORD).
      { injection Hrun as <- _ _. split; [exact Hdb|].
        split; unfold authenticated, privileged; cbn [session_state];
          simplify_map_eq; try done. }
      destruct (login username password d) as [user|] eqn:Hlogin.
      * injection Hrun as <- _ _. split; [exact Hdb|].
        apply login_row in Hlogin as (Hin & _ & _).
        unfold privileged in Hnp.
        split; unfold authenticated, privileged; cbn [session_state database];
          simplify_map_eq; try done.
        -- rewrite Hnp. discriminate.
        -- intros _ _. exists user. auto.
      * injection Hrun as <- _ _. split; assumption.
    + destruct (signup new_username new_password d) as [created d'] eqn:Hs.
      assert (Hd' : d' = (signup new_username new_password d).2) by (rewrite Hs; reflexivity).
      assert (Hw' : w' = mk_world ss d').
      { destruct created; injection Hrun as <- _ _; reflexivity. }
      subst w'. cbn [session_state database]. split.
      * subst d'. apply signup_inv, Hdb.
      * eapply session_inv_ext; [reflexivity..| |exact Hinv].
        intros row. subst d'. apply signup_keeps_rows.
Qed.

(** The pages change no session key but [current_page], and the database
    only by the insert of the screening page. *)
Lemma screening_page_frame ev w w' out :
  screening_page ev w = Some (w', out) ->
  session_state w' = session_state w /\
  (database w' = database w \/ db_step (database w) (database w')).
Proof.
  unfold screening_page. intros Hrun.
  destruct ev; try (injection Hrun as <- _; auto).
  destruct (collect_results t radio) as [results|]; [|discriminate].
  run_script in Hrun. unfold assess in Hrun.
  destruct (session_state w !! "user_id") as [user_id|]; [|discriminate].
  injection Hrun as <- _. cbn [session_state database].
  split; [reflexivity|]. right. constructor.
Qed.

Lemma routing_frame ev w w' out :
  routing ev w = Some (w', out) ->
  (forall key, key <> "current_page" ->
               session_state w' !! key = session_state w !! key) /\
  (database w' = database w \/ db_step (database w) (database w')).
Proof.
  unfold routing. intros Hrun.
  destruct (session_state w !! "logged_in") as [logged_in|]; [|discriminate].
  run_script in Hrun.
  destruct (truthy logged_in); cbn [negb] in Hrun.
  2: { injection Hrun as <- _. auto. }
  destruct (session_state w !! "current_page") as [current_page|]; [|discriminate].
  run_script in Hrun.
  destruct (dispatch current_page) as [|page_function].
  - destruct (session_state w !! "username") as [username|]; [|discriminate].
    run_script in Hrun.
    destruct ev; try (injection Hrun as <- _; auto).
    case_bool_decide; injection Hrun as <- _; auto.
    cbn [session_state database]. split; [|auto].
    intros key Hkey. apply lookup_insert_ne. congruence.
  - assert (Hpage :
      match page_function with
      | Some f => run_page f ev w
      | None => Some (w, [])
      end = Some (w', out) ->
      (forall key, key <> "current_page" ->
                   session_state w' !! key = session_state w !! key) /\
      (database w' = database w \/ db_step (database w) (database w'))).
    { destruct page_function as [f|]; [|intros [= <- _]; auto].
      destruct f; cbn [run_page]; try (intros [= <- _]; auto).
      intros Hs. apply screening_page_frame in Hs as [-> Hd]. auto. }
    destruct ev; try exact (Hpage Hrun).
    injection Hrun as <- _. cbn [session_state database]. split; [|auto].
    intros key Hkey. apply lookup_insert_ne. congruence.
Qed.

Lemma routing_inv ev w w' out :
  routing ev w = Some (w', out) -> world_inv w -> world_inv w'.
Proof.
  intros Hrun [Hdb Hinv]. apply routing_frame in Hrun as [Hss Hd]. split.
  - destruct Hd as [->|Hstep]; [exact Hdb|]. eapply db_step_inv; eassumption.
  - eapply session_inv_ext; [apply Hss; done..| |exact Hinv].
    intros row Hin. destruct Hd as [->|Hstep]; [exact Hin|].
    eapply db_step_keeps_rows; eassumption.
Qed.

Lemma main_inv ev w w' out :
  main ev w = Some (w', out) -> world_inv w -> world_inv w'.
Proof.
  unfold main. intros Hrun [Hdb Hinv].
  assert (Hw0 : world_inv (mk_world (init_session (session_state w)) (database w))).
  { split; [exact Hdb|]. apply init_session_inv, Hinv. }
  destruct (sidebar ev _) as [[[w1 out1] rerun]|] eqn:Hside; [|discriminate].
  run_script in Hrun. apply sidebar_inv in Hside; [|exact Hw0].
  destruct rerun.
  - injection Hrun as <- _. exact Hside.
  - destruct (routing ev w1) as [[w2 out2]|] eqn:Hroute; [|discriminate].
    run_script in Hrun. injection Hrun as <- _.
    eapply routing_inv; eassumption.
Qed.

Lemma reachable_inv w : reachable w -> world_inv w.
Proof.
  induction 1 as [|w ev w' out _ IH Hrun|w d' _ [Hdb Hinv] Hstep].
  - split; [apply init_db_inv|]. apply session_inv_anonymous; reflexivity.
  - eapply main_inv; eassumption.
  - split; cbn [session_state database].
    + eapply db_step_inv; eassumption.
    + eapply session_inv_ext; [reflexivity..| |exact Hinv].
      intros row. apply db_step_keeps_rows, Hstep.
Qed.

(** ** Login, logout and signup *)

(** C6: a signup with a username the store already holds returns [False],
    the page shows "Username already exists.", and the database, with the
    stored row and its password hash, is left as it was. *)
Theorem signup_username_taken (username password : string) (d : db) (row : user_row) :
  row ∈ users d -> u_username row = username ->
  signup username password d = (false, d) /\
  row ∈ users (signup username password d).2 /\
  forall w, database w = d -> authenticated (session_state w) = false ->
    exists out,
      main (SubmitSignup username password) w =
        Some (mk_world (init_session (session_state w)) d,
              st_error "Username already exists." :: out).
Proof.
  intros Hin Hname.
  assert (Htaken : username ∈ map u_username (users d)).
  { apply list_elem_of_fmap. exists row. split; [congruence|exact Hin]. }
  pose proof (signup_rejected _ password _ Htaken) as Hrej.
  rewrite Hrej. cbn [snd]. repeat split; [exact Hin|].
  intros w <- Hanon.
  destruct (main_signup w username password Hanon) as (out & Hmain).
  rewrite Hrej in Hmain. exists out. exact Hmain.
Qed.

(** C5, as the code has it: "moderator" with the configured secret logs in
    as the privileged session with user id 0 whatever the store holds; any
    other pair that matches a stored row logs in with that row's username
    and id; any other pair that matches no row shows "Invalid username or
    password" and leaves the session logged out. *)
Theorem login_outcomes (w : world) (username password : string) :
  authenticated (session_state w) = false ->
  main (SubmitLogin "moderator" MOD_PASSWORD) w =
    Some (mk_world
            (<["user_id" := VInt 0]>
               (<["username" := VStr "moderator"]>
                  (<["is_moderator" := VBool true]>
                     (<["logged_in" := VBool true]>
                        (init_session (session_state w))))))
            (database w), []) /\
  (~ (username = "moderator" /\ password = MOD_PASSWORD) ->
   NoDup (map u_username (users (database w))) ->
   forall row,
     row ∈ users (database w) -> u_username row = username ->
     u_password row = hash_password password ->
     main (SubmitLogin username password) w =
       Some (mk_world
               (<["user_id" := VInt (u_id row)]>
                  (<["username" := VStr (u_username row)]>
                     (<["logged_in" := VBool true]>
                        (init_session (session_state w)))))
               (database w), [])) /\
  (~ (username = "moderator" /\ password = MOD_PASSWORD) ->
   ~ (exists row, row ∈ users (database w) /\ u_username row = username /\
                  u_password row = hash_password password) ->
   exists out,
     main (SubmitLogin username password) w =
       Some (mk_world (init_session (session_state w)) (database w),
             st_error "Invalid username or password" :: out) /\
     authenticated (init_session (session_state w)) = false).
Proof.
  intros Hanon. split; [apply main_login_moderator, Hanon|]. split.
  - intros Hnot Hnd row Hin Hname Hpw.
    destruct (main_login_user w username password Hanon Hnot) as (out & Hmain).
    rewrite (login_Some _ _ _ _ Hnd Hin Hname Hpw) in Hmain. exact Hmain.
  - intros Hnot Hnone.
    destruct (main_login_user w username password Hanon Hnot) as (out & Hmain).
    apply login_None in Hnone. rewrite Hnone in Hmain.
    exists out. split; [exact Hmain|].
    destruct (init_session_authenticated (session_state w)) as (v & Hv & Htr).
    unfold authenticated at 1. rewrite Hv, Htr. exact Hanon.
Qed.

(** C7: in every reachable state with a logged-in session, whatever its
    page and role, the logout button leaves [logged_in] and [is_moderator]
    false, [current_page] "Home", no [username] and no [user_id], and the
    database as it was. *)
Theorem logout_resets (w : world) :
  reachable w -> authenticated (session_state w) = true ->
  exists w' out,
    main ClickLogout w = Some (w', out) /\
    session_state w' !! "logged_in" = Some (VBool false) /\
    session_state w' !! "is_moderator" = Some (VBool false) /\
    session_state w' !! "current_page" = Some (VStr "Home") /\
    session_state w' !! "username" = None /\
    session_state w' !! "user_id" = None /\
    authenticated (session_state w') = false /\
    privileged (session_state w') = false /\
    database w' = database w.
Proof.
  intros Hreach Hauth.
  destruct (reachable_inv _ Hreach) as [_ Hinv].
  destruct (inv_identity _ _ Hinv Hauth) as [[name Hname] [uid Huid]].
  destruct (init_session_authenticated (session_state w)) as (v & Hv & Htr).
  rewrite Hauth in Htr.
  unfold main, sidebar, del. run_script. rewrite Hv. run_script. rewrite Htr.
  rewrite (init_session_keep _ _ _ Hname). run_script.
  rewrite !lookup_insert_ne by done.
  rewrite (init_session_keep _ _ _ Hname). run_script.
  rewrite lookup_delete_ne by done. rewrite !lookup_insert_ne by done.
  rewrite (init_session_keep _ _ _ Huid). run_script.
  eexists _, _. split; [reflexivity|]. cbn [session_state database].
  unfold authenticated, privileged. repeat split; by simplify_map_eq.
Qed.

(** ** Persisting a result *)

(** C9: in every reachable state with a logged-in session on the
    Self-Screening page, pressing the button with any answers appends exactly
    one row (the session's user id, the instrument, the total and its label)
    after the rows already stored, whatever the total; nothing else of the
    database or of the session changes. *)
Theorem completed_assessment_appends_one (w : world) (t : test) (radio : nat -> string) :
  reachable w ->
  authenticated (session_state w) = true ->
  session_state w !! "current_page" = Some (VStr "Self-Screening") ->
  (forall i, radio i ∈ options) ->
  exists results user_id out,
    collect_results t radio = Some results /\
    session_state w !! "user_id" = Some user_id /\
    main (ClickCalculate t radio) w =
      Some (mk_world (init_session (session_state w))
              (mk_db (users (database w)) (users_seq (database w))
                 (screening_results (database w) ++
                    [ mk_screening (screening_results_seq (database w) + 1) user_id
                        (test_type t) (py_sum results)
                        (categorize t (py_sum results)) ])%list
                 (screening_results_seq (database w) + 1)),
            out).
Proof.
  intros Hreach Hauth Hpage Hradio.
  destruct (reachable_inv _ Hreach) as [_ Hinv].
  destruct (inv_identity _ _ Hinv Hauth) as [[name Hname] [uid Huid]].
  destruct (collect_results_Some t radio Hradio) as (results & Hres & _).
  destruct (init_session_authenticated (session_state w)) as (v & Hv & Htr).
  rewrite Hauth in Htr.
  exists results, uid. eexists. split; [exact Hres|]. split; [exact Huid|].
  unfold main, sidebar, routing. run_script. rewrite Hv. run_script. rewrite Htr.
  rewrite (init_session_keep _ _ _ Hname). run_script.
  rewrite Hv. run_script. rewrite Htr. run_script.
  rewrite (init_session_keep _ _ _ Hpage). run_script.
  change (dispatch (VStr "Self-Screening")) with (PageView (Some h_screening_page)).
  cbn [run_page].
  rewrite (screening_page_calculate t radio _ results uid Hres)
    by (apply init_session_keep, Huid).
  run_script. reflexivity.
Qed.

(** ** The moderator's user id *)

(** C10: ids of [users] start at 1, so in every reachable state every stored
    user's id is at least 1; a privileged session holds user id 0, the id of
    no stored user; and a logged-in session that is not privileged holds the
    id of a stored user. *)
Theorem moderator_id_disjoint (w : world) :
  reachable w ->
  (forall username password,
      users (signup username password init_db).2 =
        [ mk_user 1 username (hash_password password) ]) /\
  (forall row, row ∈ users (database w) -> 1 <= u_id row) /\
  (privileged (session_state w) = true ->
   session_state w !! "user_id" = Some (VInt 0) /\
   forall row, row ∈ users (database w) ->
               session_state w !! "user_id" <> Some (VInt (u_id row))) /\
  (authenticated (session_state w) = true ->
   privileged (session_state w) = false ->
   exists row, row ∈ users (database w) /\
               session_state w !! "user_id" = Some (VInt (u_id row))).
Proof.
  intros Hreach.
  destruct (reachable_inv _ Hreach) as [(_ & Hids & _) Hinv].
  assert (Hpos : forall row, row ∈ users (database w) -> 1 <= u_id row).
  { intros row Hin. rewrite Forall_forall in Hids. apply Hids in Hin. lia. }
  split; [reflexivity|]. split; [exact Hpos|]. split.
  - intros Hp. destruct (inv_privileged _ _ Hinv Hp) as (_ & Huid & _).
    split; [exact Huid|]. intros row Hin. rewrite Huid. intros [= Heq].
    apply Hpos in Hin. lia.
  - intros Ha Hp. destruct (inv_regular _ _ Hinv Ha Hp) as (row & Hin & Huid & _).
    eauto.
Qed.

End AppProperties.

(** * Concrete runs

    The properties above hold for every deployment.  The runs below fix one:
    a stand-in digest, and the secret the program falls back to when the
    environment sets none. *)

Definition sample_hash (password : string) : string := "sha256:" +:+ password.

#[local] Instance sample_deployment : Deployment := {|
  hash_password := sample_hash;
  MOD_PASSWORD := "modpass123"
|}.

(** The database after "alice" signed up on a fresh one. *)
Definition alice_db : db :=
  mk_db [ mk_user 1 "alice" (sample_hash "wonderland") ] 1 [] 0.

(** The session after a moderator login from a new browser tab. *)
Definition moderator_session : gmap string value :=
  <["user_id" := VInt 0]>
    (<["username" := VStr "moderator"]>
       (<["is_moderator" := VBool true]>
          (<["logged_in" := VBool true]> (init_session ∅)))).

Definition moderator_world : world := mk_world moderator_session init_db.

(** The moderator after choosing the Self-Screening card. *)
Definition screening_world : world :=
  mk_world (<["current_page" := VStr "Self-Screening"]> moderator_session) init_db.

(** A moderator logged in over a store that holds "alice". *)
Definition moderator_over_alice : world :=
  mk_world
    (<["user_id" := VInt 0]>
       (<["username" := VStr "moderator"]>
          (<["is_moderator" := VBool true]>
             (<["logged_in" := VBool true]> (init_session (init_session ∅))))))
    alice_db.

Lemma moderator_world_reachable :
  reachable moderator_world.
Proof.
  eapply reachable_main; [apply reachable_initial|].
  apply main_login_moderator. reflexivity.
Qed.

Lemma screening_world_reachable :
  reachable screening_world.
Proof.
  eapply reachable_main with (ev := ClickGoTo "Self-Screening");
    [apply moderator_world_reachable|].
  vm_compute. reflexivity.
Qed.

Lemma moderator_over_alice_reachable :
  reachable moderator_over_alice.
Proof.
  assert (Hanon : authenticated (session_state (mk_world ∅ init_db)) = false)
    by reflexivity.
  destruct (main_signup (mk_world ∅ init_db)
              "alice" "wonderland" Hanon) as (out & Hsignup).
  eapply reachable_main.
  - eapply reachable_main; [apply reachable_initial|exact Hsignup].
  - apply main_login_moderator. reflexivity.
Qed.

(** C2 at work: nine answers "Nearly every day" total 27, and the helpline
    is shown. *)
Lemma crisis_prompt_iff_total_witness :
  exists w' out results,
    screening_page (ClickCalculate PHQ9 (fun _ => "Nearly every day")) screening_world
      = Some (w', out) /\
    collect_results PHQ9 (fun _ => "Nearly every day") = Some results /\
    py_sum results = 27 /\
    st_info EMERGENCY_HELPLINE ∈ out.
Proof.
  destruct (screening_page (ClickCalculate PHQ9 (fun _ => "Nearly every day"))
              screening_world) as [[w' out]|] eqn:E;
    [|vm_compute in E; discriminate].
  destruct (crisis_prompt_iff_total _ _ _ _ _ E) as [(results & Hres & Hiff) _].
  exists w', out, results. split; [reflexivity|]. split; [exact Hres|].
  vm_compute in Hres. injection Hres as <-.
  split; [reflexivity|]. apply Hiff. vm_compute. discriminate.
Defined.

(** C5 as stated fails on a stored user whose name and password are the
    moderator's: the credentials match the stored row with id 1, and the
    session gets user id 0. *)
Lemma login_stored_moderator_gets_sentinel :
  signup "moderator" "modpass123" init_db =
    (true, mk_db [ mk_user 1 "moderator" (sample_hash "modpass123") ] 1 [] 0) /\
  login "moderator" "modpass123"
    (mk_db [ mk_user 1 "moderator" (sample_hash "modpass123") ] 1 [] 0) =
    Some (mk_user 1 "moderator" (sample_hash "modpass123")) /\
  main (SubmitLogin "moderator" "modpass123")
    (mk_world ∅ (mk_db [ mk_user 1 "moderator" (sample_hash "modpass123") ] 1 [] 0)) =
    Some (mk_world moderator_session
            (mk_db [ mk_user 1 "moderator" (sample_hash "modpass123") ] 1 [] 0),
          []).
Proof.
  split; [reflexivity|]. split; [reflexivity|].
  vm_compute. reflexivity.
Qed.

(** C5 at work: "alice" logs in with her password and gets her row's
    username and id 1. *)
Lemma login_outcomes_witness :
  authenticated (session_state (mk_world ∅ alice_db)) = false /\
  main (SubmitLogin "alice" "wonderland")
    (mk_world ∅ alice_db) =
    Some (mk_world
            (<["user_id" := VInt 1]>
               (<["username" := VStr "alice"]>
                  (<["logged_in" := VBool true]> (init_session ∅))))
            alice_db, []).
Proof.
  assert (Hanon : authenticated (session_state (mk_world ∅ alice_db)) = false)
    by reflexivity.
  split; [exact Hanon|].
  apply (login_outcomes (mk_world ∅ alice_db)
           "alice" "wonderland" Hanon)
    with (row := mk_user 1 "alice" (sample_hash "wonderland")).
  - intros [Hname _]. discriminate Hname.
  - apply NoDup_singleton.
  - apply list_elem_of_singleton. reflexivity.
  - reflexivity.
  - reflexivity.
Defined.

(** C6 at work: a second signup as "alice" is refused and the database is
    unchanged. *)
Lemma signup_username_taken_witness :
  mk_user 1 "alice" (sample_hash "wonderland") ∈ users alice_db /\
  signup "alice" "looking-glass" alice_db = (false, alice_db).
Proof.
  assert (Hin : mk_user 1 "alice" (sample_hash "wonderland") ∈ users alice_db)
    by (apply list_elem_of_singleton; reflexivity).
  split; [exact Hin|].
  apply (signup_username_taken 
           "alice" "looking-glass" alice_db _ Hin eq_refl).
Defined.

(** C7 at work: the moderator logs out from the Self-Screening page. *)
Lemma logout_resets_witness :
  reachable screening_world /\
  authenticated (session_state screening_world) = true /\
  exists w' out,
    main ClickLogout screening_world = Some (w', out) /\
    session_state w' !! "logged_in" = Some (VBool false) /\
    session_state w' !! "is_moderator" = Some (VBool false) /\
    session_state w' !! "current_page" = Some (VStr "Home") /\
    session_state w' !! "username" = None /\
    session_state w' !! "user_id" = None /\
    authenticated (session_state w') = false /\
    privileged (session_state w') = false /\
    database w' = database screening_world.
Proof.
  split; [apply screening_world_reachable|].
  split; [vm_compute; reflexivity|].
  apply (logout_resets screening_world
           screening_world_reachable).
  vm_compute. reflexivity.
Defined.

(** C9 at work, on the spec's scenario: all answers "Not at all" on PHQ-9
    give total 0, the label "None to Mild Depression", and one stored row. *)
Lemma completed_assessment_appends_one_witness :
  reachable screening_world /\
  exists out,
    main 
      (ClickCalculate PHQ9 (fun _ => "Not at all")) screening_world =
      Some (mk_world (init_session (session_state screening_world))
              (mk_db [] 0
                 [ mk_screening 1 (VInt 0) "PHQ-9" 0 "None to Mild Depression" ] 1),
            out).
Proof.
  split; [apply screening_world_reachable|].
  destruct (completed_assessment_appends_one 
              screening_world PHQ9 (fun _ => "Not at all")
              screening_world_reachable)
    as (results & user_id & out & Hres & Huid & Hmain).
  - vm_compute. reflexivity.
  - vm_compute. reflexivity.
  - intros _. vm_compute. left.
  - exists out. vm_compute in Hres. injection Hres as <-.
    vm_compute in Huid. injection Huid as <-. exact Hmain.
Defined.

(** C10 at work: a moderator logged in over a store that holds "alice". *)
Lemma moderator_id_disjoint_witness :
  reachable moderator_over_alice /\
  privileged (session_state moderator_over_alice) = true /\
  session_state moderator_over_alice !! "user_id" = Some (VInt 0) /\
  forall row, row ∈ users (database moderator_over_alice) ->
    1 <= u_id row /\
    session_state moderator_over_alice !! "user_id" <> Some (VInt (u_id row)).
Proof.
  destruct (moderator_id_disjoint 
              moderator_over_alice moderator_over_alice_reachable)
    as (_ & Hpos & Hpriv & _).
  assert (Hp : privileged (session_state moderator_over_alice) = true)
    by (vm_compute; reflexivity).
  destruct (Hpriv Hp) as [Huid Hne].
  split; [apply moderator_over_alice_reachable|].
  split; [exact Hp|]. split; [exact Huid|].
  intros row Hin. split; [apply Hpos, Hin|apply Hne, Hin].
Defined.

(** * Further properties of [main]: what a run can and cannot do *)

(** What the routing part shows to a session that is not logged in. *)
Definition welcome : list output :=
  [ st_title "Welcome to the Mental Well-being Platform";
    st_write "Please log in or sign up using the sidebar to access the platform's features." ].

Definition is_form_submit (ev : event) : bool :=
  match ev with
  | SubmitLogin _ _ | SubmitSignup _ _ => true
  | _ => false
  end.

(** A click on the Calculate button carries radio answers; each is one of the
    four option labels, as [st.radio] returns them. *)
Definition radios_in_options (ev : event) : Prop :=
  match ev with
  | ClickCalculate t radio => forall i, radio i ∈ options
  | _ => True
  end.

(** Every value [current_page] takes is the name of a registered page, and a
    session that is not logged in sits on "Home". *)
Definition nav_inv (ss : gmap string value) : Prop :=
  (forall v, ss !! "current_page" = Some v ->
             exists name, v = VStr name /\ name ∈ map fst pages) /\
  (authenticated ss = false ->
   forall v, ss !! "current_page" = Some v -> v = VStr "Home").

Lemma init_session_same ss key :
  key <> "logged_in" -> key <> "is_moderator" -> key <> "current_page" ->
  init_session ss !! key = ss !! key.
Proof.
  intros H1 H2 H3. rewrite init_session_lookup.
  destruct (ss !! key); [reflexivity|]. repeat case_decide; congruence.
Qed.

Lemma init_session_current_page ss :
  exists v, init_session ss !! "current_page" = Some v /\
            (ss !! "current_page" = Some v \/
             ss !! "current_page" = None /\ v = VStr "Home").
Proof.
  rewrite init_session_lookup.
  destruct (ss !! "current_page") as [v|]; [eauto|].
  exists (VStr "Home"). split; [reflexivity|]. right. auto.
Qed.

Lemma authenticated_init_session ss :
  authenticated (init_session ss) = authenticated ss.
Proof.
  destruct (init_session_authenticated ss) as (v & Hv & Htr).
  unfold authenticated at 1. rewrite Hv. exact Htr.
Qed.

Lemma privileged_init_session ss :
  privileged (init_session ss) = privileged ss.
Proof.
  unfold privileged. rewrite init_session_lookup.
  destruct (ss !! "is_moderator"); reflexivity.
Qed.

Lemma home_registered : "Home" ∈ map fst pages.
Proof. vm_compute. left. Qed.

Lemma features_registered feature : feature ∈ features -> feature ∈ map fst pages.
Proof. unfold features. simpl. intros Hin. right. exact Hin. Qed.

Lemma features_not_home feature : feature ∈ features -> feature <> "Home".
Proof.
  unfold features. simpl. intros Hin ->.
  repeat (apply elem_of_cons in Hin as [Hin|Hin]; [discriminate|]).
  apply elem_of_nil in Hin. exact Hin.
Qed.

Lemma dispatch_registered name :
  name ∈ map fst pages ->
  name = "Home" /\ dispatch (VStr name) = HomeView \/
  name ∈ features /\ exists f, dispatch (VStr name) = PageView (Some f).
Proof.
  intros Hin. simpl in Hin.
  apply elem_of_cons in Hin as [->|Hin]; [left; split; reflexivity|].
  right. split; [exact Hin|].
  repeat (apply elem_of_cons in Hin as [->|Hin];
          [eexists; vm_compute; reflexivity|]).
  apply elem_of_nil in Hin. destruct Hin.
Qed.

Lemma init_session_nav_inv ss : nav_inv ss -> nav_inv (init_session ss).
Proof.
  intros [Hreg Hhome]. split.
  - intros v Hv. destruct (init_session_current_page ss) as (v' & Hv' & Hcase).
    rewrite Hv in Hv'. injection Hv' as <-.
    destruct Hcase as [Hold|[_ ->]]; [apply Hreg, Hold|].
    exists "Home". split; [reflexivity|apply home_registered].
  - rewrite authenticated_init_session. intros Hanon v Hv.
    destruct (init_session_current_page ss) as (v' & Hv' & Hcase).
    rewrite Hv in Hv'. injection Hv' as <-.
    destruct Hcase as [Hold|[_ ->]]; [apply (Hhome Hanon), Hold|reflexivity].
Qed.

Section MainRuns.

Context {deployment : Deployment}.

(** [main] in a session that is not logged in. *)
Lemma main_anonymous ev w :
  authenticated (session_state w) = false ->
  main ev w =
    let ss := init_session (session_state w) in
    match ev with
    | SubmitLogin username password =>
        if String.eqb username "moderator" && String.eqb password MOD_PASSWORD then
          Some (mk_world
                  (<["user_id" := VInt 0]>
                     (<["username" := VStr "moderator"]>
                        (<["is_moderator" := VBool true]>
                           (<["logged_in" := VBool true]> ss))))
                  (database w), [])
        else
          match login username password (database w) with
          | Some user =>
              Some (mk_world
                      (<["user_id" := VInt (u_id user)]>
                         (<["username" := VStr (u_username user)]>
                            (<["logged_in" := VBool true]> ss)))
                      (database w), [])
          | None =>
              Some (mk_world ss (database w),
                    st_error "Invalid username or password" :: welcome)
          end
    | SubmitSignup new_username new_password =>
        Some (mk_world ss (signup new_username new_password (database w)).2,
              (if (signup new_username new_password (database w)).1
               then st_success "Account created! Please log in."
               else st_error "Username already exists.") :: welcome)
    | _ => Some (mk_world ss (database w), welcome)
    end.
Proof.
  intros Hanon.
  destruct (init_session_authenticated (session_state w)) as (v & Hv & Htr).
  rewrite Hanon in Htr.
  unfold main, sidebar, routing. run_script. rewrite Hv. run_script. rewrite Htr.
  cbv zeta.
  destruct ev; run_script; rewrite ?Hv; run_script; rewrite ?Htr; run_script;
    try reflexivity.
  - destruct (String.eqb username "moderator" && String.eqb password MOD_PASSWORD);
      [reflexivity|].
    destruct (login username password (database w)); run_script; [reflexivity|].
    rewrite Hv. run_script. rewrite Htr. reflexivity.
  - destruct (signup new_username new_password (database w)) as [[|] d'];
      run_script; rewrite Hv; run_script; rewrite Htr; reflexivity.
Qed.

(** [main] in a logged-in session: the sidebar greets and, unless the logout
    button fired, the routing part runs. *)
Lemma main_logged_in ev w name :
  authenticated (session_state w) = true ->
  session_state w !! "username" = Some name ->
  main ev w =
    let ss := init_session (session_state w) in
    let greeting := st_success ("Logged in as **" +:+ py_str name +:+ "**") in
    match ev with
    | ClickLogout =>
        ss1 ← del "username"
                (<["current_page" := VStr "Home"]>
                   (<["is_moderator" := VBool false]>
                      (<["logged_in" := VBool false]> ss)));
        ss2 ← del "user_id" ss1;
        Some (mk_world ss2 (database w), [greeting])
    | _ =>
        '(w', out) ← routing ev (mk_world ss (database w));
        Some (w', greeting :: out)
    end.
Proof.
  intros Hauth Hname.
  destruct (init_session_authenticated (session_state w)) as (v & Hv & Htr).
  rewrite Hauth in Htr.
  unfold main, sidebar. run_script. rewrite Hv. run_script. rewrite Htr.
  rewrite (init_session_keep _ _ _ Hname). run_script. cbv zeta.
  destruct ev; run_script; try reflexivity.
  destruct (del "username" _) as [ss1|]; run_script; [|reflexivity].
  destruct (del "user_id" ss1) as [ss2|]; reflexivity.
Qed.

Lemma main_needs_username ev w w' out :
  authenticated (session_state w) = true ->
  main ev w = Some (w', out) ->
  is_Some (session_state w !! "username").
Proof.
  intros Hauth Hrun.
  destruct (init_session_authenticated (session_state w)) as (v & Hv & Htr).
  rewrite Hauth in Htr.
  unfold main, sidebar in Hrun. run_script in Hrun. rewrite Hv in Hrun.
  run_script in Hrun. rewrite Htr in Hrun.
  rewrite init_session_same in Hrun by done.
  destruct (session_state w !! "username") as [name|]; [eauto|discriminate].
Qed.

(** Only the name "Self-Screening" routes to the screening page. *)
Lemma dispatch_screening current_page :
  dispatch current_page = PageView (Some h_screening_page) ->
  current_page = VStr "Self-Screening".
Proof.
  destruct current_page as [b|name|z]; try discriminate.
  intros Hd. destruct (decide (name ∈ map fst pages)) as [Hin|Hout].
  - simpl in Hin.
    repeat (apply elem_of_cons in Hin as [->|Hin];
            [first [reflexivity | vm_compute in Hd; discriminate]|]).
    apply elem_of_nil in Hin. destruct Hin.
  - unfold dispatch, pages_get in Hd. rewrite (assoc_None _ _ Hout) in Hd.
    destruct (eq_str (VStr name) "Home"); discriminate.
Qed.

(** What a run of the routing part does to the state, case by case. *)
Lemma routing_effect ev w w' out :
  routing ev w = Some (w', out) ->
  w' = w \/
  (exists feature,
      ev = ClickGoTo feature /\ feature ∈ features /\
      authenticated (session_state w) = true /\
      session_state w !! "current_page" = Some (VStr "Home") /\
      w' = mk_world (<["current_page" := VStr feature]> (session_state w))
                    (database w)) \/
  (ev = ClickBack /\ authenticated (session_state w) = true /\
   w' = mk_world (<["current_page" := VStr "Home"]> (session_state w))
                 (database w)) \/
  (exists t radio results user_id,
      ev = ClickCalculate t radio /\
      authenticated (session_state w) = true /\
      session_state w !! "current_page" = Some (VStr "Self-Screening") /\
      collect_results t radio = Some results /\
      session_state w !! "user_id" = Some user_id /\
      w' = mk_world (session_state w)
             (insert_screening_result user_id (test_type t) (py_sum results)
                (categorize t (py_sum results)) (database w))).
Proof.
  unfold routing. intros Hrun.
  destruct (session_state w !! "logged_in") as [logged_in|] eqn:Hli; [|discriminate].
  run_script in Hrun.
  destruct (truthy logged_in) eqn:Htr; cbn [negb] in Hrun.
  2: { injection Hrun as <- _. auto. }
  assert (Hauth : authenticated (session_state w) = true)
    by (unfold authenticated; rewrite Hli; exact Htr).
  destruct (session_state w !! "current_page") as [current_page|] eqn:Hcp;
    [|discriminate].
  run_script in Hrun.
  destruct (dispatch current_page) as [|page_function] eqn:Hd.
  - destruct (session_state w !! "username") as [username|]; [|discriminate].
    run_script in Hrun.
    destruct ev; try (injection Hrun as <- _; auto).
    case_bool_decide as Hf; injection Hrun as <- _; [|auto].
    right. left. exists feature. repeat split; try assumption; try reflexivity.
    destruct current_page as [b|name|z]; try discriminate. f_equal.
    unfold dispatch in Hd. simpl in Hd.
    destruct (String.eqb name "Home") eqn:E; [|discriminate].
    apply String.eqb_eq in E. congruence.
  - destruct ev;
      try (destruct page_function as [[]|]; cbn [run_page screening_page] in Hrun;
           injection Hrun as <- _; auto; fail).
    + injection Hrun as <- _. right. right. left. auto.
    + destruct page_function as [f|]; [|injection Hrun as <- _; auto].
      destruct f; cbn [run_page] in Hrun; try (injection Hrun as <- _; auto; fail).
      apply dispatch_screening in Hd. subst current_page.
      destruct (screening_page_inv _ _ _ _ _ Hrun)
        as (results & user_id & Hres & Huid).
      rewrite (screening_page_calculate _ _ _ _ _ Hres Huid) in Hrun.
      injection Hrun as <- _.
      right. right. right. exists t, radio, results, user_id. auto 10.
Qed.

(** The two ways a run ends in a logged-in session. *)
Lemma main_logged_in_cases ev w w' out :
  authenticated (session_state w) = true ->
  main ev w = Some (w', out) ->
  (ev = ClickLogout /\
   w' = mk_world
          (delete "user_id"
             (delete "username"
                (<["current_page" := VStr "Home"]>
                   (<["is_moderator" := VBool false]>
                      (<["logged_in" := VBool false]>
                         (init_session (session_state w)))))))
          (database w)) \/
  (ev <> ClickLogout /\
   exists out',
     routing ev (mk_world (init_session (session_state w)) (database w))
       = Some (w', out')).
Proof.
  intros Hauth Hrun.
  destruct (main_needs_username _ _ _ _ Hauth Hrun) as [name Hname].
  rewrite (main_logged_in _ _ _ Hauth Hname) in Hrun. cbv zeta in Hrun.
  destruct ev;
    try (right; split; [discriminate|];
         destruct (routing _ _) as [[w1 out1]|]; [|discriminate];
         run_script in Hrun; injection Hrun as <- _; eauto; fail).
  left. split; [reflexivity|]. unfold del in Hrun.
  destruct (_ !! "username"); [|discriminate]. run_script in Hrun.
  destruct (_ !! "user_id"); [|discriminate]. run_script in Hrun.
  injection Hrun as <- _. reflexivity.
Qed.

Lemma routing_nav_inv ev w w' out :
  routing ev w = Some (w', out) ->
  nav_inv (session_state w) -> nav_inv (session_state w').
Proof.
  intros Hrun [Hreg Hhome].
  destruct (routing_effect _ _ _ _ Hrun)
    as [->|[(feature & _ & Hf & Hauth & _ & ->)|[(_ & Hauth & ->)|
        (t & radio & results & user_id & _ & _ & _ & _ & _ & ->)]]];
    cbn [session_state]; try (split; assumption).
  - split.
    + intros v. rewrite lookup_insert_eq. intros [= <-].
      exists feature. split; [reflexivity|]. apply features_registered, Hf.
    + unfold authenticated in *. rewrite lookup_insert_ne by done.
      rewrite Hauth. discriminate.
  - split.
    + intros v. rewrite lookup_insert_eq. intros [= <-].
      exists "Home". split; [reflexivity|]. apply home_registered.
    + intros _ v. rewrite lookup_insert_eq. congruence.
Qed.

Lemma main_nav_inv ev w w' out :
  main ev w = Some (w', out) ->
  nav_inv (session_state w) -> nav_inv (session_state w').
Proof.
  intros Hrun Hnav. apply init_session_nav_inv in Hnav.
  destruct (authenticated (session_state w)) eqn:Hauth.
  - destruct (main_logged_in_cases _ _ _ _ Hauth Hrun)
      as [[_ ->]|[_ [out' Hroute]]].
    + cbn [session_state]. split.
      * intros v. rewrite !lookup_delete_ne by done. rewrite lookup_insert_eq.
        intros [= <-]. exists "Home". split; [reflexivity|]. apply home_registered.
      * intros _ v. rewrite !lookup_delete_ne by done. rewrite lookup_insert_eq.
        congruence.
    + apply routing_nav_inv in Hroute; assumption.
  - rewrite (main_anonymous _ _ Hauth) in Hrun. cbv zeta in Hrun.
    destruct Hnav as [Hreg Hhome].
    assert (Hlogin : forall ss' : gmap string value,
               ss' !! "current_page" = init_session (session_state w) !! "current_page" ->
               ss' !! "logged_in" = Some (VBool true) -> nav_inv ss').
    { intros ss' Hcp Hli. split.
      - rewrite Hcp. exact Hreg.
      - unfold authenticated. rewrite Hli. discriminate. }
    destruct ev; try (injection Hrun as <- _; split; assumption).
    destruct (String.eqb username "moderator" && String.eqb password MOD_PASSWORD).
    { injection Hrun as <- _. apply Hlogin; by simplify_map_eq. }
    destruct (login username password (database w)).
    + injection Hrun as <- _. apply Hlogin; by simplify_map_eq.
    + injection Hrun as <- _. split; assumption.
Qed.

Lemma reachable_nav_inv w : reachable w -> nav_inv (session_state w).
Proof.
  induction 1 as [|w ev w' out _ IH Hrun|w d' _ IH _].
  - split; intros; simplify_map_eq.
  - eapply main_nav_inv; eassumption.
  - exact IH.
Qed.

(** What a run does to the database: nothing, a signup by a session that is
    not logged in, or the insert of the Self-Screening page. *)
Lemma main_db_effect ev w w' out :
  main ev w = Some (w', out) ->
  database w' = database w \/
  (exists new_username new_password,
      ev = SubmitSignup new_username new_password /\
      authenticated (session_state w) = false /\
      database w' = (signup new_username new_password (database w)).2) \/
  (exists t radio results user_id,
      ev = ClickCalculate t radio /\
      authenticated (session_state w) = true /\
      session_state w !! "current_page" = Some (VStr "Self-Screening") /\
      collect_results t radio = Some results /\
      session_state w !! "user_id" = Some user_id /\
      database w' =
        insert_screening_result user_id (test_type t) (py_sum results)
          (categorize t (py_sum results)) (database w)).
Proof.
  intros Hrun. destruct (authenticated (session_state w)) eqn:Hauth.
  - destruct (main_logged_in_cases _ _ _ _ Hauth Hrun)
      as [[_ ->]|[_ [out' Hroute]]]; [auto|].
    destruct (routing_effect _ _ _ _ Hroute)
      as [->|[(feature & _ & _ & _ & _ & ->)|[(_ & _ & ->)|
          (t & radio & results & user_id & -> & _ & Hcp & Hres & Huid & ->)]]];
      cbn [session_state database] in *; auto.
    right. right. exists t, radio, results, user_id.
    rewrite init_session_same in Huid by done.
    rewrite init_session_lookup in Hcp.
    destruct (session_state w !! "current_page") as [cp|] eqn:E;
      [|discriminate]. auto 10.
  - rewrite (main_anonymous _ _ Hauth) in Hrun. cbv zeta in Hrun.
    destruct ev; try (injection Hrun as <- _; auto; fail).
    + destruct (String.eqb username "moderator" && String.eqb password MOD_PASSWORD);
        [injection Hrun as <- _; auto|].
      destruct (login username password (database w));
        injection Hrun as <- _; auto.
    + injection Hrun as <- _. right. left. eauto.
Qed.

Lemma routing_never_raises ev w :
  authenticated (session_state w) = true ->
  is_Some (session_state w !! "username") ->
  is_Some (session_state w !! "user_id") ->
  is_Some (session_state w !! "current_page") ->
  radios_in_options ev ->
  is_Some (routing ev w).
Proof.
  intros Hauth [name Hname] [uid Huid] [cp Hcp] Hradio.
  unfold authenticated in Hauth.
  destruct (session_state w !! "logged_in") as [v|] eqn:Hv; [|discriminate].
  unfold routing. rewrite Hv. run_script. rewrite Hauth. run_script.
  rewrite Hcp. run_script.
  destruct (dispatch cp) as [|[f|]].
  - rewrite Hname. run_script. destruct ev; eauto. case_bool_decide; eauto.
  - destruct ev; try (destruct f; cbn [run_page screening_page]; eauto; fail).
    destruct f; cbn [run_page]; eauto.
    destruct (collect_results_Some t radio Hradio) as (results & Hres & _).
    rewrite (screening_page_calculate _ _ _ _ _ Hres Huid). eauto.
  - destruct ev; eauto.
Qed.

Lemma main_is_Some w ev :
  reachable w -> radios_in_options ev -> is_Some (main ev w).
Proof.
  intros Hreach Hradio.
  destruct (reachable_inv _ Hreach) as [_ Hinv].
  destruct (authenticated (session_state w)) eqn:Hauth.
  - destruct (inv_identity _ _ Hinv Hauth) as [[name Hname] [uid Huid]].
    rewrite (main_logged_in _ _ _ Hauth Hname). cbv zeta.
    assert (Hroute : is_Some (routing ev
              (mk_world (init_session (session_state w)) (database w)))).
    { apply routing_never_raises; cbn [session_state]; try assumption.
      - rewrite authenticated_init_session. exact Hauth.
      - rewrite (init_session_keep _ _ _ Hname). eauto.
      - rewrite (init_session_keep _ _ _ Huid). eauto.
      - destruct (init_session_current_page (session_state w)) as (v & -> & _).
        eauto. }
    destruct Hroute as [[w1 out1] Hroute].
    destruct ev; try (rewrite Hroute; run_script; eauto; fail).
    unfold del. rewrite !lookup_insert_ne by done.
    rewrite (init_session_keep _ _ _ Hname). run_script.
    rewrite lookup_delete_ne by done. rewrite !lookup_insert_ne by done.
    rewrite (init_session_keep _ _ _ Huid). run_script. eauto.
  - rewrite (main_anonymous _ _ Hauth). cbv zeta.
    destruct ev; eauto.
    destruct (String.eqb username "moderator" && String.eqb password MOD_PASSWORD);
      eauto.
    destruct (login username password (database w)); eauto.
Qed.

(** X2: in every reachable state [current_page], once set, is "Home" or the
    name of a feature page, so the router shows the home view or calls a
    page function: the empty page of an unknown name never shows. *)
Theorem current_page_always_registered (w : world) (v : value) :
  reachable w ->
  session_state w !! "current_page" = Some v ->
  v = VStr "Home" /\ dispatch v = HomeView \/
  exists name f,
    v = VStr name /\ name ∈ features /\ dispatch v = PageView (Some f).
Proof.
  intros Hreach Hv.
  destruct (reachable_nav_inv _ Hreach) as [Hreg _].
  destruct (Hreg v Hv) as (name & -> & Hin).
  destruct (dispatch_registered name Hin) as [[-> Hd]|[Hf [f Hd]]]; eauto 10.
Qed.

(** X3: a session that is not logged in stays on "Home", so every successful
    login, moderator or user, lands on the home view. *)
Theorem login_lands_on_home (w w' : world) (username password : string)
    (out : list output) :
  reachable w ->
  authenticated (session_state w) = false ->
  main (SubmitLogin username password) w = Some (w', out) ->
  exists v, session_state w' !! "current_page" = Some v /\ dispatch v = HomeView.
Proof.
  intros Hreach Hanon Hrun. exists (VStr "Home"). split; [|reflexivity].
  rewrite (main_anonymous _ _ Hanon) in Hrun. cbv zeta in Hrun.
  destruct (init_session_nav_inv _ (reachable_nav_inv _ Hreach)) as [_ Hhome].
  rewrite authenticated_init_session in Hhome. specialize (Hhome Hanon).
  destruct (init_session_current_page (session_state w)) as (v & Hv & _).
  rewrite (Hhome v Hv) in Hv.
  destruct (String.eqb username "moderator" && String.eqb password MOD_PASSWORD).
  { injection Hrun as <- _. by simplify_map_eq. }
  destruct (login username password (database w));
    injection Hrun as <- _; by simplify_map_eq.
Qed.

(** X4: a session that is not logged in can only log in or sign up: any
    other interaction shows the welcome text and changes neither the
    database nor the session (beyond the three defaults). *)
Theorem anonymous_cannot_act (w : world) (ev : event) :
  authenticated (session_state w) = false ->
  is_form_submit ev = false ->
  main ev w = Some (mk_world (init_session (session_state w)) (database w), welcome).
Proof.
  intros Hanon Hev. rewrite (main_anonymous _ _ Hanon). cbv zeta.
  destruct ev; try reflexivity; discriminate.
Qed.

(** X5: a run never deletes or changes a stored user or screening result: it
    leaves both tables as they are or appends one row to one of them. *)
Theorem main_appends_only (w w' : world) (ev : event) (out : list output) :
  main ev w = Some (w', out) ->
  exists new_users new_results,
    users (database w') = (users (database w) ++ new_users)%list /\
    screening_results (database w') =
      (screening_results (database w) ++ new_results)%list /\
    (length new_users + length new_results <= 1)%nat.
Proof.
  intros Hrun.
  destruct (main_db_effect _ _ _ _ Hrun)
    as [->|[(u & p & _ & _ & ->)|(t & radio & results & uid & _ & _ & _ & _ & _ & ->)]].
  - exists [], []. rewrite !app_nil_r. auto.
  - unfold signup. destruct (existsb _ _); cbn [snd users screening_results].
    + exists [], []. rewrite !app_nil_r. auto.
    + eexists [_], []. rewrite app_nil_r. auto.
  - cbn [insert_screening_result users screening_results].
    eexists [], [_]. rewrite app_nil_r. auto.
Qed.

Lemma categorize_valid_total t total :
  0 <= total <= max_total t -> categorize t total <> "Unknown".
Proof.
  intros Hb.
  destruct t; [rewrite categorize_PHQ9 | rewrite categorize_GAD7];
    simpl in Hb; split_ranges; first [discriminate | lia].
Qed.

(** X7: every screening result a run stores comes from a logged-in session on
    the Self-Screening page and is consistent: it carries the session's user
    id, the instrument's name, a total within the instrument's range, the
    label [categorize] gives that total (never "Unknown"), and the next id. *)
Theorem stored_result_well_formed (w w' : world) (ev : event) (out : list output)
    (row : screening_row) :
  main ev w = Some (w', out) ->
  row ∈ screening_results (database w') ->
  row ∈ screening_results (database w) \/
  (authenticated (session_state w) = true /\
   session_state w !! "current_page" = Some (VStr "Self-Screening") /\
   session_state w !! "user_id" = Some (s_user_id row) /\
   s_id row = screening_results_seq (database w) + 1 /\
   exists t,
     s_test_type row = test_type t /\
     0 <= s_score row <= max_total t /\
     s_category row = categorize t (s_score row) /\
     s_category row <> "Unknown").
Proof.
  intros Hrun Hin.
  destruct (main_db_effect _ _ _ _ Hrun)
    as [Hd|[(u & p & _ & _ & Hd)|
        (t & radio & results & uid & _ & Hauth & Hcp & Hres & Huid & Hd)]];
    rewrite Hd in Hin.
  - auto.
  - left. unfold signup in Hin. destruct (existsb _ _); exact Hin.
  - cbn [insert_screening_result screening_results] in Hin.
    apply elem_of_app in Hin as [Hin|Hin]; [auto|].
    apply list_elem_of_singleton in Hin. subst row. cbn.
    right. repeat split; try assumption.
    pose proof (valid_response_total _ _ (collect_results_valid _ _ _ Hres)) as Hb.
    exists t. repeat split; try lia. apply categorize_valid_total, Hb.
Qed.

Lemma init_session_insert_current_page ss v :
  init_session (<["current_page" := v]> (init_session ss)) =
  <["current_page" := v]> (init_session ss).
Proof.
  apply map_eq. intros key. rewrite init_session_lookup.
  destruct (<["current_page" := v]> (init_session ss) !! key) eqn:E;
    [reflexivity|].
  rewrite lookup_insert in E. case_decide; [discriminate|].
  rewrite init_session_lookup in E.
  destruct (ss !! key); [discriminate|]. repeat case_decide; congruence.
Qed.

(** X9: a login that is not the moderator's never yields a privileged
    session: from any reachable logged-out state the [is_moderator] flag
    stays false. *)
Theorem user_login_not_privileged (w w' : world) (username password : string)
    (out : list output) :
  reachable w ->
  authenticated (session_state w) = false ->
  ~ (username = "moderator" /\ password = MOD_PASSWORD) ->
  main (SubmitLogin username password) w = Some (w', out) ->
  privileged (session_state w') = false.
Proof.
  intros Hreach Hanon Hnot Hrun.
  destruct (reachable_inv _ Hreach) as [_ Hinv].
  assert (Hnp : privileged (init_session (session_state w)) = false).
  { rewrite privileged_init_session.
    destruct (privileged (session_state w)) eqn:Hp; [|reflexivity].
    destruct (inv_privileged _ _ Hinv Hp) as [Ha _]. congruence. }
  rewrite (main_anonymous _ _ Hanon) in Hrun. cbv zeta in Hrun.
  destruct (String.eqb username "moderator" && String.eqb password MOD_PASSWORD) eqn:E.
  { apply andb_true_iff in E as [E1 E2]. apply String.eqb_eq in E1, E2. tauto. }
  unfold privileged in *.
  destruct (login username password (database w));
    injection Hrun as <- _; cbn [session_state];
    rewrite ?lookup_insert_ne by done; exact Hnp.
Qed.

End MainRuns.

(** * Further properties of the credential store *)

Lemma find_app_l {A} (f : A -> bool) (l1 l2 : list A) x :
  find f l1 = Some x -> find f (l1 ++ l2) = Some x.
Proof.
  induction l1 as [|a l1 IH]; simpl; [discriminate|].
  destruct (f a); [trivial|exact IH].
Qed.

Lemma find_app_r {A} (f : A -> bool) (l1 l2 : list A) :
  find f l1 = None -> find f (l1 ++ l2) = find f l2.
Proof.
  induction l1 as [|a l1 IH]; simpl; [reflexivity|].
  destruct (f a); [discriminate|exact IH].
Qed.

Lemma NoDup_map_eq {A B} (f : A -> B) (l : list A) x y :
  NoDup (map f l) -> x ∈ l -> y ∈ l -> f x = f y -> x = y.
Proof.
  induction l as [|a l IH]; intros Hnd Hx Hy Heq.
  - apply elem_of_nil in Hx. destruct Hx.
  - simpl in Hnd. apply NoDup_cons in Hnd as [Ha Hnd].
    apply elem_of_cons in Hx as [->|Hx]; apply elem_of_cons in Hy as [->|Hy].
    + reflexivity.
    + exfalso. apply Ha. rewrite Heq. apply list_elem_of_fmap. eauto.
    + exfalso. apply Ha. rewrite <- Heq. apply list_elem_of_fmap. eauto.
    + apply IH; assumption.
Qed.

Section CredentialStore.

Context {deployment : Deployment}.

Lemma login_unknown_username username password d :
  username ∉ map u_username (users d) -> login username password d = None.
Proof.
  intros Hout. apply login_None. intros (row & Hin & Hname & _).
  apply Hout. apply list_elem_of_fmap. exists row. auto.
Qed.

(** X10: an account that [signup] created can log in at once: [login] with
    the same username and password returns the new row, whose id is the
    next of the sequence and whose stored password is the hash. *)
Theorem signup_then_login (username password : string) (d d' : db) :
  signup username password d = (true, d') ->
  users d' =
    (users d ++ [ mk_user (users_seq d + 1) username (hash_password password) ])%list /\
  login username password d' =
    Some (mk_user (users_seq d + 1) username (hash_password password)).
Proof.
  intros Hs.
  destruct (decide (username ∈ map u_username (users d))) as [Hin|Hout].
  { rewrite (signup_rejected _ password _ Hin) in Hs. discriminate. }
  rewrite (signup_fresh _ password _ Hout) in Hs. injection Hs as <-.
  split; [reflexivity|]. unfold login. cbn [users].
  rewrite find_app_r by (apply (login_unknown_username _ password), Hout).
  simpl. rewrite !String.eqb_refl. reflexivity.
Qed.

(** X11: a signup, accepted or refused, leaves every other account as it
    was: a login that succeeded before returns the same row after, and for
    any other username the outcome of [login] is unchanged. *)
Theorem signup_keeps_logins (username password username' password' : string) (d : db) :
  (forall row,
      login username' password' d = Some row ->
      login username' password' (signup username password d).2 = Some row) /\
  (username' <> username ->
   login username' password' (signup username password d).2 =
   login username' password' d).
Proof.
  unfold signup. destruct (existsb _ (users d)); cbn [snd]; [auto|].
  unfold login. cbn [users]. split.
  - intros row. apply find_app_l.
  - intros Hne.
    destruct (find _ (users d)) as [row|] eqn:E.
    + apply find_app_l, E.
    + rewrite (find_app_r _ _ _ E). simpl.
      destruct (String.eqb username username') eqn:Eu; [|reflexivity].
      apply String.eqb_eq in Eu. congruence.
Qed.

(** The ids of [users] are pairwise distinct. *)
Definition users_ids_distinct (d : db) : Prop := NoDup (map u_id (users d)).

Lemma signup_ids_distinct username password d :
  db_inv d -> users_ids_distinct d ->
  users_ids_distinct (signup username password d).2.
Proof.
  intros (_ & Hids & _) Hnd. unfold users_ids_distinct, signup in *.
  destruct (existsb _ (users d)); cbn [snd users]; [exact Hnd|].
  rewrite map_app. simpl. apply NoDup_app. split; [exact Hnd|]. split.
  - intros x Hx Hx'. apply list_elem_of_singleton in Hx'. subst x.
    apply list_elem_of_fmap in Hx as (row & Hrow & Hin).
    rewrite Forall_forall in Hids. apply Hids in Hin. lia.
  - apply NoDup_singleton.
Qed.

Lemma db_step_ids_distinct d d' :
  db_inv d -> users_ids_distinct d -> db_step d d' -> users_ids_distinct d'.
Proof.
  intros Hinv Hnd [username password|user_id tt score category].
  - apply signup_ids_distinct; assumption.
  - exact Hnd.
Qed.

Lemma main_db_step ev w w' out :
  main ev w = Some (w', out) ->
  database w' = database w \/ db_step (database w) (database w').
Proof.
  intros Hrun.
  destruct (main_db_effect _ _ _ _ Hrun)
    as [->|[(u & p & _ & _ & ->)|(t & radio & results & uid & _ & _ & _ & _ & _ & ->)]];
    [auto|right; constructor..].
Qed.

Lemma reachable_ids_distinct w : reachable w -> users_ids_distinct (database w).
Proof.
  induction 1 as [|w ev w' out Hreach IH Hrun|w d' Hreach IH Hstep].
  - constructor.
  - destruct (main_db_step _ _ _ _ Hrun) as [->|Hstep]; [exact IH|].
    eapply db_step_ids_distinct; [|exact IH|exact Hstep].
    apply (reachable_inv _ Hreach).
  - cbn [database]. eapply db_step_ids_distinct; [|exact IH|exact Hstep].
    apply (reachable_inv _ Hreach).
Qed.

(** X12: in every reachable state two accounts with different usernames have
    different user ids, so the sessions [login] opens for them never share
    the id under which results are stored. *)
Theorem accounts_have_distinct_ids (w : world) (username1 password1 username2 password2 : string)
    (row1 row2 : user_row) :
  reachable w ->
  login username1 password1 (database w) = Some row1 ->
  login username2 password2 (database w) = Some row2 ->
  username1 <> username2 ->
  u_id row1 <> u_id row2.
Proof.
  intros Hreach H1 H2 Hne Hid.
  apply login_row in H1 as (Hin1 & Hn1 & _).
  apply login_row in H2 as (Hin2 & Hn2 & _).
  pose proof (NoDup_map_eq u_id _ _ _ (reachable_ids_distinct _ Hreach) Hin1 Hin2 Hid).
  congruence.
Qed.

End CredentialStore.

(** * Further properties of the screening engine *)

(** [scores] is the inverse of the position in [options]. *)
Lemma scores_options_inverse (i : nat) (label : string) :
  options !! i = Some label <-> scores !! label = Some (Z.of_nat i).
Proof.
  rewrite scores_lookup_Some. unfold options. split.
  - destruct i as [|[|[|[|i]]]]; simpl; intros [= <-]; auto 6.
  - intros [[-> Hi]|[[-> Hi]|[[-> Hi]|[-> Hi]]]];
      destruct i as [|[|[|[|i]]]]; try reflexivity; lia.
Qed.

(** The first label of each instrument. *)
Definition mild_label (t : test) : string :=
  match t with
  | PHQ9 => "None to Mild Depression"
  | GAD7 => "None to Mild Anxiety"
  end.

(** X13: for a valid response the helpline prompt is shown exactly when the
    label is not the instrument's "None to Mild" one: the threshold 10 of the
    prompt is the lower bound of the second band. *)
Theorem prompt_iff_not_mild (t : test) (results : list Z) :
  valid_response t results ->
  (st_info EMERGENCY_HELPLINE ∈ crisis_prompt (assess t results).1 <->
   (assess t results).2 <> mild_label t).
Proof.
  intros Hv. pose proof (valid_response_total _ _ Hv) as Hb.
  unfold assess. cbn [fst snd]. rewrite crisis_prompt_shown.
  destruct t; [rewrite categorize_PHQ9 | rewrite categorize_GAD7];
    simpl in Hb; cbn [mild_label]; split_ranges;
    split; intros H; first [lia | discriminate | congruence].
Qed.


(** * Concrete runs of the further properties *)

(** The state after "alice" signed up in a new browser tab on a fresh
    database. *)
Definition alice_world : world := mk_world (init_session ∅) alice_db.

(** The database after "alice" and then "bob" signed up. *)
Definition alice_bob_db : db :=
  mk_db [ mk_user 1 "alice" (sample_hash "wonderland");
          mk_user 2 "bob" (sample_hash "builder") ] 2 [] 0.

Lemma alice_world_reachable : reachable alice_world.
Proof.
  eapply reachable_main with (ev := SubmitSignup "alice" "wonderland");
    [apply reachable_initial|].
  vm_compute. reflexivity.
Qed.

Lemma alice_bob_reachable : reachable (mk_world (init_session ∅) alice_bob_db).
Proof.
  eapply reachable_main with (ev := SubmitSignup "bob" "builder");
    [apply alice_world_reachable|].
  vm_compute. reflexivity.
Qed.

(** X2 at work: the moderator's page after choosing the Self-Screening card. *)
Lemma current_page_always_registered_witness :
  session_state screening_world !! "current_page" = Some (VStr "Self-Screening") /\
  (VStr "Self-Screening" = VStr "Home" /\ dispatch (VStr "Self-Screening") = HomeView \/
   exists name f,
     VStr "Self-Screening" = VStr name /\ name ∈ features /\
     dispatch (VStr "Self-Screening") = PageView (Some f)).
Proof.
  assert (Hcp : session_state screening_world !! "current_page"
                = Some (VStr "Self-Screening")) by (vm_compute; reflexivity).
  split; [exact Hcp|].
  exact (current_page_always_registered screening_world _
           screening_world_reachable Hcp).
Defined.

(** X3 at work: "alice" logs in and sees the home view. *)
Lemma login_lands_on_home_witness :
  exists w' out v,
    main (SubmitLogin "alice" "wonderland") alice_world = Some (w', out) /\
    session_state w' !! "current_page" = Some v /\ dispatch v = HomeView.
Proof.
  destruct (main (SubmitLogin "alice" "wonderland") alice_world)
    as [[w' out]|] eqn:E; [|vm_compute in E; discriminate].
  assert (Hanon : authenticated (session_state alice_world) = false)
    by (vm_compute; reflexivity).
  destruct (login_lands_on_home alice_world w' "alice" "wonderland" out
              alice_world_reachable Hanon E) as (v & Hv & Hd).
  exists w', out, v. auto.
Defined.

(** X4 at work: a visitor who is not logged in presses Calculate; nothing is
    stored. *)
Lemma anonymous_cannot_act_witness :
  main (ClickCalculate PHQ9 (fun _ => "Several days")) alice_world =
    Some (mk_world (init_session (init_session ∅)) alice_db, welcome).
Proof.
  apply (anonymous_cannot_act alice_world
           (ClickCalculate PHQ9 (fun _ => "Several days"))).
  - vm_compute. reflexivity.
  - reflexivity.
Defined.

(** X5 at work: "bob" signs up next to "alice". *)
Lemma main_appends_only_witness :
  exists w' out new_users new_results,
    main (SubmitSignup "bob" "builder") alice_world = Some (w', out) /\
    users (database w') = (users alice_db ++ new_users)%list /\
    screening_results (database w') =
      (screening_results alice_db ++ new_results)%list /\
    (length new_users + length new_results <= 1)%nat.
Proof.
  destruct (main (SubmitSignup "bob" "builder") alice_world)
    as [[w' out]|] eqn:E; [|vm_compute in E; discriminate].
  destruct (main_appends_only alice_world w' _ out E)
    as (new_users & new_results & Hu & Hr & Hlen).
  exists w', out, new_users, new_results. auto.
Defined.

(** X7 at work: the row the moderator's all-"Several days" PHQ-9 response
    stores. *)
Lemma stored_result_well_formed_witness :
  exists w' out,
    main (ClickCalculate PHQ9 (fun _ => "Several days")) screening_world
      = Some (w', out) /\
    mk_screening 1 (VInt 0) "PHQ-9" 9 "None to Mild Depression"
      ∈ screening_results (database w') /\
    session_state screening_world !! "user_id" = Some (VInt 0) /\
    0 <= 9 <= max_total PHQ9.
Proof.
  destruct (main (ClickCalculate PHQ9 (fun _ => "Several days")) screening_world)
    as [[w' out]|] eqn:E; [|vm_compute in E; discriminate].
  assert (Hin : mk_screening 1 (VInt 0) "PHQ-9" 9 "None to Mild Depression"
                ∈ screening_results (database w')).
  { pose proof E as E'. vm_compute in E'. injection E' as <- _. left. }
  destruct (stored_result_well_formed screening_world w' _ out _ E Hin)
    as [Hold|(_ & _ & Huid & _ & t & Ht & Hscore & _)].
  { vm_compute in Hold. apply elem_of_nil in Hold. destruct Hold. }
  exists w', out. split; [reflexivity|]. split; [exact Hin|].
  split; [exact Huid|]. destruct t; [exact Hscore|discriminate Ht].
Defined.

(** X9 at work: "alice" logs in and is not privileged. *)
Lemma user_login_not_privileged_witness :
  exists w' out,
    main (SubmitLogin "alice" "wonderland") alice_world = Some (w', out) /\
    authenticated (session_state w') = true /\
    privileged (session_state w') = false.
Proof.
  destruct (main (SubmitLogin "alice" "wonderland") alice_world)
    as [[w' out]|] eqn:E; [|vm_compute in E; discriminate].
  assert (Hanon : authenticated (session_state alice_world) = false)
    by (vm_compute; reflexivity).
  assert (Hnot : ~ ("alice" = "moderator" /\ "wonderland" = MOD_PASSWORD))
    by (intros [Hname _]; discriminate Hname).
  pose proof (user_login_not_privileged alice_world w' "alice" "wonderland" out
                alice_world_reachable Hanon Hnot E) as Hnp.
  exists w', out. split; [reflexivity|]. split; [|exact Hnp].
  pose proof E as E'. vm_compute in E'. injection E' as <- _.
  vm_compute. reflexivity.
Defined.

(** X10 at work: "alice" signs up on a fresh database and logs in. *)
Lemma signup_then_login_witness :
  signup "alice" "wonderland" init_db = (true, alice_db) /\
  login "alice" "wonderland" alice_db =
    Some (mk_user 1 "alice" (sample_hash "wonderland")).
Proof.
  assert (Hs : signup "alice" "wonderland" init_db = (true, alice_db))
    by reflexivity.
  split; [exact Hs|].
  apply (signup_then_login "alice" "wonderland" init_db alice_db Hs).
Defined.

(** X12 at work: "alice" and "bob" have ids 1 and 2. *)
Lemma accounts_have_distinct_ids_witness :
  login "alice" "wonderland" alice_bob_db
    = Some (mk_user 1 "alice" (sample_hash "wonderland")) /\
  login "bob" "builder" alice_bob_db
    = Some (mk_user 2 "bob" (sample_hash "builder")) /\
  u_id (mk_user 1 "alice" (sample_hash "wonderland")) <>
  u_id (mk_user 2 "bob" (sample_hash "builder")).
Proof.
  assert (H1 : login "alice" "wonderland" alice_bob_db
               = Some (mk_user 1 "alice" (sample_hash "wonderland")))
    by reflexivity.
  assert (H2 : login "bob" "builder" alice_bob_db
               = Some (mk_user 2 "bob" (sample_hash "builder")))
    by reflexivity.
  split; [exact H1|]. split; [exact H2|].
  apply (accounts_have_distinct_ids (mk_world (init_session ∅) alice_bob_db)
           "alice" "wonderland" "bob" "builder" _ _ alice_bob_reachable H1 H2).
  discriminate.
Defined.

(** X13 at work: nine answers "Several days" total 9: no prompt, and the
    label is the mild one. *)
Lemma prompt_iff_not_mild_witness :
  valid_response PHQ9 [1; 1; 1; 1; 1; 1; 1; 1; 1] /\
  (st_info EMERGENCY_HELPLINE ∈ crisis_prompt (assess PHQ9 [1; 1; 1; 1; 1; 1; 1; 1; 1]).1 <->
   (assess PHQ9 [1; 1; 1; 1; 1; 1; 1; 1; 1]).2 <> mild_label PHQ9).
Proof.
  assert (Hv : valid_response PHQ9 [1; 1; 1; 1; 1; 1; 1; 1; 1]).
  { split; [reflexivity|]. repeat constructor; lia. }
  split; [exact Hv|].
  exact (prompt_iff_not_mild PHQ9 _ Hv).
Defined.


(** * The journal, mood and community pages

    These pages read [user_id] and [username] from the session and write the
    tables [journal_entries], [mood_entries] and [posts]; they touch neither
    the tables nor the session keys of the first part.  A text the code
    inspects character by character is a list of Unicode code points.  The
    [timestamp] columns are filled by [CURRENT_TIMESTAMP]; the time of the
    insert is a parameter of the page, in seconds. *)

Definition text := list N.

(** [c.isspace()] for a code point, as [str.strip] tests it. *)
Definition py_isspace (c : N) : bool :=
  ((9 <=? c) && (c <=? 13) || (28 <=? c) && (c <=? 32) || (c =? 133) || (c =? 160)
   || (c =? 5760) || (8192 <=? c) && (c <=? 8202) || (c =? 8232) || (c =? 8233)
   || (c =? 8239) || (c =? 8287) || (c =? 12288))%N.

Fixpoint lstrip (s : text) : text :=
  match s with
  | [] => []
  | c :: s' => if py_isspace c then lstrip s' else s
  end.

Definition rstrip (s : text) : text := reverse (lstrip (reverse s)).

(** [s.strip()] *)
Definition strip (s : text) : text := rstrip (lstrip s).

(** Truth value of a string in an [if]. *)
Definition nonempty (s : text) : bool :=
  match s with [] => false | _ :: _ => true end.

Record journal_row := mk_journal {
  j_id : Z;
  j_user_id : value;
  j_timestamp : Z;
  j_entry_text : text
}.

Record mood_row := mk_mood {
  m_id : Z;
  m_user_id : value;
  m_timestamp : Z;
  m_mood_score : Z;
  m_mood_notes : text
}.

Record post_row := mk_post {
  p_id : Z;
  p_user_id : value;
  p_username : value;
  p_content : text;
  p_timestamp : Z
}.

(** [journal_entries] and [mood_entries] declare AUTOINCREMENT ids; [posts]
    declares a plain [INTEGER PRIMARY KEY]. *)
Record pages_db := mk_pages_db {
  journal_entries : list journal_row;
  journal_entries_seq : Z;
  mood_entries : list mood_row;
  mood_entries_seq : Z;
  posts : list post_row
}.

Definition init_pages_db : pages_db := mk_pages_db [] 0 [] 0 [].

(** The rowid SQLite gives a new row of a table without AUTOINCREMENT: one
    more than the largest in the table, 1 in an empty table. *)
Definition next_rowid (ids : list Z) : Z := foldr Z.max 0 ids + 1.

(** What the pages display. *)
Inductive shown :=
| shown_message (o : output)
| shown_entry (timestamp : Z) (entry_text : text)
| shown_chart (points : list (Z * Z))
| shown_post (username : value) (content : text) (timestamp : Z).

(** [ORDER BY timestamp DESC] and [ASC] (SQLite leaves the order of equal
    timestamps open; a stable merge sort is taken here). *)
Definition newest_first {A} (timestamp : A -> Z) : relation A :=
  fun a b => timestamp b <= timestamp a.

Definition oldest_first {A} (timestamp : A -> Z) : relation A :=
  fun a b => timestamp a <= timestamp b.

#[global] Instance newest_first_dec {A} (timestamp : A -> Z) :
  RelDecision (newest_first timestamp) := fun a b => Z_le_dec _ _.

#[global] Instance oldest_first_dec {A} (timestamp : A -> Z) :
  RelDecision (oldest_first timestamp) := fun a b => Z_le_dec _ _.

(** [SELECT timestamp, entry_text FROM journal_entries WHERE user_id = ?
    ORDER BY timestamp DESC] *)
Definition select_journal (user_id : value) (pd : pages_db) : list journal_row :=
  merge_sort (newest_first j_timestamp)
    (filter (fun r => j_user_id r = user_id) (journal_entries pd)).

(** [SELECT timestamp, mood_score FROM mood_entries WHERE user_id = ?
    ORDER BY timestamp ASC] *)
Definition select_mood (user_id : value) (pd : pages_db) : list mood_row :=
  merge_sort (oldest_first m_timestamp)
    (filter (fun r => m_user_id r = user_id) (mood_entries pd)).

(** [SELECT username, content, timestamp FROM posts ORDER BY timestamp DESC
    LIMIT 20] *)
Definition select_posts (pd : pages_db) : list post_row :=
  take 20 (merge_sort (newest_first p_timestamp) (posts pd)).

(** [journal_page]: [entry] is the text area, [save] whether the button
    fired.  A saved entry ends the run ([st.rerun()]). *)
Definition journal_page (entry : text) (save : bool) (now : Z)
    (ss : gmap string value) (pd : pages_db) : option (pages_db * list shown) :=
  if save && nonempty entry then
    user_id ← ss !! "user_id";
    let new_id := journal_entries_seq pd + 1 in
    Some (mk_pages_db
            (journal_entries pd ++ [mk_journal new_id user_id now entry])%list
            new_id (mood_entries pd) (mood_entries_seq pd) (posts pd),
          [ shown_message (st_success "Journal entry saved!") ])
  else
    let warned :=
      if save
      then [ shown_message (st_warning "Please write something before saving.") ]
      else [] in
    user_id ← ss !! "user_id";
    let entries := select_journal user_id pd in
    Some (pd,
          (warned ++
           match entries with
           | [] => [ shown_message (st_info "You haven't written any journal entries yet.") ]
           | _ => map (fun r => shown_entry (j_timestamp r) (j_entry_text r)) entries
           end)%list).

(** [mood_tracker_page]: [mood_score] is the slider, [mood_notes] the text
    input, [log] whether the button fired.  The history is read after the
    insert, in the same run. *)
Definition mood_tracker_page (mood_score : Z) (mood_notes : text) (log : bool)
    (now : Z) (ss : gmap string value) (pd : pages_db)
  : option (pages_db * list shown) :=
  '(pd, logged) ←
    (if log then
       user_id ← ss !! "user_id";
       let new_id := mood_entries_seq pd + 1 in
       Some (mk_pages_db (journal_entries pd) (journal_entries_seq pd)
               (mood_entries pd ++ [mk_mood new_id user_id now mood_score mood_notes])%list
               new_id (posts pd),
             [ shown_message (st_success "Mood logged successfully!") ])
     else Some (pd, []));
  user_id ← ss !! "user_id";
  let mood_data := select_mood user_id pd in
  Some (pd,
        (logged ++
         match mood_data with
         | [] => [ shown_message
                     (st_info "No mood data logged yet. Track your mood to see trends here.") ]
         | _ => [ shown_chart (map (fun r => (m_timestamp r, m_mood_score r)) mood_data) ]
         end)%list).

(** [connect_page]: [content] is the form's text area, [post] whether the
    form was submitted.  A stored post ends the run ([st.rerun()]). *)
Definition connect_page (content : text) (post : bool) (now : Z)
    (ss : gmap string value) (pd : pages_db) : option (pages_db * list shown) :=
  if post && nonempty (strip content) then
    user_id ← ss !! "user_id";
    username ← ss !! "username";
    Some (mk_pages_db (journal_entries pd) (journal_entries_seq pd)
            (mood_entries pd) (mood_entries_seq pd)
            (posts pd ++
               [mk_post (next_rowid (map p_id (posts pd))) user_id username
                  (strip content) now])%list,
          [ shown_message (st_success "Your post has been shared!") ])
  else
    let warned :=
      if post
      then [ shown_message (st_warning "Please write something before posting.") ]
      else [] in
    let feed := select_posts pd in
    Some (pd,
          (warned ++
           match feed with
           | [] => [ shown_message (st_info "No posts yet. Be the first to share!") ]
           | _ => map (fun r => shown_post (p_username r) (p_content r) (p_timestamp r)) feed
           end)%list).

(** ** [strip] *)

Definition all_space (s : text) : Prop := Forall (fun c => py_isspace c = true) s.

Definition starts_clean (s : text) : Prop :=
  forall c, head s = Some c -> py_isspace c = false.

Definition ends_clean (s : text) : Prop :=
  forall c, last s = Some c -> py_isspace c = false.

Lemma lstrip_split s :
  exists l, s = (l ++ lstrip s)%list /\ all_space l /\ starts_clean (lstrip s).
Proof.
  induction s as [|c s (l & Hs & Hl & Hclean)]; simpl.
  - exists []. repeat split; [constructor|]. intros c [=].
  - destruct (py_isspace c) eqn:E.
    + exists (c :: l). simpl. rewrite <- Hs. repeat split; [|exact Hclean].
      constructor; assumption.
    + exists []. repeat split; [constructor|]. intros c' [= <-]. exact E.
Qed.

Lemma lstrip_clean s : starts_clean s -> lstrip s = s.
Proof.
  destruct s as [|c s]; [reflexivity|]. intros Hclean. simpl.
  rewrite (Hclean c eq_refl). reflexivity.
Qed.

Lemma lstrip_all_space s : all_space s -> lstrip s = [].
Proof. induction 1 as [|c s Hc _ IH]; simpl; [reflexivity|]. rewrite Hc. exact IH. Qed.

Lemma rstrip_split s :
  exists r, s = (rstrip s ++ r)%list /\ all_space r /\ ends_clean (rstrip s).
Proof.
  unfold rstrip. destruct (lstrip_split (reverse s)) as (l & Hs & Hl & Hclean).
  exists (reverse l). repeat split.
  - rewrite <- reverse_app, <- Hs, reverse_involutive. reflexivity.
  - apply Forall_reverse. exact Hl.
  - intros c. rewrite last_reverse. apply Hclean.
Qed.

Lemma head_app_nonempty {A} (l1 l2 : list A) :
  l1 <> [] -> head (l1 ++ l2) = head l1.
Proof. destruct l1; [congruence|reflexivity]. Qed.

(** [strip] removes a run of whitespace at each end and nothing else; what is
    left neither starts nor ends with whitespace. *)
Lemma strip_split s :
  exists l r,
    s = (l ++ strip s ++ r)%list /\ all_space l /\ all_space r /\
    starts_clean (strip s) /\ ends_clean (strip s).
Proof.
  unfold strip. destruct (lstrip_split s) as (l & Hs & Hl & Hclean).
  destruct (rstrip_split (lstrip s)) as (r & Hs' & Hr & Hclean').
  exists l, r. repeat split; try assumption.
  - rewrite <- Hs'. exact Hs.
  - intros c Hc. apply Hclean.
    destruct (rstrip (lstrip s)) as [|c' s'] eqn:E; [discriminate|].
    rewrite Hs'. exact Hc.
Qed.

Lemma strip_all_space s : all_space s <-> strip s = [].
Proof.
  split.
  - intros Hs. unfold strip. rewrite (lstrip_all_space _ Hs). reflexivity.
  - intros Hempty. destruct (strip_split s) as (l & r & Hs & Hl & Hr & _).
    rewrite Hempty in Hs. rewrite Hs. apply Forall_app. auto.
Qed.

Lemma strip_clean s : starts_clean s -> ends_clean s -> strip s = s.
Proof.
  intros Hstart Hend. unfold strip, rstrip. rewrite (lstrip_clean _ Hstart).
  rewrite lstrip_clean; [apply reverse_involutive|].
  intros c. rewrite head_reverse. apply Hend.
Qed.

Lemma strip_idem s : strip (strip s) = strip s.
Proof.
  destruct (strip_split s) as (_ & _ & _ & _ & _ & Hstart & Hend).
  apply strip_clean; assumption.
Qed.

Lemma nonempty_true s : nonempty s = true <-> s <> [].
Proof. destruct s; simpl; split; congruence. Qed.

(** ** The order of the listings *)

#[global] Instance newest_first_total {A} (timestamp : A -> Z) :
  Total (newest_first timestamp).
Proof. intros a b. unfold newest_first. lia. Qed.

#[global] Instance newest_first_trans {A} (timestamp : A -> Z) :
  Transitive (newest_first timestamp).
Proof. intros a b c. unfold newest_first. lia. Qed.

#[global] Instance oldest_first_total {A} (timestamp : A -> Z) :
  Total (oldest_first timestamp).
Proof. intros a b. unfold oldest_first. lia. Qed.

#[global] Instance oldest_first_trans {A} (timestamp : A -> Z) :
  Transitive (oldest_first timestamp).
Proof. intros a b c. unfold oldest_first. lia. Qed.

Lemma select_journal_spec user_id pd :
  select_journal user_id pd ≡ₚ
    filter (fun r => j_user_id r = user_id) (journal_entries pd) /\
  StronglySorted (newest_first j_timestamp) (select_journal user_id pd).
Proof.
  unfold select_journal. split.
  - apply merge_sort_Permutation.
  - apply StronglySorted_merge_sort; apply _.
Qed.

Lemma select_mood_spec user_id pd :
  select_mood user_id pd ≡ₚ
    filter (fun r => m_user_id r = user_id) (mood_entries pd) /\
  StronglySorted (oldest_first m_timestamp) (select_mood user_id pd).
Proof.
  unfold select_mood. split.
  - apply merge_sort_Permutation.
  - apply StronglySorted_merge_sort; apply _.
Qed.

Lemma elem_of_select_journal user_id pd row :
  row ∈ select_journal user_id pd <->
  row ∈ journal_entries pd /\ j_user_id row = user_id.
Proof.
  destruct (select_journal_spec user_id pd) as [Hperm _].
  rewrite Hperm, list_elem_of_filter. tauto.
Qed.

Lemma elem_of_select_mood user_id pd row :
  row ∈ select_mood user_id pd <->
  row ∈ mood_entries pd /\ m_user_id row = user_id.
Proof.
  destruct (select_mood_spec user_id pd) as [Hperm _].
  rewrite Hperm, list_elem_of_filter. tauto.
Qed.

(** ** Properties of the pages *)

(** X15: a submitted post is stored exactly when its text holds a character
    that is not whitespace.  What is stored is the text without the runs of
    whitespace at its two ends, under the session's user id and username; a
    blank text is answered with a warning and the table is left as it was. *)
Theorem connect_page_stores_stripped (content : text) (now : Z)
    (ss : gmap string value) (pd : pages_db) (user_id username : value) :
  ss !! "user_id" = Some user_id ->
  ss !! "username" = Some username ->
  (Exists (fun c => py_isspace c = false) content ->
   exists l r,
     content = (l ++ strip content ++ r)%list /\ all_space l /\ all_space r /\
     strip content <> [] /\ starts_clean (strip content) /\
     ends_clean (strip content) /\
     connect_page content true now ss pd =
       Some (mk_pages_db (journal_entries pd) (journal_entries_seq pd)
               (mood_entries pd) (mood_entries_seq pd)
               (posts pd ++
                  [ mk_post (next_rowid (map p_id (posts pd))) user_id username
                      (strip content) now ])%list,
             [ shown_message (st_success "Your post has been shared!") ])) /\
  (all_space content ->
   exists out,
     connect_page content true now ss pd =
       Some (pd,
             shown_message (st_warning "Please write something before posting.")
             :: out)).
Proof.
  intros Huid Hname. split.
  - intros Hex.
    destruct (strip_split content) as (l & r & Hs & Hl & Hr & Hstart & Hend).
    assert (Hne : strip content <> []).
    { intros Hempty. apply strip_all_space in Hempty.
      apply Exists_exists in Hex as (c & Hin & Hc).
      unfold all_space in Hempty. rewrite Forall_forall in Hempty.
      rewrite (Hempty c Hin) in Hc. discriminate. }
    exists l, r. repeat split; try assumption.
    unfold connect_page. apply nonempty_true in Hne. rewrite Hne. simpl.
    rewrite Huid. simpl. rewrite Hname. reflexivity.
  - intros Hblank. apply strip_all_space in Hblank.
    unfold connect_page. rewrite Hblank. simpl. eexists. reflexivity.
Qed.

(** X16: a saved journal entry is stored verbatim (whitespace included, only
    the empty text is refused) as one new row under the session's user id,
    and the next run of the page lists it; saving the empty text warns and
    stores nothing. *)
Theorem journal_page_saves_entry (entry : text) (now : Z)
    (ss : gmap string value) (pd : pages_db) (user_id : value) :
  ss !! "user_id" = Some user_id ->
  (entry <> [] ->
   exists pd',
     journal_page entry true now ss pd =
       Some (pd', [ shown_message (st_success "Journal entry saved!") ]) /\
     journal_entries pd' =
       (journal_entries pd ++
          [ mk_journal (journal_entries_seq pd + 1) user_id now entry ])%list /\
     mood_entries pd' = mood_entries pd /\ posts pd' = posts pd /\
     forall entry' now', exists out,
       journal_page entry' false now' ss pd' = Some (pd', out) /\
       shown_entry now entry ∈ out) /\
  (exists out,
     journal_page [] true now ss pd =
       Some (pd,
             shown_message (st_warning "Please write something before saving.")
             :: out)).
Proof.
  intros Huid. split.
  - intros Hne. apply nonempty_true in Hne.
    eexists. split.
    { unfold journal_page. rewrite Hne. simpl. rewrite Huid. reflexivity. }
    cbn [journal_entries mood_entries posts]. repeat split.
    intros entry' now'. unfold journal_page. simpl. rewrite Huid. simpl.
    eexists. split; [reflexivity|].
    set (row := mk_journal (journal_entries_seq pd + 1) user_id now entry).
    set (pd' := mk_pages_db _ _ _ _ _).
    assert (Hin : row ∈ select_journal user_id pd').
    { apply elem_of_select_journal. split; [|reflexivity].
      unfold pd'. cbn [journal_entries]. apply elem_of_app. right. left. }
    destruct (select_journal user_id pd') as [|r rs] eqn:E.
    { apply elem_of_nil in Hin. destruct Hin. }
    change (shown_entry now entry)
      with ((fun r => shown_entry (j_timestamp r) (j_entry_text r)) row).
    apply list_elem_of_fmap_2. exact Hin.
  - unfold journal_page. simpl. rewrite Huid. simpl. eexists. reflexivity.
Qed.

(** X17: the journal page lists exactly the entries stored under the
    session's user id, each once, newest first; entries of other user ids
    never show. *)
Theorem journal_page_lists_own_entries (entry : text) (now : Z)
    (ss : gmap string value) (pd : pages_db) (user_id : value) :
  ss !! "user_id" = Some user_id ->
  exists entries,
    entries ≡ₚ filter (fun r => j_user_id r = user_id) (journal_entries pd) /\
    StronglySorted (newest_first j_timestamp) entries /\
    (forall row, row ∈ entries <->
                 row ∈ journal_entries pd /\ j_user_id row = user_id) /\
    journal_page entry false now ss pd =
      Some (pd,
            match entries with
            | [] => [ shown_message
                        (st_info "You haven't written any journal entries yet.") ]
            | _ => map (fun r => shown_entry (j_timestamp r) (j_entry_text r)) entries
            end).
Proof.
  intros Huid. exists (select_journal user_id pd).
  destruct (select_journal_spec user_id pd) as [Hperm Hsorted].
  split; [exact Hperm|]. split; [exact Hsorted|].
  split; [intros row; apply elem_of_select_journal|].
  unfold journal_page. simpl. rewrite Huid. reflexivity.
Qed.

(** X18: the run that logs a mood stores one row with the slider's value and
    draws the history with the new point in it, oldest first: the notice "No
    mood data logged yet" never follows a logged mood. *)
Theorem mood_page_logs_and_draws (mood_score : Z) (mood_notes : text) (now : Z)
    (ss : gmap string value) (pd : pages_db) (user_id : value) :
  ss !! "user_id" = Some user_id ->
  exists pd' history,
    mood_tracker_page mood_score mood_notes true now ss pd =
      Some (pd',
            [ shown_message (st_success "Mood logged successfully!");
              shown_chart (map (fun r => (m_timestamp r, m_mood_score r)) history) ]) /\
    mood_entries pd' =
      (mood_entries pd ++
         [ mk_mood (mood_entries_seq pd + 1) user_id now mood_score mood_notes ])%list /\
    journal_entries pd' = journal_entries pd /\ posts pd' = posts pd /\
    mk_mood (mood_entries_seq pd + 1) user_id now mood_score mood_notes ∈ history /\
    (forall row, row ∈ history <-> row ∈ mood_entries pd' /\ m_user_id row = user_id) /\
    StronglySorted (oldest_first m_timestamp) history.
Proof.
  intros Huid.
  set (row := mk_mood (mood_entries_seq pd + 1) user_id now mood_score mood_notes).
  set (pd' := mk_pages_db (journal_entries pd) (journal_entries_seq pd)
                (mood_entries pd ++ [row])%list (mood_entries_seq pd + 1) (posts pd)).
  assert (Hin : row ∈ select_mood user_id pd').
  { apply elem_of_select_mood. split; [|reflexivity].
    unfold pd'. cbn [mood_entries]. apply elem_of_app. right. left. }
  exists pd', (select_mood user_id pd'). split.
  { unfold mood_tracker_page. rewrite Huid. simpl. fold row. fold pd'.
    destruct (select_mood user_id pd') as [|r rs] eqn:E; [|reflexivity].
    apply elem_of_nil in Hin. destruct Hin. }
  split; [reflexivity|]. split; [reflexivity|]. split; [reflexivity|].
  split; [exact Hin|].
  split; [intros r; apply elem_of_select_mood|apply (select_mood_spec user_id pd')].
Qed.

(** X19: the community feed shows at most 20 posts of the table, newest
    first, and leaves out only posts that are not newer than every post it
    shows; with 20 posts or fewer it shows them all. *)
Theorem feed_shows_latest_posts (pd : pages_db) :
  (length (select_posts pd) <= 20)%nat /\
  StronglySorted (newest_first p_timestamp) (select_posts pd) /\
  (forall p, p ∈ select_posts pd -> p ∈ posts pd) /\
  (forall p q,
      p ∈ select_posts pd -> q ∈ posts pd -> q ∉ select_posts pd ->
      p_timestamp q <= p_timestamp p) /\
  ((length (posts pd) <= 20)%nat -> select_posts pd ≡ₚ posts pd).
Proof.
  unfold select_posts.
  set (sorted := merge_sort (newest_first p_timestamp) (posts pd)).
  assert (Hperm : sorted ≡ₚ posts pd) by apply merge_sort_Permutation.
  assert (Hsorted : StronglySorted (newest_first p_timestamp) sorted)
    by (apply StronglySorted_merge_sort; apply _).
  rewrite <- (take_drop 20 sorted) in Hsorted.
  repeat split.
  - rewrite length_take. lia.
  - eapply StronglySorted_app_1_l, Hsorted.
  - intros p Hp. rewrite <- Hperm. rewrite <- (take_drop 20 sorted).
    apply elem_of_app. left. exact Hp.
  - intros p q Hp Hq Hout. rewrite <- Hperm in Hq.
    rewrite <- (take_drop 20 sorted) in Hq.
    apply elem_of_app in Hq as [Hq|Hq]; [contradiction|].
    exact (StronglySorted_app_1_elem_of _ _ _ _ _ Hsorted Hp Hq).
  - intros Hlen. rewrite take_ge; [exact Hperm|].
    rewrite Hperm. exact Hlen.
Qed.

(** ** What the three tables hold after any number of page runs *)

(** One run of one of the three pages, in any session; the slider hands
    [mood_tracker_page] a score between 1 and 5. *)
Inductive pages_step (pd : pages_db) : pages_db -> Prop :=
| step_journal entry save now ss pd' out :
    journal_page entry save now ss pd = Some (pd', out) -> pages_step pd pd'
| step_mood mood_score mood_notes log now ss pd' out :
    1 <= mood_score <= 5 ->
    mood_tracker_page mood_score mood_notes log now ss pd = Some (pd', out) ->
    pages_step pd pd'
| step_connect content post now ss pd' out :
    connect_page content post now ss pd = Some (pd', out) -> pages_step pd pd'.

Inductive pages_reachable : pages_db -> Prop :=
| pages_initial : pages_reachable init_pages_db
| pages_next pd pd' : pages_reachable pd -> pages_step pd pd' -> pages_reachable pd'.

Definition pages_inv (pd : pages_db) : Prop :=
  (Forall (fun r => j_entry_text r <> [] /\ j_id r <= journal_entries_seq pd)
          (journal_entries pd) /\
   NoDup (map j_id (journal_entries pd))) /\
  (Forall (fun r => 1 <= m_mood_score r <= 5 /\ m_id r <= mood_entries_seq pd)
          (mood_entries pd) /\
   NoDup (map m_id (mood_entries pd))) /\
  (Forall (fun r => p_content r <> [] /\ strip (p_content r) = p_content r)
          (posts pd) /\
   NoDup (map p_id (posts pd))).

Lemma next_rowid_fresh ids x : x ∈ ids -> x < next_rowid ids.
Proof.
  unfold next_rowid. induction ids as [|y ids IH]; intros Hin.
  - apply elem_of_nil in Hin. destruct Hin.
  - simpl. apply elem_of_cons in Hin as [->|Hin]; [lia|]. specialize (IH Hin). lia.
Qed.

Lemma NoDup_snoc_fresh (ids : list Z) id :
  (forall x, x ∈ ids -> x < id) -> NoDup ids -> NoDup (ids ++ [id]).
Proof.
  intros Hfresh Hnd. apply NoDup_app. split; [exact Hnd|]. split.
  - intros x Hx Hx'. apply list_elem_of_singleton in Hx'. subst x.
    specialize (Hfresh _ Hx). lia.
  - apply NoDup_singleton.
Qed.

Lemma journal_page_effect entry save now ss pd pd' out :
  journal_page entry save now ss pd = Some (pd', out) ->
  pd' = pd \/
  exists user_id,
    entry <> [] /\
    pd' = mk_pages_db
            (journal_entries pd ++
               [mk_journal (journal_entries_seq pd + 1) user_id now entry])
            (journal_entries_seq pd + 1) (mood_entries pd) (mood_entries_seq pd)
            (posts pd).
Proof.
  unfold journal_page. intros Hrun.
  destruct (save && nonempty entry) eqn:E;
    destruct (ss !! "user_id") as [user_id|]; try discriminate;
    simpl in Hrun; injection Hrun as <- _; [|auto].
  right. exists user_id. split; [|reflexivity].
  apply andb_true_iff in E as [_ E]. apply nonempty_true, E.
Qed.

Lemma mood_page_effect mood_score mood_notes log now ss pd pd' out :
  mood_tracker_page mood_score mood_notes log now ss pd = Some (pd', out) ->
  pd' = pd \/
  exists user_id,
    pd' = mk_pages_db (journal_entries pd) (journal_entries_seq pd)
            (mood_entries pd ++
               [mk_mood (mood_entries_seq pd + 1) user_id now mood_score mood_notes])
            (mood_entries_seq pd + 1) (posts pd).
Proof.
  unfold mood_tracker_page. intros Hrun.
  destruct (ss !! "user_id") as [user_id|]; [|destruct log; discriminate].
  destruct log; simpl in Hrun; injection Hrun as <- _; eauto.
Qed.

Lemma connect_page_effect content post now ss pd pd' out :
  connect_page content post now ss pd = Some (pd', out) ->
  pd' = pd \/
  exists user_id username,
    strip content <> [] /\
    pd' = mk_pages_db (journal_entries pd) (journal_entries_seq pd)
            (mood_entries pd) (mood_entries_seq pd)
            (posts pd ++
               [mk_post (next_rowid (map p_id (posts pd))) user_id username
                  (strip content) now]).
Proof.
  unfold connect_page. intros Hrun.
  destruct (post && nonempty (strip content)) eqn:E.
  - destruct (ss !! "user_id") as [user_id|]; [|discriminate].
    destruct (ss !! "username") as [username|]; [|discriminate].
    simpl in Hrun. injection Hrun as <- _.
    right. exists user_id, username. split; [|reflexivity].
    apply andb_true_iff in E as [_ E]. apply nonempty_true, E.
  - injection Hrun as <- _. auto.
Qed.

Lemma pages_step_inv pd pd' : pages_inv pd -> pages_step pd pd' -> pages_inv pd'.
Proof.
  intros ((Hj & Hjid) & (Hm & Hmid) & (Hp & Hpid)) Hstep.
  destruct Hstep as [entry save now ss pd' out Hrun
                    |mood_score mood_notes log now ss pd' out Hscore Hrun
                    |content post now ss pd' out Hrun].
  - apply journal_page_effect in Hrun as [->|(user_id & Hne & ->)];
      [repeat split; assumption|].
    split; [|split; split; assumption].
    cbn [journal_entries journal_entries_seq]. split.
    + apply Forall_app. split.
      * eapply Forall_impl; [exact Hj|]. simpl. intros r [? ?]. split; [assumption|lia].
      * constructor; [|constructor]. simpl. split; [exact Hne|lia].
    + rewrite map_app. apply NoDup_snoc_fresh; [|exact Hjid].
      intros x Hx. apply list_elem_of_fmap in Hx as (r & -> & Hr).
      rewrite Forall_forall in Hj. destruct (Hj r Hr). simpl. lia.
  - apply mood_page_effect in Hrun as [->|(user_id & ->)];
      [repeat split; assumption|].
    split; [split; assumption|]. split; [|split; assumption].
    cbn [mood_entries mood_entries_seq]. split.
    + apply Forall_app. split.
      * eapply Forall_impl; [exact Hm|]. simpl. intros r [? ?]. split; [assumption|lia].
      * constructor; [|constructor]. simpl. split; [exact Hscore|lia].
    + rewrite map_app. apply NoDup_snoc_fresh; [|exact Hmid].
      intros x Hx. apply list_elem_of_fmap in Hx as (r & -> & Hr).
      rewrite Forall_forall in Hm. destruct (Hm r Hr). simpl. lia.
  - apply connect_page_effect in Hrun as [->|(user_id & username & Hne & ->)];
      [repeat split; assumption|].
    split; [split; assumption|]. split; [split; assumption|].
    cbn [posts]. split.
    + apply Forall_app. split; [exact Hp|].
      constructor; [|constructor]. simpl. split; [exact Hne|apply strip_idem].
    + rewrite map_app. apply NoDup_snoc_fresh; [|exact Hpid].
      intros x Hx. simpl. apply next_rowid_fresh, Hx.
Qed.

Lemma pages_reachable_inv pd : pages_reachable pd -> pages_inv pd.
Proof.
  induction 1 as [|pd pd' _ IH Hstep].
  - repeat split; constructor.
  - eapply pages_step_inv; eassumption.
Qed.

(** X20: whatever the pages are used for, the tables never hold an empty
    journal entry, a mood score outside 1..5, or a post that is blank or has
    whitespace at either end. *)
Theorem stored_texts_are_clean (pd : pages_db) :
  pages_reachable pd ->
  (forall r, r ∈ journal_entries pd -> j_entry_text r <> []) /\
  (forall r, r ∈ mood_entries pd -> 1 <= m_mood_score r <= 5) /\
  (forall r, r ∈ posts pd ->
     p_content r <> [] /\ starts_clean (p_content r) /\ ends_clean (p_content r)).
Proof.
  intros Hreach.
  destruct (pages_reachable_inv _ Hreach) as ((Hj & _) & (Hm & _) & (Hp & _)).
  rewrite Forall_forall in Hj. rewrite Forall_forall in Hm.
  rewrite Forall_forall in Hp.
  split; [|split].
  - intros r Hr. apply (Hj r Hr).
  - intros r Hr. apply (Hm r Hr).
  - intros r Hr. destruct (Hp r Hr) as [Hne Hstrip].
    split; [exact Hne|]. rewrite <- Hstrip.
    destruct (strip_split (p_content r)) as (_ & _ & _ & _ & _ & Hstart & Hend).
    split; assumption.
Qed.

(** X21: the ids of each of the three tables are pairwise distinct, for the
    two AUTOINCREMENT tables and for [posts], whose ids SQLite picks as the
    largest plus one. *)
Theorem page_row_ids_distinct (pd : pages_db) :
  pages_reachable pd ->
  NoDup (map j_id (journal_entries pd)) /\
  NoDup (map m_id (mood_entries pd)) /\
  NoDup (map p_id (posts pd)).
Proof.
  intros Hreach.
  destruct (pages_reachable_inv _ Hreach) as ((_ & Hj) & (_ & Hm) & (_ & Hp)).
  auto.
Qed.

(** * The companion chat

    [st.session_state.messages] is a list of role/content dictionaries.  The
    streamed completion is the answer of an outside service: the contents of
    its chunks in order ([None] for a chunk whose [delta] has no "content"),
    and whether the iteration ended or raised. *)

Record message := mk_message { msg_role : string; msg_content : string }.

Definition SYSTEM_PROMPT : string :=
  "You are a kind, empathetic, and supportive mental health companion. Your goal is to listen, validate feelings, and provide a safe space. Do not give medical advice. If the user expresses thoughts of self-harm or is in a crisis, gently guide them to the emergency resources provided in the app.".

Inductive stream_end :=
| StreamDone
| StreamRaised (e : string).

Record completion := mk_completion {
  deltas : list (option string);
  ended : stream_end
}.

(** The [try] block: [full_response] grows by each chunk's content; when the
    stream raises, it is replaced by the apology with the error's text. *)
Definition full_response_of (c : completion) : string :=
  match ended c with
  | StreamDone => fold_left (fun acc d => acc +:+ default "" d) (deltas c) ""
  | StreamRaised e =>
      "Sorry, I encountered an error. Please try again. Error: " +:+ e
  end.

Inductive chat_shown :=
| chat_notice (o : output)
| chat_bubble (role content : string).

Definition bubble (m : message) : chat_shown :=
  chat_bubble (msg_role m) (msg_content m).

(** [chatbot_page]: [create] is [openai.ChatCompletion.create] as a function
    of the messages sent, [prompt] what [st.chat_input] returned. *)
Definition chatbot_page (USE_OPENAI : bool) (create : list message -> completion)
    (prompt : option string) (messages : option (list message))
  : option (list message) * list chat_shown :=
  let warning :=
    chat_notice (st_warning "I am an AI and not a substitute for professional help. Please use the resources page if you are in crisis.") in
  if negb USE_OPENAI then
    (messages,
     [ warning;
       chat_notice (st_error "The AI chatbot is currently unavailable. The app owner needs to set an `OPENAI_API_KEY` environment variable.") ])
  else
    let messages :=
      match messages with
      | Some ms => ms
      | None => [ mk_message "system" SYSTEM_PROMPT ]
      end in
    let history :=
      map bubble (filter (fun m => msg_role m <> "system") messages) in
    match prompt with
    | Some (String c p) =>
        let prompt := String c p in
        let messages := (messages ++ [ mk_message "user" prompt ])%list in
        let full_response := full_response_of (create messages) in
        (Some (messages ++ [ mk_message "assistant" full_response ])%list,
         (warning :: history ++
          [ chat_bubble "user" prompt; chat_bubble "assistant" full_response ])%list)
    | _ => (Some messages, warning :: history)
    end.







(** ** Runs that do not reach the end of the page

    Streamlit stops a running script at one of its calls when the browser
    sends the next interaction, with an exception that derives from
    [BaseException]: [except Exception] (line 349) does not catch it, and what
    the run wrote to the session before stays.  The page calls Streamlit at
    three stretches between its writes to [messages]. *)
Inductive stop_point :=
| at_header    (* lines 314-319: nothing written yet *)
| at_history   (* lines 327-332: [messages] exists, the input is not read yet *)
| at_reply.    (* lines 334-351: the prompt is appended, the reply is not *)

(** [messages] after a run of [chatbot_page] that was stopped at [stop].  A
    run that shows the unavailable notice, or got no prompt, has no calls
    beyond the first, or the first two, stretches. *)
Definition chatbot_page_stopped (USE_OPENAI : bool) (prompt : option string)
    (stop : stop_point) (messages : option (list message))
  : option (list message) :=
  if negb USE_OPENAI then messages
  else
    match stop with
    | at_header => messages
    | at_history =>
        Some match messages with
             | Some ms => ms
             | None => [ mk_message "system" SYSTEM_PROMPT ]
             end
    | at_reply =>
        let messages :=
          match messages with
          | Some ms => ms
          | None => [ mk_message "system" SYSTEM_PROMPT ]
          end in
        match prompt with
        | Some (String c p) =>
            Some (messages ++ [ mk_message "user" (String c p) ])%list
        | _ => Some messages
        end
    end.

(** The chat states of a browser session when runs can be stopped: each run
    of the page goes to its end or is stopped at one of the three stretches.
    No other line of the script writes [messages]; the logout deletes
    [username] and [user_id] only. *)
Inductive chat_session : option (list message) -> Prop :=
| chat_session_start : chat_session None
| chat_session_run USE_OPENAI create prompt messages :
    chat_session messages ->
    chat_session (chatbot_page USE_OPENAI create prompt messages).1
| chat_session_stopped USE_OPENAI prompt stop messages :
    chat_session messages ->
    chat_session (chatbot_page_stopped USE_OPENAI prompt stop messages).

(** A transcript: the system prompt, then the user messages in order, each
    with the reply stored for it, if one was. *)
Definition transcript (items : list (string * option string)) : list message :=
  mk_message "system" SYSTEM_PROMPT ::
  flat_map (fun item =>
              mk_message "user" item.1 ::
              match item.2 with
              | Some reply => [ mk_message "assistant" reply ]
              | None => []
              end)
           items.

Lemma transcript_snoc_user items question :
  transcript (items ++ [(question, None)]) =
  (transcript items ++ [ mk_message "user" question ])%list.
Proof. unfold transcript. rewrite flat_map_app. reflexivity. Qed.

Lemma transcript_snoc_exchange items question answer :
  transcript (items ++ [(question, Some answer)]) =
  ((transcript items ++ [ mk_message "user" question ]) ++
   [ mk_message "assistant" answer ])%list.
Proof.
  unfold transcript. rewrite flat_map_app. simpl.
  rewrite <- app_assoc. reflexivity.
Qed.

Definition well_formed_history (messages : option (list message)) : Prop :=
  messages = None \/
  exists items,
    messages = Some (transcript items) /\
    Forall (fun item => item.1 <> "") items.

Lemma well_formed_history_start messages :
  well_formed_history messages ->
  exists items,
    match messages with
    | Some ms => ms
    | None => [ mk_message "system" SYSTEM_PROMPT ]
    end = transcript items /\
    Forall (fun item => item.1 <> "") items.
Proof.
  intros [->|(items & -> & Hitems)]; [|eauto].
  exists []. split; [reflexivity|constructor].
Qed.

Lemma chatbot_page_well_formed USE_OPENAI create prompt messages :
  well_formed_history messages ->
  well_formed_history (chatbot_page USE_OPENAI create prompt messages).1.
Proof.
  intros Hwf. unfold chatbot_page.
  destruct USE_OPENAI; cbn [negb fst]; [|exact Hwf].
  destruct (well_formed_history_start _ Hwf) as (items & -> & Hitems).
  right. destruct prompt as [[|c p]|]; cbn [fst]; eauto.
  eexists (items ++ [(String c p, Some _)])%list. split.
  - rewrite transcript_snoc_exchange. reflexivity.
  - apply Forall_app. split; [exact Hitems|]. constructor; [|constructor].
    simpl. discriminate.
Qed.

Lemma chatbot_page_stopped_well_formed USE_OPENAI prompt stop messages :
  well_formed_history messages ->
  well_formed_history (chatbot_page_stopped USE_OPENAI prompt stop messages).
Proof.
  intros Hwf. unfold chatbot_page_stopped.
  destruct USE_OPENAI; cbn [negb]; [|exact Hwf].
  destruct stop; [exact Hwf| |];
    destruct (well_formed_history_start _ Hwf) as (items & -> & Hitems);
    right; [eauto|].
  destruct prompt as [[|c p]|]; eauto.
  exists (items ++ [(String c p, None)])%list. split.
  - rewrite transcript_snoc_user. reflexivity.
  - apply Forall_app. split; [exact Hitems|]. constructor; [|constructor].
    simpl. discriminate.
Qed.

Lemma chat_session_well_formed messages :
  chat_session messages -> well_formed_history messages.
Proof.
  induction 1 as [|USE_OPENAI create prompt messages _ IH
                  |USE_OPENAI prompt stop messages _ IH].
  - left. reflexivity.
  - apply chatbot_page_well_formed, IH.
  - apply chatbot_page_stopped_well_formed, IH.
Qed.

(** X22: the chat history, once it exists, is always the system prompt
    followed by the user messages in order, none of them empty, each
    followed by at most one assistant message: by the reply or the apology
    when its run went to the end, by nothing when the run was stopped
    between storing the prompt (line 333) and storing the reply (line 353).
    This holds whether runs go to their end or are stopped on the way. *)
Theorem chat_history_shape (messages : option (list message)) :
  chat_session messages ->
  messages = None \/
  exists items : list (string * option string),
    messages = Some (transcript items) /\
    Forall (fun item => item.1 <> "") items /\
    (length items < length (transcript items) <= 2 * length items + 1)%nat.
Proof.
  intros Hreach.
  destruct (chat_session_well_formed _ Hreach) as [->|(items & -> & Hitems)];
    [auto|].
  right. exists items. split; [reflexivity|]. split; [exact Hitems|].
  unfold transcript. cbn [length]. clear.
  induction items as [|[question [reply|]] items IH]; cbn [flat_map app length snd];
    rewrite ?length_app; cbn [length]; lia.
Qed.


(** * The whole script

    One run of [main] over everything the script keeps between runs: the
    session keys and the tables of the first part, the tables of the journal,
    mood and community pages, and the chat history.  Here the router calls
    the page functions themselves, with the widgets of every page among the
    interactions. *)

Record app := mk_app {
  app_world : world;
  app_pages : pages_db;
  app_messages : option (list message)
}.

(** What a run gets from outside the script: whether [OPENAI_API_KEY] is set,
    the time [CURRENT_TIMESTAMP] gives an insert, the answer of
    [openai.ChatCompletion.create], and where the browser stops the run, if
    it does, while the chat page runs.  (On the other pages no Streamlit call
    lies between two writes, so that a stopped run leaves the state of a run
    that went to its end or of a run without interaction.) *)
Record outside := mk_outside {
  o_USE_OPENAI : bool;
  o_now : Z;
  o_create : list message -> completion;
  o_stop : option stop_point
}.

(** The interaction that triggered the run: one of the first part, or a
    button, form or input of a feature page with the values it reads. *)
Inductive app_event :=
| Basic (ev : event)
| ClickSaveEntry (entry : text)
| ClickLogMood (mood_score : Z) (mood_notes : text)
| SubmitPost (content : text)
| ChatInput (prompt : string).

(** To the sidebar, the home view and the screening page, a widget of
    another page did not fire. *)
Definition basic (aev : app_event) : event :=
  match aev with
  | Basic ev => ev
  | _ => Rerun
  end.

Inductive app_shown :=
| by_main (o : output)
| by_page (s : shown)
| by_chat (c : chat_shown).

(** [page_function()]: a button that did not fire leaves the text area, the
    slider (default 3) and the text input unread. *)
Definition app_run_page (o : outside) (f : handler) (aev : app_event) (a : app)
  : option (app * list app_shown) :=
  let w := app_world a in
  let ss := session_state w in
  match f with
  | h_journal_page =>
      '(pd, out) ←
        match aev with
        | ClickSaveEntry entry => journal_page entry true (o_now o) ss (app_pages a)
        | _ => journal_page [] false (o_now o) ss (app_pages a)
        end;
      Some (mk_app w pd (app_messages a), map by_page out)
  | h_mood_tracker_page =>
      '(pd, out) ←
        match aev with
        | ClickLogMood mood_score mood_notes =>
            mood_tracker_page mood_score mood_notes true (o_now o) ss (app_pages a)
        | _ => mood_tracker_page 3 [] false (o_now o) ss (app_pages a)
        end;
      Some (mk_app w pd (app_messages a), map by_page out)
  | h_screening_page =>
      '(w, out) ← screening_page (basic aev) w;
      Some (mk_app w (app_pages a) (app_messages a), map by_main out)
  | h_connect_page =>
      '(pd, out) ←
        match aev with
        | SubmitPost content => connect_page content true (o_now o) ss (app_pages a)
        | _ => connect_page [] false (o_now o) ss (app_pages a)
        end;
      Some (mk_app w pd (app_messages a), map by_page out)
  | h_chatbot_page =>
      let prompt :=
        match aev with
        | ChatInput prompt => Some prompt
        | _ => None
        end in
      match o_stop o with
      | Some stop =>
          Some (mk_app w (app_pages a)
                  (chatbot_page_stopped (o_USE_OPENAI o) prompt stop (app_messages a)),
                [])
      | None =>
          let '(messages, out) :=
            chatbot_page (o_USE_OPENAI o) (o_create o) prompt (app_messages a) in
          Some (mk_app w (app_pages a) messages, map by_chat out)
      end
  | h_resources_page => Some (a, [])
  end.

(** The routing part of [main], reached when the sidebar did not rerun. *)
Definition app_routing (o : outside) (aev : app_event) (a : app)
  : option (app * list app_shown) :=
  let w := app_world a in
  let ss := session_state w in
  logged_in ← ss !! "logged_in";
  if negb (truthy logged_in) then Some (a, map by_main welcome)
  else
    current_page ← ss !! "current_page";
    match dispatch current_page with
    | HomeView =>
        username ← ss !! "username";
        let out :=
          [ by_main (st_title ("Welcome back, " +:+ py_str username +:+ "!"));
            by_main (st_write "How can we support you today? Choose a feature to get started.") ] in
        match basic aev with
        | ClickGoTo feature =>
            if bool_decide (feature ∈ features)
            then Some (mk_app (mk_world (<["current_page" := VStr feature]> ss)
                                 (database w))
                         (app_pages a) (app_messages a), out)
            else Some (a, out)
        | _ => Some (a, out)
        end
    | PageView page_function =>
        match basic aev with
        | ClickBack =>
            Some (mk_app (mk_world (<["current_page" := VStr "Home"]> ss) (database w))
                    (app_pages a) (app_messages a), [])
        | _ =>
            match page_function with
            | Some f => app_run_page o f aev a
            | None => Some (a, [])
            end
        end
    end.

(** After a run without interaction the chat history exists when the run
    showed the chat page with the service available. *)
Definition shows_chat (o : outside) (ss : gmap string value) : bool :=
  o_USE_OPENAI o && authenticated ss &&
  bool_decide (ss !! "current_page" = Some (VStr "AI Companion")).

Definition rendered_messages (o : outside) (ss : gmap string value)
    (messages : option (list message)) : option (list message) :=
  if shows_chat o ss
  then Some (default [ mk_message "system" SYSTEM_PROMPT ] messages)
  else messages.

Section Script.

Context {deployment : Deployment}.

(** One run of [main]. *)
Definition app_main (o : outside) (aev : app_event) (a : app)
  : option (app * list app_shown) :=
  let w := mk_world (init_session (session_state (app_world a)))
             (database (app_world a)) in
  '(w, out, rerun) ← sidebar (basic aev) w;
  let a := mk_app w (app_pages a) (app_messages a) in
  if (rerun : bool) then Some (a, map by_main out)
  else
    '(a, out') ← app_routing o aev a;
    Some (a, (map by_main out ++ out')%list).

(** The states of one browser session: an empty session on fresh tables;
    each interaction runs [main], to its end or until it is stopped; other
    sessions write to the tables in between. *)
Inductive app_reachable : app -> Prop :=
| app_initial : app_reachable (mk_app (mk_world ∅ init_db) init_pages_db None)
| app_run o aev a a' out :
    app_reachable a -> app_main o aev a = Some (a', out) -> app_reachable a'
| app_other_db a d' :
    app_reachable a -> db_step (database (app_world a)) d' ->
    app_reachable (mk_app (mk_world (session_state (app_world a)) d')
                     (app_pages a) (app_messages a))
| app_other_pages a pd' :
    app_reachable a -> pages_step (app_pages a) pd' ->
    app_reachable (mk_app (app_world a) pd' (app_messages a)).

End Script.

(** ** The run of the whole script and the run of the first part *)

Ltac run_app :=
  cbn [mbind option_bind session_state database fst snd negb
       app_world app_pages app_messages basic].

Tactic Notation "run_app" "in" hyp(H) :=
  cbn [mbind option_bind session_state database fst snd negb
       app_world app_pages app_messages basic] in H.

Lemma journal_page_is_Some entry save now ss pd :
  is_Some (ss !! "user_id") -> is_Some (journal_page entry save now ss pd).
Proof.
  intros [user_id Huid]. unfold journal_page. rewrite Huid. run_app.
  destruct (save && nonempty entry); eauto.
Qed.

Lemma mood_tracker_page_is_Some mood_score mood_notes log now ss pd :
  is_Some (ss !! "user_id") ->
  is_Some (mood_tracker_page mood_score mood_notes log now ss pd).
Proof.
  intros [user_id Huid]. unfold mood_tracker_page. rewrite Huid. run_app.
  destruct log; run_app; eauto.
Qed.

Lemma connect_page_is_Some content post now ss pd :
  is_Some (ss !! "user_id") -> is_Some (ss !! "username") ->
  is_Some (connect_page content post now ss pd).
Proof.
  intros [user_id Huid] [username Hname]. unfold connect_page.
  rewrite Huid, Hname. run_app.
  destruct (post && nonempty (strip content)); eauto.
Qed.

(** A page drawn without its button leaves the tables as they are. *)
Lemma journal_page_render now ss pd pd' out :
  journal_page [] false now ss pd = Some (pd', out) -> pd' = pd.
Proof.
  unfold journal_page. cbn [andb].
  destruct (ss !! "user_id"); [|discriminate]. run_app.
  intros [= <- _]. reflexivity.
Qed.

Lemma mood_tracker_page_render mood_score mood_notes now ss pd pd' out :
  mood_tracker_page mood_score mood_notes false now ss pd = Some (pd', out) ->
  pd' = pd.
Proof.
  unfold mood_tracker_page. run_app.
  destruct (ss !! "user_id"); [|discriminate]. run_app.
  intros [= <- _]. reflexivity.
Qed.

Lemma connect_page_render content now ss pd pd' out :
  connect_page content false now ss pd = Some (pd', out) -> pd' = pd.
Proof. unfold connect_page. cbn [andb]. intros [= <- _]. reflexivity. Qed.

(** The page functions leave the session keys of the first part alone, and
    only the screening page writes the tables of the first part. *)
Lemma app_run_page_world o f aev a a' out :
  app_run_page o f aev a = Some (a', out) ->
  exists out', run_page f (basic aev) (app_world a) = Some (app_world a', out').
Proof.
  intros Hrun.
  destruct f; cbn [app_run_page run_page] in *.
  - destruct (match aev with ClickSaveEntry _ => _ | _ => _ end) as [[pd out1]|];
      [|discriminate].
    run_app in Hrun. injection Hrun as <- _. eauto.
  - destruct (match aev with ClickLogMood _ _ => _ | _ => _ end) as [[pd out1]|];
      [|discriminate].
    run_app in Hrun. injection Hrun as <- _. eauto.
  - destruct (screening_page (basic aev) (app_world a)) as [[w1 out1]|];
      [|discriminate].
    run_app in Hrun. injection Hrun as <- _. eauto.
  - destruct (match aev with SubmitPost _ => _ | _ => _ end) as [[pd out1]|];
      [|discriminate].
    run_app in Hrun. injection Hrun as <- _. eauto.
  - destruct (o_stop o).
    + injection Hrun as <- _. eauto.
    + destruct (chatbot_page _ _ _ _) as [messages out1].
      injection Hrun as <- _. eauto.
  - injection Hrun as <- _. eauto.
Qed.

Lemma app_routing_world o aev a a' out :
  app_routing o aev a = Some (a', out) ->
  exists out', routing (basic aev) (app_world a) = Some (app_world a', out').
Proof.
  unfold app_routing, routing. intros Hrun.
  destruct (session_state (app_world a) !! "logged_in") as [logged_in|];
    [|discriminate].
  run_app in Hrun. run_app.
  destruct (negb (truthy logged_in)).
  { injection Hrun as <- _. eauto. }
  destruct (session_state (app_world a) !! "current_page") as [current_page|];
    [|discriminate].
  run_app in Hrun. run_app.
  destruct (dispatch current_page) as [|page_function].
  - destruct (session_state (app_world a) !! "username") as [username|];
      [|discriminate].
    run_app in Hrun. run_app.
    destruct (basic aev); try (injection Hrun as <- _; eauto; fail).
    case_bool_decide; injection Hrun as <- _; eauto.
  - destruct (basic aev) eqn:Hev;
      try (destruct page_function as [f|];
           [rewrite <- Hev; eapply app_run_page_world; exact Hrun
           |injection Hrun as <- _; eauto]; fail).
    injection Hrun as <- _. eauto.
Qed.

Lemma app_run_page_is_Some o f aev a :
  is_Some (session_state (app_world a) !! "user_id") ->
  is_Some (session_state (app_world a) !! "username") ->
  radios_in_options (basic aev) ->
  is_Some (app_run_page o f aev a).
Proof.
  intros Huid Hname Hradio. destruct f; cbn [app_run_page].
  - assert (Hpage : is_Some match aev with
                            | ClickSaveEntry entry =>
                                journal_page entry true (o_now o)
                                  (session_state (app_world a)) (app_pages a)
                            | _ => journal_page [] false (o_now o)
                                     (session_state (app_world a)) (app_pages a)
                            end)
      by (destruct aev; apply journal_page_is_Some, Huid).
    destruct Hpage as [[pd out] ->]. run_app. eauto.
  - assert (Hpage : is_Some match aev with
                            | ClickLogMood mood_score mood_notes =>
                                mood_tracker_page mood_score mood_notes true (o_now o)
                                  (session_state (app_world a)) (app_pages a)
                            | _ => mood_tracker_page 3 [] false (o_now o)
                                     (session_state (app_world a)) (app_pages a)
                            end)
      by (destruct aev; apply mood_tracker_page_is_Some, Huid).
    destruct Hpage as [[pd out] ->]. run_app. eauto.
  - assert (Hpage : is_Some (screening_page (basic aev) (app_world a))).
    { destruct (basic aev); try (cbn [screening_page]; eauto; fail).
      destruct Huid as [user_id Huid].
      destruct (collect_results_Some t radio Hradio) as (results & Hres & _).
      rewrite (screening_page_calculate _ _ _ _ _ Hres Huid). eauto. }
    destruct Hpage as [[w out] ->]. run_app. eauto.
  - assert (Hpage : is_Some match aev with
                            | SubmitPost content =>
                                connect_page content true (o_now o)
                                  (session_state (app_world a)) (app_pages a)
                            | _ => connect_page [] false (o_now o)
                                     (session_state (app_world a)) (app_pages a)
                            end)
      by (destruct aev; apply connect_page_is_Some; assumption).
    destruct Hpage as [[pd out] ->]. run_app. eauto.
  - destruct (o_stop o); [eauto|].
    destruct (chatbot_page _ _ _ _). eauto.
  - eauto.
Qed.

Lemma app_routing_is_Some o aev a :
  is_Some (session_state (app_world a) !! "logged_in") ->
  is_Some (session_state (app_world a) !! "current_page") ->
  (authenticated (session_state (app_world a)) = true ->
   is_Some (session_state (app_world a) !! "username") /\
   is_Some (session_state (app_world a) !! "user_id")) ->
  radios_in_options (basic aev) ->
  is_Some (app_routing o aev a).
Proof.
  intros [v Hv] [cp Hcp] Hid Hradio.
  unfold authenticated in Hid. rewrite Hv in Hid.
  unfold app_routing. rewrite Hv. run_app.
  destruct (truthy v); cbn [negb]; [|eauto].
  destruct (Hid eq_refl) as [[name Hname] Huid].
  rewrite Hcp. run_app.
  destruct (dispatch cp) as [|[f|]].
  - rewrite Hname. run_app. destruct (basic aev); eauto. case_bool_decide; eauto.
  - destruct (basic aev) eqn:Hev; eauto;
      apply app_run_page_is_Some; eauto; rewrite Hev; exact Hradio.
  - destruct (basic aev); eauto.
Qed.

(** Only the name "AI Companion" routes to the chat page. *)
Lemma dispatch_chatbot current_page :
  dispatch current_page = PageView (Some h_chatbot_page) ->
  current_page = VStr "AI Companion".
Proof.
  destruct current_page as [b|name|z]; try discriminate.
  intros Hd. destruct (decide (name ∈ map fst pages)) as [Hin|Hout].
  - simpl in Hin.
    repeat (apply elem_of_cons in Hin as [->|Hin];
            [first [reflexivity | vm_compute in Hd; discriminate]|]).
    apply elem_of_nil in Hin. destruct Hin.
  - unfold dispatch, pages_get in Hd. rewrite (assoc_None _ _ Hout) in Hd.
    destruct (eq_str (VStr name) "Home"); discriminate.
Qed.

Lemma shows_chat_other o ss current_page :
  ss !! "current_page" = Some current_page ->
  dispatch current_page <> PageView (Some h_chatbot_page) ->
  shows_chat o ss = false.
Proof.
  intros Hcp Hd. unfold shows_chat. case_bool_decide as Hchat.
  - rewrite Hcp in Hchat. injection Hchat as ->. destruct Hd. reflexivity.
  - apply andb_false_r.
Qed.

Lemma shows_chat_page o ss :
  authenticated ss = true ->
  ss !! "current_page" = Some (VStr "AI Companion") ->
  shows_chat o ss = o_USE_OPENAI o.
Proof.
  intros Hauth Hcp. unfold shows_chat. rewrite Hauth.
  rewrite bool_decide_eq_true_2 by exact Hcp.
  rewrite !andb_true_r. reflexivity.
Qed.

Lemma shows_chat_anonymous o ss : authenticated ss = false -> shows_chat o ss = false.
Proof.
  intros Hanon. unfold shows_chat. rewrite Hanon, andb_false_r. reflexivity.
Qed.

Lemma shows_chat_init_session o ss :
  shows_chat o (init_session ss) = shows_chat o ss.
Proof.
  unfold shows_chat. rewrite authenticated_init_session. f_equal.
  rewrite init_session_lookup.
  destruct (ss !! "current_page") as [v|]; [reflexivity|].
  cbn. rewrite !bool_decide_eq_false_2 by discriminate. reflexivity.
Qed.

Lemma shows_chat_rendered o ss m :
  rendered_messages o (init_session ss) m = rendered_messages o ss m.
Proof. unfold rendered_messages. rewrite shows_chat_init_session. reflexivity. Qed.

(** The routing part in a logged-in session, run without interaction: the
    state it leaves is the one it leaves when run again. *)
Lemma app_routing_rerun o a :
  o_stop o = None ->
  authenticated (session_state (app_world a)) = true ->
  is_Some (session_state (app_world a) !! "username") ->
  is_Some (session_state (app_world a) !! "user_id") ->
  is_Some (session_state (app_world a) !! "current_page") ->
  exists out,
    app_routing o (Basic Rerun) a =
      Some (mk_app (app_world a) (app_pages a)
              (rendered_messages o (session_state (app_world a)) (app_messages a)),
            out) /\
    app_routing o (Basic Rerun)
      (mk_app (app_world a) (app_pages a)
         (rendered_messages o (session_state (app_world a)) (app_messages a))) =
      Some (mk_app (app_world a) (app_pages a)
              (rendered_messages o (session_state (app_world a)) (app_messages a)),
            out).
Proof.
  destruct a as [w pd m]. cbn [app_world app_pages app_messages].
  intros Hstop Hauth [name Hname] Huid [cp Hcp].
  pose proof Hauth as Htr. unfold authenticated in Htr.
  destruct (session_state w !! "logged_in") as [v|] eqn:Hv; [|discriminate].
  unfold app_routing. run_app. rewrite Hv. run_app. rewrite Htr. run_app.
  rewrite Hcp. run_app.
  assert (Hother : dispatch cp <> PageView (Some h_chatbot_page) ->
                   rendered_messages o (session_state w) m = m).
  { intros Hd. unfold rendered_messages.
    rewrite (shows_chat_other _ _ _ Hcp Hd). reflexivity. }
  destruct (dispatch cp) as [|[f|]] eqn:Hd.
  - rewrite Hother by discriminate. rewrite Hname. run_app. eauto.
  - destruct f; cbn [app_run_page]; run_app;
      try (rewrite Hother by discriminate).
    + destruct (journal_page_is_Some [] false (o_now o) (session_state w) pd Huid)
        as [[pd' out] Hpage].
      rewrite Hpage. rewrite (journal_page_render _ _ _ _ _ Hpage). run_app. eauto.
    + destruct (mood_tracker_page_is_Some 3 [] false (o_now o) (session_state w) pd
                  Huid) as [[pd' out] Hpage].
      rewrite Hpage. rewrite (mood_tracker_page_render _ _ _ _ _ _ _ Hpage).
      run_app. eauto.
    + cbn [screening_page]. run_app. eauto.
    + assert (Hpage : is_Some (connect_page [] false (o_now o) (session_state w) pd))
        by (unfold connect_page; cbn [andb]; eauto).
      destruct Hpage as [[pd' out] Hpage].
      rewrite Hpage. rewrite (connect_page_render _ _ _ _ _ _ Hpage). run_app. eauto.
    + apply dispatch_chatbot in Hd. subst cp.
      unfold rendered_messages. rewrite (shows_chat_page _ _ Hauth Hcp).
      rewrite Hstop. unfold chatbot_page.
      destruct (o_USE_OPENAI o); cbn [negb]; [|eauto].
      destruct m as [ms|]; cbn [default]; eauto.
    + eauto.
  - rewrite Hother by discriminate. eauto.
Qed.

(** ** Runs of the whole script *)

Section ScriptProperties.

Context {deployment : Deployment}.

Lemma app_main_world o aev a a' out :
  app_main o aev a = Some (a', out) ->
  exists out', main (basic aev) (app_world a) = Some (app_world a', out').
Proof.
  unfold app_main, main. intros Hrun.
  destruct (sidebar (basic aev) _) as [[[w1 out1] rerun]|]; [|discriminate].
  run_app in Hrun. run_app.
  destruct rerun.
  - injection Hrun as <- _. eauto.
  - destruct (app_routing o aev _) as [[a1 out2]|] eqn:Hroute; [|discriminate].
    run_app in Hrun. injection Hrun as <- _.
    destruct (app_routing_world _ _ _ _ _ Hroute) as [out' Hw].
    cbn [app_world] in Hw. rewrite Hw. run_app. eauto.
Qed.

(** The first part of the state goes through the states of the first part. *)
Lemma app_reachable_world a : app_reachable a -> reachable (app_world a).
Proof.
  induction 1 as [|o aev a a' out _ IH Hrun|a d' _ IH Hstep|a pd' _ IH _].
  - apply reachable_initial.
  - destruct (app_main_world _ _ _ _ _ Hrun) as [out' Hw].
    eapply reachable_main; eassumption.
  - apply reachable_other; assumption.
  - exact IH.
Qed.

(** A sidebar that did not rerun left the session as it was. *)
Lemma sidebar_no_rerun ev w w' out :
  sidebar ev w = Some (w', out, false) -> session_state w' = session_state w.
Proof.
  unfold sidebar. intros Hrun.
  destruct (session_state w !! "logged_in") as [v|]; [|discriminate].
  run_app in Hrun. destruct (truthy v).
  - destruct (session_state w !! "username"); [|discriminate]. run_app in Hrun.
    destruct ev; try (injection Hrun as <- _; reflexivity).
    destruct (del "username" _); [|discriminate]. run_app in Hrun.
    destruct (del "user_id" _); discriminate.
  - destruct ev; try (injection Hrun as <- _; reflexivity).
    + destruct (String.eqb username "moderator" && String.eqb password MOD_PASSWORD);
        [discriminate|].
      destruct (login username password (database w)); [discriminate|].
      injection Hrun as <- _. reflexivity.
    + destruct (signup new_username new_password (database w)) as [[|] d'];
        injection Hrun as <- _; reflexivity.
Qed.

Lemma app_main_is_Some o aev a :
  app_reachable a -> radios_in_options (basic aev) -> is_Some (app_main o aev a).
Proof.
  intros Hreach Hradio. apply app_reachable_world in Hreach.
  pose proof (main_is_Some _ _ Hreach Hradio) as Hmain.
  destruct (reachable_inv _ Hreach) as [Hdb Hinv].
  unfold main in Hmain. unfold app_main.
  destruct (sidebar (basic aev) _) as [[[w1 out1] rerun]|] eqn:Hside.
  2: { destruct Hmain as [r Hr]. discriminate Hr. }
  run_app. destruct rerun; [eauto|].
  assert (Hroute : is_Some (app_routing o aev
                              (mk_app w1 (app_pages a) (app_messages a)))).
  { pose proof (sidebar_no_rerun _ _ _ _ Hside) as Hss.
    cbn [session_state] in Hss.
    apply sidebar_inv in Hside.
    2: { split; [exact Hdb|]. apply init_session_inv, Hinv. }
    destruct Hside as [_ Hinv1].
    apply app_routing_is_Some; cbn [app_world]; try assumption.
    - rewrite Hss.
      destruct (init_session_authenticated (session_state (app_world a)))
        as (v & -> & _). eauto.
    - rewrite Hss.
      destruct (init_session_current_page (session_state (app_world a)))
        as (v & -> & _). eauto.
    - apply (inv_identity _ _ Hinv1). }
  destruct Hroute as [[a1 out2] ->]. run_app. eauto.
Qed.

(** [main] in a logged-in session: the sidebar greets and, unless the logout
    button fired, the routing part runs. *)
Lemma app_main_logged_in o aev a name :
  authenticated (session_state (app_world a)) = true ->
  session_state (app_world a) !! "username" = Some name ->
  basic aev <> ClickLogout ->
  app_main o aev a =
    '(a', out) ← app_routing o aev
                   (mk_app (mk_world (init_session (session_state (app_world a)))
                              (database (app_world a)))
                      (app_pages a) (app_messages a));
    Some (a', by_main (st_success ("Logged in as **" +:+ py_str name +:+ "**"))
              :: out).
Proof.
  intros Hauth Hname Hev.
  destruct (init_session_authenticated (session_state (app_world a)))
    as (v & Hv & Htr).
  rewrite Hauth in Htr.
  unfold app_main, sidebar. run_app. rewrite Hv. run_app. rewrite Htr.
  rewrite (init_session_keep _ _ _ Hname). run_app. cbv zeta.
  destruct (basic aev); try reflexivity. congruence.
Qed.

Lemma app_main_init_session o aev ss d pd m :
  app_main o aev (mk_app (mk_world (init_session ss) d) pd m) =
  app_main o aev (mk_app (mk_world ss d) pd m).
Proof.
  unfold app_main. cbn [app_world app_pages app_messages session_state database].
  rewrite init_session_idem. reflexivity.
Qed.

(** [main] without interaction in a session that is not logged in. *)
Lemma app_main_rerun_anonymous o a :
  authenticated (session_state (app_world a)) = false ->
  app_main o (Basic Rerun) a =
    Some (mk_app (mk_world (init_session (session_state (app_world a)))
                    (database (app_world a)))
            (app_pages a) (app_messages a),
          map by_main welcome).
Proof.
  intros Hanon.
  destruct (init_session_authenticated (session_state (app_world a)))
    as (v & Hv & Htr).
  rewrite Hanon in Htr.
  unfold app_main, sidebar, app_routing. run_app. rewrite Hv. run_app.
  rewrite Htr. run_app. rewrite Hv. run_app. rewrite Htr. reflexivity.
Qed.

(** A run without interaction leaves both groups of tables and the session
    as they are, but for the chat history, which the chat page creates; a
    second such run changes nothing and shows the same. *)
Lemma app_main_rerun o a :
  app_reachable a -> o_stop o = None ->
  exists out,
    app_main o (Basic Rerun) a =
      Some (mk_app (mk_world (init_session (session_state (app_world a)))
                      (database (app_world a)))
              (app_pages a)
              (rendered_messages o (session_state (app_world a)) (app_messages a)),
            out) /\
    app_main o (Basic Rerun)
      (mk_app (mk_world (init_session (session_state (app_world a)))
                 (database (app_world a)))
         (app_pages a)
         (rendered_messages o (session_state (app_world a)) (app_messages a))) =
      Some (mk_app (mk_world (init_session (session_state (app_world a)))
                      (database (app_world a)))
              (app_pages a)
              (rendered_messages o (session_state (app_world a)) (app_messages a)),
            out).
Proof.
  intros Hreach Hstop. apply app_reachable_world in Hreach.
  destruct (reachable_inv _ Hreach) as [_ Hinv].
  destruct a as [[ss d] pd m].
  cbn [app_world app_pages app_messages session_state database] in *.
  destruct (authenticated ss) eqn:Hauth.
  - destruct (inv_identity _ _ Hinv Hauth) as [[name Hname] [uid Huid]].
    pose proof (init_session_keep _ _ _ Hname) as Hname0.
    pose proof (init_session_keep _ _ _ Huid) as Huid0.
    assert (Hauth0 : authenticated (init_session ss) = true)
      by (rewrite authenticated_init_session; exact Hauth).
    destruct (app_routing_rerun o (mk_app (mk_world (init_session ss) d) pd m))
      as (out & Hfirst & Hsecond);
      cbn [app_world app_pages app_messages session_state]; eauto.
    { destruct (init_session_current_page ss) as (v & -> & _). eauto. }
    cbn [app_world app_pages app_messages session_state] in Hfirst, Hsecond.
    rewrite shows_chat_rendered in Hfirst, Hsecond.
    eexists. split.
    + rewrite (app_main_logged_in o _ _ name); cbn [app_world session_state basic];
        [|exact Hauth|exact Hname|discriminate].
      cbn [app_pages app_messages database]. rewrite Hfirst. run_app. reflexivity.
    + rewrite (app_main_logged_in o _ _ name); cbn [app_world session_state basic];
        [|exact Hauth0|exact Hname0|discriminate].
      cbn [app_pages app_messages database]. rewrite init_session_idem.
      rewrite Hsecond. run_app. reflexivity.
  - unfold rendered_messages. rewrite (shows_chat_anonymous _ _ Hauth).
    eexists. split.
    + apply app_main_rerun_anonymous. exact Hauth.
    + rewrite app_main_init_session. apply app_main_rerun_anonymous. exact Hauth.
Qed.

(** A feature card on the home view. *)
Lemma app_main_goto o a feature name :
  authenticated (session_state (app_world a)) = true ->
  session_state (app_world a) !! "username" = Some name ->
  session_state (app_world a) !! "current_page" = Some (VStr "Home") ->
  feature ∈ features ->
  app_main o (Basic (ClickGoTo feature)) a =
    Some (mk_app (mk_world (<["current_page" := VStr feature]>
                              (init_session (session_state (app_world a))))
                    (database (app_world a)))
            (app_pages a) (app_messages a),
          [ by_main (st_success ("Logged in as **" +:+ py_str name +:+ "**"));
            by_main (st_title ("Welcome back, " +:+ py_str name +:+ "!"));
            by_main (st_write "How can we support you today? Choose a feature to get started.") ]).
Proof.
  intros Hauth Hname Hcp Hf.
  destruct (init_session_authenticated (session_state (app_world a)))
    as (v & Hv & Htr).
  rewrite Hauth in Htr.
  rewrite (app_main_logged_in o _ _ name Hauth Hname) by discriminate.
  unfold app_routing. run_app. rewrite Hv. run_app. rewrite Htr. run_app.
  rewrite (init_session_keep _ _ _ Hcp). run_app.
  change (dispatch (VStr "Home")) with HomeView. cbv iota.
  rewrite (init_session_keep _ _ _ Hname). run_app.
  rewrite bool_decide_eq_true_2 by exact Hf. reflexivity.
Qed.

(** The back button on a feature page. *)
Lemma app_main_back o a feature name :
  authenticated (session_state (app_world a)) = true ->
  session_state (app_world a) !! "username" = Some name ->
  session_state (app_world a) !! "current_page" = Some (VStr feature) ->
  feature ∈ features ->
  app_main o (Basic ClickBack) a =
    Some (mk_app (mk_world (<["current_page" := VStr "Home"]>
                              (init_session (session_state (app_world a))))
                    (database (app_world a)))
            (app_pages a) (app_messages a),
          [ by_main (st_success ("Logged in as **" +:+ py_str name +:+ "**")) ]).
Proof.
  intros Hauth Hname Hcp Hf.
  destruct (init_session_authenticated (session_state (app_world a)))
    as (v & Hv & Htr).
  rewrite Hauth in Htr.
  destruct (dispatch_registered feature (features_registered _ Hf))
    as [[Hhome _]|[_ [f Hd]]].
  { destruct (features_not_home _ Hf Hhome). }
  rewrite (app_main_logged_in o _ _ name Hauth Hname) by discriminate.
  unfold app_routing. run_app. rewrite Hv. run_app. rewrite Htr. run_app.
  rewrite (init_session_keep _ _ _ Hcp). run_app. rewrite Hd. reflexivity.
Qed.

(** X1: in every state the script reaches, a run of [main] ends without a
    Python exception from a session attribute or a dictionary key that is
    not there, whatever the interaction: the sidebar's forms and logout, a
    feature card, the back button, Calculate (with radio answers among the
    option labels), Save Entry, Log Mood, Post or a chat prompt.  Every read
    of [username], [user_id], [logged_in], [current_page] and [messages] and
    every [scores[answer]] finds its key: the pages that read the identity
    run in logged-in sessions only, and those hold it.  (Calls to SQLite,
    pandas and Altair are taken to succeed; what the completion service
    raises is caught at line 349.) *)
Theorem app_main_never_raises (o : outside) (aev : app_event) (a : app) :
  app_reachable a -> radios_in_options (basic aev) -> is_Some (app_main o aev a).
Proof. apply app_main_is_Some. Qed.

(** X6: a run that no widget triggered and that goes to its end leaves the
    tables and the (initialised) session as they are.  Its one trace is on
    the AI Companion page with the service available: there it creates the
    chat history, holding the system prompt, when there is none.  Running
    again from the state it leaves changes nothing and shows the same. *)
Theorem app_rerun_no_effect (o : outside) (a : app) :
  app_reachable a -> o_stop o = None ->
  exists a' out,
    app_main o (Basic Rerun) a = Some (a', out) /\
    app_world a' =
      mk_world (init_session (session_state (app_world a))) (database (app_world a)) /\
    app_pages a' = app_pages a /\
    app_messages a' =
      (if o_USE_OPENAI o && authenticated (session_state (app_world a)) &&
          bool_decide (session_state (app_world a) !! "current_page"
                       = Some (VStr "AI Companion"))
       then Some (default [ mk_message "system" SYSTEM_PROMPT ] (app_messages a))
       else app_messages a) /\
    app_main o (Basic Rerun) a' = Some (a', out).
Proof.
  intros Hreach Hstop.
  destruct (app_main_rerun o a Hreach Hstop) as (out & Hfirst & Hsecond).
  eexists _, out. split; [exact Hfirst|].
  split; [reflexivity|]. split; [reflexivity|]. split; [reflexivity|].
  exact Hsecond.
Qed.

(** X8: from the home view a feature card opens its page, the page is
    drawn, and the back button returns to the state before the card was
    chosen: the same (initialised) session, the same tables.  The one trace
    of the visit is the chat history that the AI Companion page creates,
    holding the system prompt, when the service is available and there was
    none. *)
Theorem app_feature_and_back (o1 o2 o3 : outside) (a : app) (feature : string) :
  app_reachable a ->
  authenticated (session_state (app_world a)) = true ->
  session_state (app_world a) !! "current_page" = Some (VStr "Home") ->
  feature ∈ features ->
  o_stop o2 = None ->
  exists a1 out1 a2 out2 a3 out3,
    app_main o1 (Basic (ClickGoTo feature)) a = Some (a1, out1) /\
    session_state (app_world a1) !! "current_page" = Some (VStr feature) /\
    app_main o2 (Basic Rerun) a1 = Some (a2, out2) /\
    session_state (app_world a2) !! "current_page" = Some (VStr feature) /\
    app_main o3 (Basic ClickBack) a2 = Some (a3, out3) /\
    app_world a3 =
      mk_world (init_session (session_state (app_world a))) (database (app_world a)) /\
    app_pages a3 = app_pages a /\
    app_messages a3 =
      (if o_USE_OPENAI o2 && bool_decide (feature = "AI Companion")
       then Some (default [ mk_message "system" SYSTEM_PROMPT ] (app_messages a))
       else app_messages a).
Proof.
  intros Hreach Hauth Hcp Hf Hstop.
  pose proof (app_reachable_world _ Hreach) as Hworld.
  destruct (reachable_inv _ Hworld) as [_ Hinv].
  destruct (inv_identity _ _ Hinv Hauth) as [[name Hname] _].
  pose proof (app_main_goto o1 a feature name Hauth Hname Hcp Hf) as Hgo.
  destruct a as [[ss d] pd m].
  cbn [app_world app_pages app_messages session_state database] in *.
  pose proof (init_session_insert_current_page ss (VStr feature)) as Hidem.
  pose proof (init_session_keep _ _ _ Hcp) as Hcp0.
  pose proof (init_session_keep _ _ _ Hname) as Hname0.
  assert (Hauth1 : authenticated (<["current_page" := VStr feature]> (init_session ss))
                   = true).
  { unfold authenticated. rewrite lookup_insert_ne by done.
    fold (authenticated (init_session ss)).
    rewrite authenticated_init_session. exact Hauth. }
  assert (Hname1 : <["current_page" := VStr feature]> (init_session ss) !! "username"
                   = Some name)
    by (rewrite lookup_insert_ne by done; exact Hname0).
  assert (Hcp1 : <["current_page" := VStr feature]> (init_session ss) !! "current_page"
                 = Some (VStr feature))
    by apply lookup_insert_eq.
  destruct (app_main_rerun o2 _ (app_run _ _ _ _ _ Hreach Hgo) Hstop)
    as (out2 & Hrender & _).
  cbn [app_world app_pages app_messages session_state database] in Hrender.
  rewrite Hidem in Hrender.
  eexists _, _, _, _, _, _.
  split; [exact Hgo|]. split; [exact Hcp1|].
  split; [exact Hrender|]. split; [exact Hcp1|].
  split.
  { apply (app_main_back o3 _ feature name); assumption. }
  cbn [app_world app_pages app_messages session_state database].
  rewrite Hidem, insert_insert_eq, (insert_id _ _ _ Hcp0).
  split; [reflexivity|]. split; [reflexivity|].
  unfold rendered_messages, shows_chat. rewrite Hauth1, andb_true_r, Hcp1.
  rewrite (bool_decide_ext (Some (VStr feature) = Some (VStr "AI Companion"))
             (feature = "AI Companion")); [reflexivity|].
  split; [intros [= ->]; reflexivity|intros ->; reflexivity].
Qed.

End ScriptProperties.

(** * Concrete runs of the pages and of the chat *)

(** " hi " and "hi" as code points. *)
Definition padded_hi : text := [32; 104; 105; 32]%N.
Definition hi : text := [104; 105]%N.

(** The tables after the moderator posted " hi " at time 100. *)
Definition one_post_db : pages_db :=
  mk_pages_db [] 0 [] 0 [ mk_post 1 (VInt 0) (VStr "moderator") hi 100 ].

(** A journal holding entries of user ids 0, 1 and 0 again. *)
Definition shared_journal_db : pages_db :=
  mk_pages_db
    [ mk_journal 1 (VInt 0) 100 hi;
      mk_journal 2 (VInt 1) 200 padded_hi;
      mk_journal 3 (VInt 0) 300 padded_hi ] 3 [] 0 [].

(** A service that streams "Hel", a chunk without content, and "lo". *)
Definition sample_create (_ : list message) : completion :=
  mk_completion [ Some "Hel"; None; Some "lo" ] StreamDone.

Lemma moderator_session_user_id : moderator_session !! "user_id" = Some (VInt 0).
Proof. vm_compute. reflexivity. Qed.

Lemma moderator_session_username :
  moderator_session !! "username" = Some (VStr "moderator").
Proof. vm_compute. reflexivity. Qed.

Lemma one_post_db_reachable : pages_reachable one_post_db.
Proof.
  eapply pages_next; [apply pages_initial|].
  eapply (step_connect _ padded_hi true 100 moderator_session).
  vm_compute. reflexivity.
Qed.


(** X15 at work: " hi " is stored as "hi". *)
Lemma connect_page_stores_stripped_witness :
  Exists (fun c => py_isspace c = false) padded_hi /\
  connect_page padded_hi true 100 moderator_session init_pages_db =
    Some (one_post_db, [ shown_message (st_success "Your post has been shared!") ]).
Proof.
  assert (Hex : Exists (fun c => py_isspace c = false) padded_hi).
  { unfold padded_hi. apply Exists_cons_tl, Exists_cons_hd. reflexivity. }
  split; [exact Hex|].
  destruct (connect_page_stores_stripped padded_hi 100 moderator_session
              init_pages_db _ _ moderator_session_user_id
              moderator_session_username) as [Hstore _].
  destruct (Hstore Hex) as (l & r & _ & _ & _ & _ & _ & _ & Hrun).
  exact Hrun.
Defined.

(** X16 at work: an entry of one space is stored as it is. *)
Lemma journal_page_saves_entry_witness :
  exists pd',
    journal_page [32%N] true 100 moderator_session init_pages_db =
      Some (pd', [ shown_message (st_success "Journal entry saved!") ]) /\
    journal_entries pd' = [ mk_journal 1 (VInt 0) 100 [32%N] ].
Proof.
  destruct (journal_page_saves_entry [32%N] 100 moderator_session init_pages_db
              _ moderator_session_user_id) as [Hsave _].
  destruct Hsave as (pd' & Hrun & Hrows & _); [discriminate|].
  exists pd'. split; [exact Hrun|exact Hrows].
Defined.

(** X17 at work: user id 0 sees its two entries, the later one first, and not
    the entry of user id 1. *)
Lemma journal_page_lists_own_entries_witness :
  exists entries,
    (forall row, row ∈ entries <->
                 row ∈ journal_entries shared_journal_db /\ j_user_id row = VInt 0) /\
    journal_page [] false 400 moderator_session shared_journal_db =
      Some (shared_journal_db,
            match entries with
            | [] => [ shown_message
                        (st_info "You haven't written any journal entries yet.") ]
            | _ => map (fun r => shown_entry (j_timestamp r) (j_entry_text r)) entries
            end).
Proof.
  destruct (journal_page_lists_own_entries [] 400 moderator_session
              shared_journal_db _ moderator_session_user_id)
    as (entries & _ & _ & Hiff & Hrun).
  exists entries. split; [exact Hiff|exact Hrun].
Defined.

(** X18 at work: the first mood a user logs is drawn at once. *)
Lemma mood_page_logs_and_draws_witness :
  exists pd' history,
    mood_tracker_page 4 [] true 100 moderator_session init_pages_db =
      Some (pd',
            [ shown_message (st_success "Mood logged successfully!");
              shown_chart (map (fun r => (m_timestamp r, m_mood_score r)) history) ]) /\
    mk_mood 1 (VInt 0) 100 4 [] ∈ history.
Proof.
  destruct (mood_page_logs_and_draws 4 [] 100 moderator_session init_pages_db
              _ moderator_session_user_id)
    as (pd' & history & Hrun & _ & _ & _ & Hin & _).
  exists pd', history. split; [exact Hrun|exact Hin].
Defined.

(** X20 at work: the tables after one post. *)
Lemma stored_texts_are_clean_witness :
  pages_reachable one_post_db /\
  forall r, r ∈ posts one_post_db ->
    p_content r <> [] /\ starts_clean (p_content r) /\ ends_clean (p_content r).
Proof.
  split; [apply one_post_db_reachable|].
  apply (stored_texts_are_clean one_post_db one_post_db_reachable).
Defined.

(** The tables after the moderator wrote two journal entries, logged two
    moods and posted twice. *)
Definition busy_pages_db : pages_db :=
  mk_pages_db
    [ mk_journal 1 (VInt 0) 100 hi; mk_journal 2 (VInt 0) 110 padded_hi ] 2
    [ mk_mood 1 (VInt 0) 120 4 []; mk_mood 2 (VInt 0) 130 2 hi ] 2
    [ mk_post 1 (VInt 0) (VStr "moderator") hi 140;
      mk_post 2 (VInt 0) (VStr "moderator") hi 150 ].

Lemma busy_pages_db_reachable : pages_reachable busy_pages_db.
Proof.
  pose proof pages_initial as H0.
  assert (H1 : pages_reachable
                 (mk_pages_db [mk_journal 1 (VInt 0) 100 hi] 1 [] 0 [])).
  { eapply pages_next; [exact H0|].
    eapply (step_journal _ hi true 100 moderator_session).
    vm_compute. reflexivity. }
  assert (H2 : pages_reachable
                 (mk_pages_db (journal_entries busy_pages_db) 2 [] 0 [])).
  { eapply pages_next; [exact H1|].
    eapply (step_journal _ padded_hi true 110 moderator_session).
    vm_compute. reflexivity. }
  assert (H3 : pages_reachable
                 (mk_pages_db (journal_entries busy_pages_db) 2
                    [mk_mood 1 (VInt 0) 120 4 []] 1 [])).
  { eapply pages_next; [exact H2|].
    eapply (step_mood _ 4 [] true 120 moderator_session); [lia|].
    vm_compute. reflexivity. }
  assert (H4 : pages_reachable
                 (mk_pages_db (journal_entries busy_pages_db) 2
                    (mood_entries busy_pages_db) 2 [])).
  { eapply pages_next; [exact H3|].
    eapply (step_mood _ 2 hi true 130 moderator_session); [lia|].
    vm_compute. reflexivity. }
  assert (H5 : pages_reachable
                 (mk_pages_db (journal_entries busy_pages_db) 2
                    (mood_entries busy_pages_db) 2
                    [mk_post 1 (VInt 0) (VStr "moderator") hi 140])).
  { eapply pages_next; [exact H4|].
    eapply (step_connect _ hi true 140 moderator_session).
    vm_compute. reflexivity. }
  eapply pages_next; [exact H5|].
  eapply (step_connect _ padded_hi true 150 moderator_session).
  vm_compute. reflexivity.
Qed.

(** X21 at work: two rows in each table, with ids 1 and 2. *)
Lemma page_row_ids_distinct_witness :
  pages_reachable busy_pages_db /\
  map j_id (journal_entries busy_pages_db) = [1; 2] /\
  map m_id (mood_entries busy_pages_db) = [1; 2] /\
  map p_id (posts busy_pages_db) = [1; 2] /\
  NoDup (map j_id (journal_entries busy_pages_db)) /\
  NoDup (map m_id (mood_entries busy_pages_db)) /\
  NoDup (map p_id (posts busy_pages_db)).
Proof.
  split; [apply busy_pages_db_reachable|].
  split; [reflexivity|]. split; [reflexivity|]. split; [reflexivity|].
  apply (page_row_ids_distinct busy_pages_db busy_pages_db_reachable).
Defined.

(** A run that stored "hi" and was stopped while the reply streamed, then a
    run for "hi again" that went to its end. *)
Definition stopped_then_answered : option (list message) :=
  (chatbot_page true sample_create (Some "hi again")
     (chatbot_page_stopped true (Some "hi") at_reply None)).1.

Lemma stopped_then_answered_session : chat_session stopped_then_answered.
Proof. apply chat_session_run, chat_session_stopped, chat_session_start. Qed.

(** X22 at work: "hi" stays without a reply, "hi again" has one. *)
Lemma chat_history_shape_witness :
  chat_session stopped_then_answered /\
  stopped_then_answered =
    Some [ mk_message "system" SYSTEM_PROMPT;
           mk_message "user" "hi";
           mk_message "user" "hi again";
           mk_message "assistant" "Hello" ] /\
  (stopped_then_answered = None \/
   exists items : list (string * option string),
     stopped_then_answered = Some (transcript items) /\
     Forall (fun item => item.1 <> "") items /\
     (length items < length (transcript items) <= 2 * length items + 1)%nat).
Proof.
  split; [apply stopped_then_answered_session|].
  split; [reflexivity|].
  apply (chat_history_shape _ stopped_then_answered_session).
Defined.


(** ** Runs of the whole script *)

(** A run with the service available, at time 100, that goes to its end. *)
Definition sample_outside : outside := mk_outside true 100 sample_create None.

(** The moderator after the login, and after choosing the My Journal and the
    AI Companion cards. *)
Definition moderator_app : app := mk_app moderator_world init_pages_db None.

Definition journal_app : app :=
  mk_app (mk_world (<["current_page" := VStr "My Journal"]> moderator_session) init_db)
    init_pages_db None.

Definition companion_app : app :=
  mk_app (mk_world (<["current_page" := VStr "AI Companion"]> moderator_session) init_db)
    init_pages_db None.

Lemma moderator_app_reachable : app_reachable moderator_app.
Proof.
  eapply app_run with (o := sample_outside)
                      (aev := Basic (SubmitLogin "moderator" "modpass123"));
    [apply app_initial|].
  vm_compute. reflexivity.
Qed.

Lemma journal_app_reachable : app_reachable journal_app.
Proof.
  eapply app_run with (o := sample_outside) (aev := Basic (ClickGoTo "My Journal"));
    [apply moderator_app_reachable|].
  vm_compute. reflexivity.
Qed.

Lemma companion_app_reachable : app_reachable companion_app.
Proof.
  eapply app_run with (o := sample_outside) (aev := Basic (ClickGoTo "AI Companion"));
    [apply moderator_app_reachable|].
  vm_compute. reflexivity.
Qed.

(** X1 at work: the moderator saves the journal entry "hi"; the run reads
    [user_id] and stores the row. *)
Lemma app_main_never_raises_witness :
  app_reachable journal_app /\
  is_Some (app_main sample_outside (ClickSaveEntry hi) journal_app) /\
  (forall a' out,
     app_main sample_outside (ClickSaveEntry hi) journal_app = Some (a', out) ->
     journal_entries (app_pages a') = [ mk_journal 1 (VInt 0) 100 hi ]).
Proof.
  split; [apply journal_app_reachable|]. split.
  - apply (app_main_never_raises sample_outside (ClickSaveEntry hi) journal_app
             journal_app_reachable I).
  - intros a' out Hrun. vm_compute in Hrun. injection Hrun as <- _. reflexivity.
Defined.

(** X6 at work: the AI Companion page is drawn for the first time; the run
    creates the history, and drawing it again changes nothing. *)
Lemma app_rerun_no_effect_witness :
  app_reachable companion_app /\
  exists a' out,
    app_main sample_outside (Basic Rerun) companion_app = Some (a', out) /\
    app_world a' = app_world companion_app /\
    app_pages a' = init_pages_db /\
    app_messages a' = Some [ mk_message "system" SYSTEM_PROMPT ] /\
    app_main sample_outside (Basic Rerun) a' = Some (a', out).
Proof.
  split; [apply companion_app_reachable|].
  destruct (app_rerun_no_effect sample_outside companion_app
              companion_app_reachable eq_refl)
    as (a' & out & Hrun & Hworld & Hpages & Hmessages & Hagain).
  exists a', out. split; [exact Hrun|].
  split; [rewrite Hworld; vm_compute; reflexivity|].
  split; [exact Hpages|]. split; [|exact Hagain].
  rewrite Hmessages. vm_compute. reflexivity.
Defined.

(** X8 at work: the moderator opens the AI Companion page and goes back;
    the session is as before, and the chat history now exists. *)
Lemma app_feature_and_back_witness :
  app_reachable moderator_app /\
  exists a1 out1 a2 out2 a3 out3,
    app_main sample_outside (Basic (ClickGoTo "AI Companion")) moderator_app
      = Some (a1, out1) /\
    app_main sample_outside (Basic Rerun) a1 = Some (a2, out2) /\
    app_main sample_outside (Basic ClickBack) a2 = Some (a3, out3) /\
    app_world a3 = moderator_world /\
    app_pages a3 = init_pages_db /\
    app_messages a3 = Some [ mk_message "system" SYSTEM_PROMPT ].
Proof.
  split; [apply moderator_app_reachable|].
  assert (Hauth : authenticated (session_state (app_world moderator_app)) = true)
    by (vm_compute; reflexivity).
  assert (Hcp : session_state (app_world moderator_app) !! "current_page"
                = Some (VStr "Home")) by (vm_compute; reflexivity).
  assert (Hf : "AI Companion" ∈ features)
    by (unfold features; simpl; do 4 right; left).
  destruct (app_feature_and_back sample_outside sample_outside sample_outside
              moderator_app "AI Companion" moderator_app_reachable Hauth Hcp Hf
              eq_refl)
    as (a1 & out1 & a2 & out2 & a3 & out3 & Hgo & _ & Hdraw & _ & Hback
        & Hworld & Hpages & Hmessages).
  exists a1, out1, a2, out2, a3, out3.
  split; [exact Hgo|]. split; [exact Hdraw|]. split; [exact Hback|].
  split; [rewrite Hworld; vm_compute; reflexivity|].
  split; [exact Hpages|].
  rewrite Hmessages. vm_compute. reflexivity.
Defined.
